(** * IoT-DataFusionSuite: the hex decoder service and its accuracy validator

    A shallow embedding of [src/services/decoderService.js] (the class
    [DecoderService]) and of the summary computed by
    [DecoderController.validateDecoding], together with the parts of the
    JavaScript runtime these functions rely on: strings as sequences of
    UTF-16 code units, Numbers as IEEE-754 binary64 values,
    [Number.prototype.toFixed], [parseFloat], [Buffer.from(_, 'hex')] and
    [Buffer.prototype.readFloatLE].

    Logging calls have no influence on any returned value and are left out.
    The HTTP fetch is outside the service's own logic: the functions below
    take the fetched array ([response.data]) as their argument. *)

From Stdlib Require Import ZArith List Bool Lia String Ascii.
From Stdlib Require Import SpecFloat.
Import ListNotations.
Open Scope Z_scope.

(* ================================================================== *)
(** ** JavaScript strings *)
(* ================================================================== *)

Module JsString.

(** A JavaScript string is a finite sequence of UTF-16 code units. *)
Definition jsstring := list Z.

(** The code units of an ASCII literal. *)
Definition lit (s : string) : jsstring :=
  map (fun a => Z.of_N (N_of_ascii a)) (list_ascii_of_string s).

Definition eqb (s t : jsstring) : bool :=
  if list_eq_dec Z.eq_dec s t then true else false.

Definition len (s : jsstring) : Z := Z.of_nat (List.length s).

(** The class [\s] of a regular expression, which is also the set of
    characters [TrimString] removes: TAB, LF, VT, FF, CR, SP, NBSP, U+1680,
    U+2000..U+200A, LS, PS, U+202F, U+205F, U+3000 and the BOM. *)
Definition isWhiteSpace (c : Z) : bool :=
  ((9 <=? c) && (c <=? 13)) || (c =? 32) || (c =? 160) || (c =? 5760)
  || ((8192 <=? c) && (c <=? 8202)) || (c =? 8232) || (c =? 8233)
  || (c =? 8239) || (c =? 8287) || (c =? 12288) || (c =? 65279).

(** The class [[0-9A-Fa-f]], with the value of the digit. *)
Definition hexVal (c : Z) : option Z :=
  if (48 <=? c) && (c <=? 57) then Some (c - 48)
  else if (65 <=? c) && (c <=? 70) then Some (c - 55)
  else if (97 <=? c) && (c <=? 102) then Some (c - 87)
  else None.

Definition isHex (c : Z) : bool :=
  match hexVal c with Some _ => true | None => false end.

Definition isDigit (c : Z) : bool := (48 <=? c) && (c <=? 57).

(** [s.replace(/\s/g, '')] *)
Definition stripWhiteSpace (s : jsstring) : jsstring :=
  filter (fun c => negb (isWhiteSpace c)) s.

(** [/^[0-9A-Fa-f]+$/.test(s)] *)
Definition testHex (s : jsstring) : bool :=
  match s with
  | [] => false
  | _ => forallb isHex s
  end.

Fixpoint startsWith (p s : jsstring) : bool :=
  match p, s with
  | [], _ => true
  | a :: p', b :: s' => (a =? b) && startsWith p' s'
  | _ :: _, [] => false
  end.

(** [s.includes(p)] *)
Fixpoint includes (s p : jsstring) : bool :=
  startsWith p s ||
  match s with
  | [] => false
  | _ :: s' => includes s' p
  end.

(** [parts.join(sep)] *)
Fixpoint join (sep : jsstring) (parts : list jsstring) : jsstring :=
  match parts with
  | [] => []
  | [p] => p
  | p :: rest => p ++ sep ++ join sep rest
  end.

(** The decimal digits of a non-negative integer, most significant first;
    ["0"] for zero. *)
Fixpoint digitsLoop (fuel : nat) (n : Z) (acc : jsstring) : jsstring :=
  let acc' := (48 + n mod 10) :: acc in
  match fuel with
  | O => acc'
  | S fuel' => if n <? 10 then acc' else digitsLoop fuel' (n / 10) acc'
  end.

Definition digitsOf (n : Z) : jsstring :=
  digitsLoop (Z.to_nat (Z.log2 n)) n [].

(** The integer a sequence of decimal digits denotes. *)
Definition digitsValue (d : jsstring) : Z :=
  fold_left (fun acc c => acc * 10 + (c - 48)) d 0.

(** The longest prefix of decimal digits, and the rest. *)
Fixpoint spanDigits (s : jsstring) : jsstring * jsstring :=
  match s with
  | c :: r =>
      if isDigit c then let (d, r') := spanDigits r in (c :: d, r')
      else ([], s)
  | [] => ([], [])
  end.

(** All the code units are decimal digits. *)
Definition allDigits (d : jsstring) : Prop := forallb isDigit d = true.

Fixpoint dropWhiteSpace (s : jsstring) : jsstring :=
  match s with
  | c :: r => if isWhiteSpace c then dropWhiteSpace r else s
  | [] => []
  end.



End JsString.

Import JsString.

(* ================================================================== *)
(** ** JavaScript Numbers *)
(* ================================================================== *)

Module JsNumber.

(** A Number is an IEEE-754 binary64 value: the Standard Library's
    [spec_float] at precision 53 and maximal exponent 1024.  A finite
    non-zero value [S754_finite s m e] denotes [(-1)^s * m * 2^e]; it is in
    canonical form when [2^52 <= m < 2^53] (normal) or [e = -1074]
    (subnormal). *)
Definition number := spec_float.

Definition prec : Z := 53.
Definition emax : Z := 1024.

Definition NaN : number := S754_nan.
Definition sub : number -> number -> number := SFsub prec emax.
Definition mul : number -> number -> number := SFmul prec emax.
Definition div : number -> number -> number := SFdiv prec emax.
Definition abs : number -> number := SFabs.
Definition ltb : number -> number -> bool := SFltb.
Definition leb : number -> number -> bool := SFleb.
Definition eqb : number -> number -> bool := SFeqb.

(** [isNaN(x)] on a Number *)
Definition isNaN (x : number) : bool :=
  match x with S754_nan => true | _ => false end.

Definition isFinite (x : number) : bool :=
  match x with S754_nan | S754_infinity _ => false | _ => true end.

(** The Number for an integer (exact below [2^53] in magnitude). *)
Definition ofZ (z : Z) : number := binary_normalize prec emax z 0 false.

(** The nearest integer to [a / b], ties to the even one ([b > 0]). *)
Definition roundHalfEven (a b : Z) : Z :=
  let q := a / b in
  match (2 * (a mod b)) ?= b with
  | Lt => q
  | Gt => q + 1
  | Eq => if Z.even q then q else q + 1
  end.

(** The nearest integer to [a / b], ties upwards ([a >= 0], [b > 0]). *)
Definition roundHalfUp (a b : Z) : Z := (2 * a + b) / (2 * b).

(** [floor (log2 (a / b))] for positive [a] and [b]. *)
Definition ilog2Ratio (a b : Z) : Z :=
  let l := Z.log2 a - Z.log2 b in
  if (if 0 <=? l then b * 2 ^ l <=? a else b <=? a * 2 ^ (- l))
  then l else l - 1.

(** The binary64 value nearest to the rational [(-1)^s * a / b], ties to
    even ([a >= 0], [b > 0]): the rounding applied when a decimal literal
    is converted to a Number. *)
Definition nearest (s : bool) (a b : Z) : number :=
  if a <=? 0 then S754_zero s
  else
    let e := Z.max (ilog2Ratio a b - 52) (-1074) in
    let m := if 0 <=? e then roundHalfEven a (b * 2 ^ e)
             else roundHalfEven (a * 2 ^ (- e)) b in
    let m' := if m =? 2 ^ 53 then 2 ^ 52 else m in
    let e' := if m =? 2 ^ 53 then e + 1 else e in
    if m' =? 0 then S754_zero s
    else if 971 <? e' then S754_infinity s
    else S754_finite s (Z.to_pos m') e'.

(** [c] is the integer the normal Number with mantissa [mc] and exponent
    [ec] denotes. *)
Definition denotes (c : Z) (mc : positive) (ec : Z) : Prop :=
  2 ^ 52 <= Zpos mc < 2 ^ 53 /\ ec <= 0 /\ Zpos mc = c * 2 ^ (- ec).

(** The value [m * 2^e] as a fraction. *)
Definition fraction (m : positive) (e : Z) : Z * Z :=
  if 0 <=? e then (Zpos m * 2 ^ e, 1) else (Zpos m, 2 ^ (- e)).

(** [x * 10^t] as a fraction, for a fraction [x]. *)
Definition scale10 (x : Z * Z) (t : Z) : Z * Z :=
  if 0 <=? t then (fst x * 10 ^ t, snd x) else (fst x, snd x * 10 ^ (- t)).

(** *** Number::toString (radix 10) *)

(** The least [n] from [start] on with [a / b < 10^n]. *)
Fixpoint decimalExponent (fuel : nat) (a b n : Z) : Z :=
  match fuel with
  | O => n
  | S fuel' =>
      let '(p, q) := scale10 (1, 1) n in
      if a * q <? b * p then n else decimalExponent fuel' a b (n + 1)
  end.

Fixpoint stripZeros (fuel : nat) (s : Z) : Z :=
  match fuel with
  | O => s
  | S fuel' => if (0 <? s) && (s mod 10 =? 0) then stripZeros fuel' (s / 10) else s
  end.

(** Whether the decimal [s * 10^(n - k)] converts back to the value
    [m * 2^e]. *)
Definition convertsBack (m : positive) (e : Z) (n k s : Z) : bool :=
  let '(p, q) := scale10 (s, 1) (n - k) in
  SFeqb (nearest false p q) (S754_finite false m e).

(** The integer [s] of [k] digits (or [10^k], after a carry) for which
    [s * 10^(n - k)] converts back to the value and is closest to it (the
    even one of two equally close), if there is one: only the two
    integers around [value / 10^(n - k)] can be. *)
Definition digitsCandidate (m : positive) (e : Z) (n k : Z) : option Z :=
  let '(a, b) := scale10 (fraction m e) (k - n) in
  let low := a / b in
  match convertsBack m e n k low, convertsBack m e n k (low + 1) with
  | true, true => Some (roundHalfEven a b)
  | true, false => Some low
  | false, true => Some (low + 1)
  | false, false => None
  end.

(** The shortest digit string [s] (an integer of [k] digits, [k <= 17], or
    [10^k] after a carry) for which [s * 10^(n - k)] converts back to the
    given value, and the closest one of that length; [k] is tried from 1
    on, and 17 digits always suffice. *)
Fixpoint shortestDigits (fuel : nat) (m : positive) (e : Z) (n k : Z) : Z * Z :=
  match digitsCandidate m e n k with
  | Some s => (s, k)
  | None =>
      match fuel with
      | O => (let '(a, b) := scale10 (fraction m e) (k - n) in roundHalfEven a b, k)
      | S fuel' => shortestDigits fuel' m e n (k + 1)
      end
  end.

Definition zeros (n : Z) : jsstring := repeat 48 (Z.to_nat n).

(** The digits [d] (there are [k] of them) and the exponent [n] with
    [10^(n-1) <= value < 10^n], laid out as Number::toString prescribes. *)
Definition layoutDigits (d : jsstring) (n : Z) : jsstring :=
  let k := len d in
  if (-5 <=? n) && (n <=? 21) then
    if k <=? n then d ++ zeros (n - k)
    else if 0 <? n then firstn (Z.to_nat n) d ++ lit "." ++ skipn (Z.to_nat n) d
    else lit "0." ++ zeros (- n) ++ d
  else
    let ex := (if 0 <=? n - 1 then lit "+" else lit "-")
              ++ digitsOf (Z.abs (n - 1)) in
    match d with
    | [] => []
    | [c] => [c] ++ lit "e" ++ ex
    | c :: r => [c] ++ lit "." ++ r ++ lit "e" ++ ex
    end.

Definition finiteToString (m : positive) (e : Z) : jsstring :=
  let '(a, b) := fraction m e in
  let n0 := decimalExponent 700 a b (-330) in
  let '(s, k) := shortestDigits 16 m e n0 1 in
  let n := n0 - k + len (digitsOf s) in
  layoutDigits (digitsOf (stripZeros 20 s)) n.

Definition toString (x : number) : jsstring :=
  match x with
  | S754_nan => lit "NaN"
  | S754_zero _ => lit "0"
  | S754_infinity s => (if s then lit "-" else []) ++ lit "Infinity"
  | S754_finite s m e => (if s then lit "-" else []) ++ finiteToString m e
  end.

(** *** Number.prototype.toFixed *)

(** The digits of [n / 10^f] with exactly [f] digits after the point. *)
Definition fixedDigits (n f : Z) : jsstring :=
  let m := digitsOf n in
  if f =? 0 then m
  else
    let m' := if len m <=? f then zeros (f + 1 - len m) ++ m else m in
    let k := len m' in
    firstn (Z.to_nat (k - f)) m' ++ lit "." ++ skipn (Z.to_nat (k - f)) m'.

(** [x.toFixed(f)] for [0 <= f <= 100]: a non-finite value or one of
    magnitude [>= 10^21] prints as [toString] does; otherwise the integer
    [n] nearest to [|x| * 10^f] (the larger one on a tie) is printed with
    [f] decimals, after a minus sign when [x < 0]. *)
Definition toFixed (x : number) (f : Z) : jsstring :=
  match x with
  | S754_nan | S754_infinity _ => toString x
  | S754_zero _ => fixedDigits 0 f
  | S754_finite s m e =>
      let '(a, b) := fraction m e in
      if b * 10 ^ 21 <=? a then toString x
      else (if s then lit "-" else []) ++ fixedDigits (roundHalfUp (a * 10 ^ f) b) f
  end.

(** *** parseFloat on a string *)

(** The value of a leading [ExponentPart] ([e] or [E], an optional sign,
    digits); 0 when the text does not start with one. *)
Definition parseExponent (s : jsstring) : Z :=
  match s with
  | c :: r =>
      if (c =? 101) || (c =? 69) then
        match r with
        | sg :: r' =>
            if (sg =? 43) || (sg =? 45) then
              match fst (spanDigits r') with
              | [] => 0
              | d => if sg =? 45 then - digitsValue d else digitsValue d
              end
            else digitsValue (fst (spanDigits r))
        | [] => 0
        end
      else 0
  | [] => 0
  end.

(** The Number for the decimal [digits * 10^t]. *)
Definition decimalValue (neg : bool) (digits : jsstring) (t : Z) : number :=
  let '(a, b) := scale10 (digitsValue digits, 1) t in
  nearest neg a b.

(** The longest prefix that is a [StrUnsignedDecimalLiteral], evaluated;
    [NaN] when there is none. *)
Definition parseUnsigned (neg : bool) (s : jsstring) : number :=
  if startsWith (lit "Infinity") s then S754_infinity neg
  else
    let (ip, r) := spanDigits s in
    match r with
    | 46 :: r1 =>
        let (fp, r2) := spanDigits r1 in
        match ip, fp with
        | [], [] => NaN
        | _, _ => decimalValue neg (ip ++ fp) (parseExponent r2 - len fp)
        end
    | _ =>
        match ip with
        | [] => NaN
        | _ => decimalValue neg ip (parseExponent r)
        end
    end.

Definition parseFloatString (s : jsstring) : number :=
  match dropWhiteSpace s with
  | 43 :: r => parseUnsigned false r
  | 45 :: r => parseUnsigned true r
  | r => parseUnsigned false r
  end.

End JsNumber.

Import JsNumber.

(* ================================================================== *)
(** ** JavaScript values, as JSON delivers them in a record *)
(* ================================================================== *)

Module JsValue.

(** The value of a property of a fetched record: absent ([undefined]), or
    one of the scalar values of JSON.  (Nested arrays and objects are
    outside the record contract.) *)
Inductive value : Type :=
  | VUndefined
  | VNull
  | VBoolean (b : bool)
  | VNumber (x : number)
  | VString (s : jsstring).

(** ToBoolean *)
Definition truthy (v : value) : bool :=
  match v with
  | VUndefined | VNull => false
  | VBoolean b => b
  | VNumber (S754_zero _) | VNumber S754_nan => false
  | VNumber _ => true
  | VString [] => false
  | VString _ => true
  end.

(** [a === b] *)
Definition strictEq (a b : value) : bool :=
  match a, b with
  | VUndefined, VUndefined => true
  | VNull, VNull => true
  | VBoolean x, VBoolean y => Bool.eqb x y
  | VNumber x, VNumber y => JsNumber.eqb x y
  | VString s, VString t => JsString.eqb s t
  | _, _ => false
  end.

(** [v !== undefined] *)
Definition defined (v : value) : bool :=
  match v with VUndefined => false | _ => true end.

(** ToString *)
Definition ToString (v : value) : jsstring :=
  match v with
  | VUndefined => lit "undefined"
  | VNull => lit "null"
  | VBoolean true => lit "true"
  | VBoolean false => lit "false"
  | VNumber x => toString x
  | VString s => s
  end.

(** [parseFloat(v)]: the argument is converted to a string first. *)
Definition parseFloat (v : value) : number := parseFloatString (ToString v).

End JsValue.

Import JsValue.

(* ================================================================== *)
(** ** Errors and completions *)
(* ================================================================== *)

(** A thrown error: its [message] and, for the errors [createApiError]
    builds ([src/middleware/errorMiddleware.js]), the HTTP [statusCode].
    Errors thrown by the runtime itself carry no status code. *)
Record error : Type := mkError { message : jsstring; statusCode : option Z }.

Definition createApiError (message : jsstring) (statusCode : Z) : error :=
  mkError message (Some statusCode).

(** The outcome of a call: a returned value or a thrown error. *)
Inductive completion (A : Type) : Type :=
  | Return (a : A)
  | Throw (e : error).
Arguments Return {A} a.
Arguments Throw {A} e.

Definition bind {A B} (c : completion A) (k : A -> completion B) : completion B :=
  match c with
  | Return a => k a
  | Throw e => Throw e
  end.

Notation "'let*' x ':=' c 'in' k" := (bind c (fun x => k))
  (at level 10, x name, c at level 100, k at level 200).

(* ================================================================== *)
(** ** [src/middleware/errorMiddleware.js]: the error handler *)
(* ================================================================== *)

Module ErrorMiddleware.

(** What a [catch] block or [errorHandler] reads of the object it is given;
    a property the object does not have is [VUndefined]. *)
Record thrown : Type := mkThrown {
  name : value;
  code : value;
  (** the [message] of each of [Object.values(err.errors)], in order;
      [None] when reading them throws ([err.errors] is [undefined] or
      [null], or holds such an entry) *)
  errors : option (list value);
  isAxiosError : value;
  (** [err.response?.data?.message] *)
  responseMessage : value;
  (** [err.response?.status] *)
  responseStatus : value;
  (** the own property [statusCode], which the spread [{ ...err }] copies *)
  statusCode : value;
  message : value
}.

(** An [ApiError] of [createApiError] as such an object: the class sets no
    [name], so the inherited one, [Error], is read; it has no [code], no
    [errors], no [response], and its [statusCode] is an own property. *)
Definition ofError (e : error) : thrown :=
  match e with
  | mkError message statusCode =>
      mkThrown (VString (lit "Error")) VUndefined None VUndefined VUndefined VUndefined
               (match statusCode with
                | Some n => VNumber (ofZ n)
                | None => VUndefined
                end)
               (VString message)
  end.

(** A [TypeError] of the runtime with the given message: it has no
    [statusCode], no [code], no [errors] and no [response]. *)
Definition typeError (message : jsstring) : thrown :=
  mkThrown (VString (lit "TypeError")) VUndefined None VUndefined VUndefined VUndefined
           VUndefined (VString message).

(** [a || b] *)
Definition orElse (a b : value) : value := if truthy a then a else b.

(** The [statusCode] and the [message] of [createApiError(message, statusCode)]
    for arguments of any type: a missing [statusCode] defaults to 500, and the
    [Error] constructor converts a given [message] to a string. *)
Definition apiError (message statusCode : value) : value * value :=
  (match statusCode with VUndefined => VNumber (ofZ 500) | _ => statusCode end,
   match message with VUndefined => VString [] | _ => VString (ToString message) end).

(** An element of [Array.prototype.join]: [undefined] and [null] give the
    empty string. *)
Definition joinText (v : value) : jsstring :=
  match v with
  | VUndefined | VNull => []
  | _ => ToString v
  end.

Record request : Type := mkRequest {
  originalUrl : value;
  method : value;
  id : value
}.

(** The status and the JSON body of the answer; a property the body does not
    have is [None].  The [timestamp], read from the clock, and the [stack]
    added in development mode are left out. *)
Record response : Type := mkResponse {
  status : value;
  error : value;
  path : value;
  responseMethod : value;
  requestId : option value
}.

(** [err.code === 'ECONNABORTED' || err.code === 'ETIMEDOUT'] *)
Definition isTimeoutCode (code : value) : bool :=
  strictEq code (VString (lit "ECONNABORTED")) || strictEq code (VString (lit "ETIMEDOUT")).

(** [errorHandler(err, req, res, next)]: the answer it sends, or [None] when
    the handler itself throws. *)
Definition errorHandler (err : thrown) (req : request) : option response :=
  let error := (statusCode err, message err) in
  let error :=
    if strictEq (name err) (VString (lit "CastError"))
    then apiError (VString (lit "Invalid resource ID format")) (VNumber (ofZ 400))
    else error in
  let error :=
    if strictEq (code err) (VNumber (ofZ 11000))
    then apiError (VString (lit "Duplicate field value entered")) (VNumber (ofZ 400))
    else error in
  match
    (if strictEq (name err) (VString (lit "ValidationError"))
     then option_map
            (fun messages =>
               apiError (VString (join (lit ", ") (map joinText messages)))
                        (VNumber (ofZ 400)))
            (errors err)
     else Some error)
  with
  | None => None
  | Some error =>
      let error :=
        if strictEq (name err) (VString (lit "JsonWebTokenError"))
        then apiError (VString (lit "Invalid token. Please log in again."))
                      (VNumber (ofZ 401))
        else error in
      let error :=
        if strictEq (name err) (VString (lit "TokenExpiredError"))
        then apiError (VString (lit "Token expired. Please log in again."))
                      (VNumber (ofZ 401))
        else error in
      let error :=
        if truthy (isAxiosError err)
        then apiError (orElse (responseMessage err)
                              (VString (lit "External API request failed")))
                      (orElse (responseStatus err) (VNumber (ofZ 503)))
        else error in
      let error :=
        if isTimeoutCode (code err)
        then apiError (VString (lit "Request timeout. Please try again later."))
                      (VNumber (ofZ 408))
        else error in
      Some (mkResponse
              (orElse (fst error) (VNumber (ofZ 500)))
              (orElse (snd error) (VString (lit "Internal Server Error")))
              (originalUrl req) (method req)
              (if truthy (id req) then Some (id req) else None))
  end.

End ErrorMiddleware.

(* ================================================================== *)
(** ** Node.js buffers *)
(* ================================================================== *)

Module Buffer.

(** A buffer is a sequence of bytes, each in [0, 255]. *)
Definition buffer := list Z.

(** [Buffer.from(s, 'hex')]: one byte per pair of hexadecimal digits, up to
    the first pair that is not one. *)
Fixpoint fromHex (s : jsstring) : buffer :=
  match s with
  | a :: b :: r =>
      match hexVal a, hexVal b with
      | Some x, Some y => (16 * x + y) :: fromHex r
      | _, _ => []
      end
  | _ => []
  end.

(** The binary32 value with bit pattern [w], as the Number it converts to
    (every binary32 value is a binary64 value). *)
Definition float32OfBits (w : Z) : number :=
  let s := Z.testbit w 31 in
  let E := (w / 2 ^ 23) mod 256 in
  let F := w mod 2 ^ 23 in
  if E =? 255 then (if F =? 0 then S754_infinity s else S754_nan)
  else
    let M := if E =? 0 then F else 2 ^ 23 + F in
    let ex := if E =? 0 then -149 else E - 150 in
    if M =? 0 then S754_zero s
    else
      let sh := 52 - Z.log2 M in
      S754_finite s (Z.to_pos (M * 2 ^ sh)) (ex - sh).

(** The RangeError of an access outside the buffer. *)
Definition rangeError (buf : buffer) (offset : nat) : error :=
  if len buf <? 4 then
    mkError (lit "Attempt to access memory outside buffer bounds") None
  else
    mkError (lit "The value of " ++ [34] ++ lit "offset" ++ [34]
             ++ lit " is out of range. It must be >= 0 and <= "
             ++ digitsOf (len buf - 4) ++ lit ". Received "
             ++ digitsOf (Z.of_nat offset)) None.

(** [buf.readFloatLE(offset)]: the binary32 value of the four bytes from
    [offset] on, least significant first; a RangeError when they are not
    all inside the buffer. *)
Definition readFloatLE (buf : buffer) (offset : nat) : completion number :=
  match skipn offset buf with
  | b0 :: b1 :: b2 :: b3 :: _ =>
      Return (float32OfBits (b0 + 2 ^ 8 * b1 + 2 ^ 16 * b2 + 2 ^ 24 * b3))
  | _ => Throw (rangeError buf offset)
  end.

(** A byte. *)
Definition isByte (b : Z) : Prop := 0 <= b < 256.

End Buffer.

(* ================================================================== *)
(** ** The data of the decoder service *)
(* ================================================================== *)

(** A record of the external API, with its optional properties. *)
Module SourceRecord.
Record t : Type := mk {
  device : value;
  timestamp : value;
  hexData : value;
  temperature : value;
  humidity : value;
  pressure : value
}.
End SourceRecord.

(** The three sensor values, decoded or reported. *)
Module Reading.
Record t : Type := mk {
  temperature : number;
  humidity : number;
  pressure : number
}.
End Reading.

(** An element of the array [fetchAndDecodeData] returns; a property the
    object does not have is [None]. *)
Module DecodedItem.
Record t : Type := mk {
  device : value;
  timestamp : value;
  originalHex : value;
  decoded : option Reading.t;
  hexBytes : option number;
  decodingSuccess : bool;
  error : option jsstring
}.
End DecodedItem.

Module ValidationPair.
Record t : Type := mk {
  hexRecord : SourceRecord.t;
  actualRecord : SourceRecord.t
}.
End ValidationPair.

Module Differences.
Record t : Type := mk {
  temperature : jsstring;
  humidity : jsstring;
  pressure : jsstring
}.
End Differences.

Module Matches.
Record t : Type := mk {
  temperature : bool;
  humidity : bool;
  pressure : bool
}.
End Matches.

(** An element of the array [validateDecodingAccuracy] returns. *)
Module ValidationResult.
Record t : Type := mk {
  device : value;
  timestamp : value;
  hexData : value;
  decoded : option Reading.t;
  actual : option Reading.t;
  differences : option Differences.t;
  matches : option Matches.t;
  isAccurate : bool;
  tolerance : option number;
  error : option jsstring
}.
End ValidationResult.

(* ================================================================== *)
(** ** [class DecoderService] *)
(* ================================================================== *)

Module DecoderService.

(** [low <= x && x <= high] *)
Definition inRange (low high x : number) : bool := leb low x && leb x high.

(** [validateSensorValues(temperature, humidity, pressure)] *)
Definition temperatureInvalid (temperature : number) : bool :=
  isNaN temperature || ltb temperature (ofZ (-50)) || ltb (ofZ 85) temperature.

Definition humidityInvalid (humidity : number) : bool :=
  isNaN humidity || ltb humidity (ofZ 0) || ltb (ofZ 100) humidity.

Definition pressureInvalid (pressure : number) : bool :=
  isNaN pressure || ltb pressure (ofZ 300) || ltb (ofZ 1200) pressure.

Definition temperatureError (temperature : number) : jsstring :=
  lit "Invalid temperature: " ++ toString temperature ++ [176] ++ lit "C".

Definition humidityError (humidity : number) : jsstring :=
  lit "Invalid humidity: " ++ toString humidity ++ lit "%".

Definition pressureError (pressure : number) : jsstring :=
  lit "Invalid pressure: " ++ toString pressure ++ lit " hPa".

(** The array [validationErrors] after the three checks. *)
Definition validationErrors (temperature humidity pressure : number) : list jsstring :=
  (if temperatureInvalid temperature then [temperatureError temperature] else [])
  ++ (if humidityInvalid humidity then [humidityError humidity] else [])
  ++ (if pressureInvalid pressure then [pressureError pressure] else []).

(** The errors the service throws, one per [createApiError] call. *)
Definition invalidHexStringError : error :=
  createApiError (lit "Invalid hex string provided") 400.

Definition invalidFormatError : error :=
  createApiError (lit "Invalid hexadecimal format") 400.

Definition invalidLengthError (length : Z) : error :=
  createApiError
    (lit "Invalid hex data length. Expected 24 characters (12 bytes), got "
     ++ digitsOf length) 400.

Definition outOfRangeError (validationErrors : list jsstring) : error :=
  createApiError
    (lit "Invalid sensor values detected: " ++ join (lit ", ") validationErrors) 400.

Definition decodeFailedError (message : jsstring) : error :=
  createApiError (lit "Failed to decode hex data: " ++ message) 400.

Definition validateSensorValues (temperature humidity pressure : number)
  : completion unit :=
  let validationErrors := validationErrors temperature humidity pressure in
  if 0 <? Z.of_nat (List.length validationErrors) then Throw (outOfRangeError validationErrors)
  else Return tt.

(** The [try] block of [decodeHexString]. *)
Definition decodeClean (cleanHex : jsstring) : completion Reading.t :=
  let buffer := Buffer.fromHex cleanHex in
  let* temperature := Buffer.readFloatLE buffer 0 in
  let* humidity := Buffer.readFloatLE buffer 4 in
  let* pressure := Buffer.readFloatLE buffer 8 in
  let* _ := validateSensorValues temperature humidity pressure in
  Return (Reading.mk
            (parseFloat (VString (toFixed temperature 4)))
            (parseFloat (VString (toFixed humidity 4)))
            (parseFloat (VString (toFixed pressure 4)))).

(** [decodeHexString(hexString)] *)
Definition decodeHexString (hexString : value) : completion Reading.t :=
  match hexString with
  | VString ((_ :: _) as s) =>
      let cleanHex := stripWhiteSpace s in
      if negb (testHex cleanHex) then Throw invalidFormatError
      else if negb (len cleanHex =? 24) then Throw (invalidLengthError (len cleanHex))
      else
        match decodeClean cleanHex with
        | Return result => Return result
        | Throw error =>
            if includes (message error) (lit "Invalid sensor values") then Throw error
            else Throw (decodeFailedError (message error))
        end
  | _ => Throw invalidHexStringError
  end.

(** [v.length] for a property value: the number of code units of a string;
    the other primitives have no such property and [undefined / 2] is
    [NaN]. *)
Definition lengthOf (v : value) : number :=
  match v with
  | VString s => ofZ (len s)
  | _ => NaN
  end.

(** The callback of [hexDataRecords.map] in [fetchAndDecodeData]. *)
Definition decodeRecord (record : SourceRecord.t) : DecodedItem.t :=
  match decodeHexString (SourceRecord.hexData record) with
  | Return decoded =>
      DecodedItem.mk
        (SourceRecord.device record)
        (SourceRecord.timestamp record)
        (SourceRecord.hexData record)
        (Some (Reading.mk (Reading.temperature decoded)
                          (Reading.humidity decoded)
                          (Reading.pressure decoded)))
        (Some (div (lengthOf (SourceRecord.hexData record)) (ofZ 2)))
        true
        None
  | Throw error =>
      DecodedItem.mk
        (SourceRecord.device record)
        (SourceRecord.timestamp record)
        (SourceRecord.hexData record)
        None
        None
        false
        (Some (message error))
  end.

(** [fetchAndDecodeData()], from the array [response.data] on. *)
Definition fetchAndDecodeData (data : list SourceRecord.t) : list DecodedItem.t :=
  let hexDataRecords := filter (fun record => truthy (SourceRecord.hexData record)) data in
  match hexDataRecords with
  | [] => []
  | _ => map decodeRecord hexDataRecords
  end.

Section Validation.

(** [Date.parse] on a string: the time value in milliseconds, [None] for
    [NaN].  Which strings beyond the ISO format are understood depends on
    the engine. *)
Variable dateParse : jsstring -> option Z.

(** TimeClip(ToNumber(x)) for a Number. *)
Definition timeClip (x : number) : option Z :=
  match x with
  | S754_zero _ => Some 0
  | S754_finite s m e =>
      let '(a, b) := fraction m e in
      if a / b <=? 8640000000000000 then Some (if s then - (a / b) else a / b)
      else None
  | _ => None
  end.

(** [new Date(v).getTime()]: an integral number of milliseconds, or
    [None] for [NaN] (an invalid date). *)
Definition getTime (v : value) : option Z :=
  match v with
  | VUndefined => None
  | VNull => Some 0
  | VBoolean b => Some (if b then 1 else 0)
  | VNumber x => timeClip x
  | VString s => dateParse s
  end.

(** [Math.abs(a - b) < 5000] on two time values.  Time values are integers
    of magnitude at most 8.64e15; a difference below 5000 is computed
    exactly and a larger one never rounds below 5000, so the comparison is
    the one on integers; it is false when either side is [NaN]. *)
Definition withinWindow (a b : option Z) : bool :=
  match a, b with
  | Some ta, Some tb => Z.abs (ta - tb) <? 5000
  | _, _ => false
  end.

(** The predicate given to [allData.find]. *)
Definition isActualFor (record r : SourceRecord.t) : bool :=
  strictEq (SourceRecord.device r) (SourceRecord.device record)
  && defined (SourceRecord.temperature r)
  && defined (SourceRecord.humidity r)
  && defined (SourceRecord.pressure r)
  && withinWindow (getTime (SourceRecord.timestamp r))
                  (getTime (SourceRecord.timestamp record)).

(** The loop building [validationPairs]: [records] is what is left of the
    iteration over [allData]. *)
Fixpoint pairLoop (allData records : list SourceRecord.t) : list ValidationPair.t :=
  match records with
  | [] => []
  | record :: rest =>
      if truthy (SourceRecord.hexData record) then
        match find (isActualFor record) allData with
        | Some actualRecord =>
            ValidationPair.mk record actualRecord :: pairLoop allData rest
        | None => pairLoop allData rest
        end
      else pairLoop allData rest
  end.

Definition validationPairs (allData : list SourceRecord.t) : list ValidationPair.t :=
  pairLoop allData allData.

Definition tolerance : number := nearest false 1 100.

(** The callback of [validationPairs.map]. *)
Definition validatePair (pair : ValidationPair.t) : ValidationResult.t :=
  let hexRecord := ValidationPair.hexRecord pair in
  let actualRecord := ValidationPair.actualRecord pair in
  match decodeHexString (SourceRecord.hexData hexRecord) with
  | Return decoded =>
      let actual :=
        Reading.mk (parseFloat (SourceRecord.temperature actualRecord))
                   (parseFloat (SourceRecord.humidity actualRecord))
                   (parseFloat (SourceRecord.pressure actualRecord)) in
      let tempMatch :=
        leb (abs (sub (Reading.temperature decoded) (Reading.temperature actual))) tolerance in
      let humidityMatch :=
        leb (abs (sub (Reading.humidity decoded) (Reading.humidity actual))) tolerance in
      let pressureMatch :=
        leb (abs (sub (Reading.pressure decoded) (Reading.pressure actual))) tolerance in
      let isAccurate := tempMatch && humidityMatch && pressureMatch in
      ValidationResult.mk
        (SourceRecord.device hexRecord)
        (SourceRecord.timestamp hexRecord)
        (SourceRecord.hexData hexRecord)
        (Some decoded)
        (Some actual)
        (Some (Differences.mk
                 (toFixed (sub (Reading.temperature decoded) (Reading.temperature actual)) 4)
                 (toFixed (sub (Reading.humidity decoded) (Reading.humidity actual)) 4)
                 (toFixed (sub (Reading.pressure decoded) (Reading.pressure actual)) 4)))
        (Some (Matches.mk tempMatch humidityMatch pressureMatch))
        isAccurate
        (Some tolerance)
        None
  | Throw error =>
      ValidationResult.mk
        (SourceRecord.device hexRecord)
        (SourceRecord.timestamp hexRecord)
        (SourceRecord.hexData hexRecord)
        None None None None
        false
        None
        (Some (message error))
  end.

(** [validateDecodingAccuracy()], from the array [response.data] on. *)
Definition validateDecodingAccuracy (allData : list SourceRecord.t)
  : list ValidationResult.t :=
  map validatePair (validationPairs allData).

End Validation.

(** How [axios.get] settles: with a response, whose [data] is an array of
    records or something else ([None]), or with an error. *)
Inductive settled : Type :=
  | Fulfilled (data : option (list SourceRecord.t))
  | Rejected (err : ErrorMiddleware.thrown).

(** [fetchAndDecodeData()] as a function of how the request settles: the
    [try] block, then the [catch] block that translates network errors. *)
Definition fetchAndDecodeDataFrom (fetched : settled)
  : ErrorMiddleware.thrown + list DecodedItem.t :=
  let attempt :=
    match fetched with
    | Rejected err => inl err
    | Fulfilled None =>
        inl (ErrorMiddleware.ofError
               (createApiError (lit "Invalid API response format") 502))
    | Fulfilled (Some data) => inr (fetchAndDecodeData data)
    end in
  match attempt with
  | inr decodedData => inr decodedData
  | inl error =>
      if strictEq (ErrorMiddleware.code error) (VString (lit "ENOTFOUND"))
         || strictEq (ErrorMiddleware.code error) (VString (lit "ECONNREFUSED"))
      then inl (ErrorMiddleware.ofError
                  (createApiError (lit "Unable to connect to external IoT API") 503))
      else if strictEq (ErrorMiddleware.code error) (VString (lit "ECONNABORTED"))
      then inl (ErrorMiddleware.ofError
                  (createApiError (lit "External API request timeout") 504))
      else inl error
  end.

End DecoderService.

(* ================================================================== *)
(** ** [DecoderController.validateDecoding]: the summary *)
(* ================================================================== *)

Module DecoderController.

Record summary : Type := mkSummary {
  totalValidations : Z;
  accurateDecodings : Z;
  accuracyRate : jsstring
}.

(** The [summary] object of the response, computed from the array the
    service returned; [processingTime], a wall-clock measurement, is left
    out. *)
Definition validateDecoding (validationResults : list ValidationResult.t) : summary :=
  let accurateDecodings := filter ValidationResult.isAccurate validationResults in
  let accuracyRate :=
    mul (div (ofZ (Z.of_nat (List.length accurateDecodings)))
             (ofZ (Z.of_nat (List.length validationResults))))
        (ofZ 100) in
  mkSummary (Z.of_nat (List.length validationResults))
            (Z.of_nat (List.length accurateDecodings))
            (toFixed accuracyRate 2 ++ lit "%").

(** What a handler does: it answers with a status and a body, or passes an
    error to [next]. *)
Inductive handled (A : Type) : Type :=
  | Answer (status : Z) (body : A)
  | Next (err : ErrorMiddleware.thrown).
Arguments Answer {A} status body.
Arguments Next {A} err.

(** The body of the answer of [decodeHexData]; the constant properties and
    the clock readings are left out. *)
Record hexDataBody : Type := mkHexDataBody {
  message : jsstring;
  data : list DecodedItem.t;
  totalDecoded : Z
}.

Definition decodeHexData (fetched : DecoderService.settled) : handled hexDataBody :=
  match DecoderService.fetchAndDecodeDataFrom fetched with
  | inr decodedData =>
      Answer 200
        (mkHexDataBody
           (lit "Successfully decoded " ++ digitsOf (Z.of_nat (List.length decodedData))
            ++ lit " hex data records")
           decodedData (Z.of_nat (List.length decodedData)))
  | inl error => Next error
  end.

(** The body of the answer of [decodeSingleHex]: [input.hexData],
    [input.hexLength], [input.expectedBytes], [decoded]. *)
Record singleBody : Type := mkSingleBody {
  hexData : jsstring;
  hexLength : Z;
  expectedBytes : Z;
  decoded : Reading.t
}.

(** [decodeSingleHex(req, res, next)].  [body] is [None] when [req.body] is
    [undefined] or [null], which makes the destructuring
    [const { hexData } = req.body] throw a [TypeError] inside the [try]
    block; its message, chosen by the runtime, is [typeErrorMessage].
    Otherwise [body] holds the value of [req.body.hexData]. *)
Definition decodeSingleHex (typeErrorMessage : jsstring) (body : option value)
  : handled singleBody :=
  match body with
  | None => Next (ErrorMiddleware.typeError typeErrorMessage)
  | Some hexData =>
      let attempt :=
        match hexData with
        | VString ((_ :: _) as s) =>
            let* decodedResult := DecoderService.decodeHexString hexData in
            Return (mkSingleBody s (len s) 12 decodedResult)
        | _ => Throw (createApiError
                        (lit "hexData field is required and must be a string") 400)
        end in
      match attempt with
      | Return body => Answer 200 body
      | Throw error => Next (ErrorMiddleware.ofError error)
      end
  end.

End DecoderController.

(* ================================================================== *)
(** ** [decoder_demo.js]: the stand-alone decoder *)
(* ================================================================== *)

Module Demo.

(** The digit of [n.toString(16)] for a value below 16. *)
Definition hexDigit (d : Z) : Z := if d <? 10 then 48 + d else 87 + d.

Fixpoint hexLoop (fuel : nat) (n : Z) (acc : jsstring) : jsstring :=
  let acc' := hexDigit (n mod 16) :: acc in
  match fuel with
  | O => acc'
  | S fuel' => if n <? 16 then acc' else hexLoop fuel' (n / 16) acc'
  end.

(** [n.toString(16)] for a non-negative integer. *)
Definition toString16 (n : Z) : jsstring :=
  hexLoop (Z.to_nat (Z.log2 n)) n [].

(** [s.padStart(targetLength, fill)] for a one-character [fill]. *)
Definition padStart (s : jsstring) (targetLength fill : Z) : jsstring :=
  repeat fill (Z.to_nat (targetLength - len s)) ++ s.

(** The text between the brackets of the line [Buffer bytes: [..]]:
    [Array.from(buffer).map(b => b.toString(16).padStart(2, '0')).join(' ')]. *)
Definition bufferBytes (buffer : Buffer.buffer) : jsstring :=
  join (lit " ") (map (fun b => padStart (toString16 b) 2 48) buffer).

(** [decodeHexString(hexString)] of the demo script, on a string; what it
    prints is left out.  Its errors are plain [Error]s. *)
Definition decodeHexString (hexString : jsstring) : completion Reading.t :=
  let cleanHex := stripWhiteSpace hexString in
  if negb (testHex cleanHex) then
    Throw (mkError (lit "Invalid hexadecimal format") None)
  else if negb (len cleanHex =? 24) then
    Throw (mkError (lit "Invalid hex data length. Expected 24 characters, got "
                    ++ digitsOf (len cleanHex)) None)
  else
    let buffer := Buffer.fromHex cleanHex in
    let* temperature := Buffer.readFloatLE buffer 0 in
    let* humidity := Buffer.readFloatLE buffer 4 in
    let* pressure := Buffer.readFloatLE buffer 8 in
    Return (Reading.mk
              (parseFloat (VString (toFixed temperature 4)))
              (parseFloat (VString (toFixed humidity 4)))
              (parseFloat (VString (toFixed pressure 4)))).

(** The two digits [b.toString(16).padStart(2, '0')] gives for a byte. *)
Definition hexPair (b : Z) : jsstring := [hexDigit (b / 16); hexDigit (b mod 16)].

End Demo.

(* ================================================================== *)
(** ** [src/routes/decoderRoutes.js] and [src/app.js]: the routes *)
(* ================================================================== *)

Module App.
Import DecoderController.

(** What the client receives: the answer of the handler, the answer of
    [errorHandler], which [app.use(errorHandler)] installs after the routes,
    or neither when the error handler throws. *)
Inductive reply (A : Type) : Type :=
  | Success (status : Z) (body : A)
  | Failure (response : ErrorMiddleware.response)
  | Unhandled.
Arguments Success {A} status body.
Arguments Failure {A} response.
Arguments Unhandled {A}.

Definition route {A} (h : handled A) (req : ErrorMiddleware.request) : reply A :=
  match h with
  | Answer status body => Success status body
  | Next err =>
      match ErrorMiddleware.errorHandler err req with
      | Some response => Failure response
      | None => Unhandled
      end
  end.

(** [router.get('/hex-data', asyncHandler(decoderController.decodeHexData))] *)
Definition getHexData (req : ErrorMiddleware.request) (fetched : DecoderService.settled)
  : reply hexDataBody :=
  route (decodeHexData fetched) req.

(** [router.post('/single', asyncHandler(decoderController.decodeSingleHex))] *)
Definition postSingle (req : ErrorMiddleware.request) (typeErrorMessage : jsstring)
  (body : option value) : reply singleBody :=
  route (decodeSingleHex typeErrorMessage body) req.

(** The answer of [errorHandler] with a given status and error text. *)
Definition failure (req : ErrorMiddleware.request) (statusCode : Z) (text : jsstring)
  : ErrorMiddleware.response :=
  ErrorMiddleware.mkResponse
    (VNumber (ofZ statusCode)) (VString text)
    (ErrorMiddleware.originalUrl req) (ErrorMiddleware.method req)
    (if truthy (ErrorMiddleware.id req) then Some (ErrorMiddleware.id req) else None).

End App.

(* ================================================================== *)
(** ** Sample records *)
(* ================================================================== *)

Module Fixtures.

(** A [Date.parse] that knows the three timestamps used below. *)
Definition dateParse (s : jsstring) : option Z :=
  if JsString.eqb s (lit "2025-01-01T00:00:00.000Z") then Some 1735689600000
  else if JsString.eqb s (lit "2025-01-01T00:00:01.000Z") then Some 1735689601000
  else if JsString.eqb s (lit "2025-01-01T00:00:04.999Z") then Some 1735689604999
  else if JsString.eqb s (lit "2025-01-01T00:00:05.001Z") then Some 1735689605001
  else None.

Definition device42 : value := VString (lit "42A6DA").
Definition knownHex : value := VString (lit "0000e840cdccc7424a3e8044").

(** A record with a hex payload only. *)
Definition hexOnly : SourceRecord.t :=
  SourceRecord.mk device42 (VString (lit "2025-01-01T00:00:00.000Z")) knownHex
                  VUndefined VUndefined VUndefined.

(** Records with ground truth only, 4999 ms and 5001 ms later. *)
Definition actual4999 : SourceRecord.t :=
  SourceRecord.mk device42 (VString (lit "2025-01-01T00:00:04.999Z")) VUndefined
                  (VNumber (nearest false 725 100))
                  (VString (lit "99.9"))
                  (VNumber (nearest false 10259465 10000)).

Definition actual5001 : SourceRecord.t :=
  SourceRecord.mk device42 (VString (lit "2025-01-01T00:00:05.001Z")) VUndefined
                  (VNumber (nearest false 725 100))
                  (VString (lit "99.9"))
                  (VNumber (nearest false 10259465 10000)).

(** A record with both a hex payload and ground truth, one second after
    [hexOnly]. *)
Definition hexAndActual : SourceRecord.t :=
  SourceRecord.mk device42 (VString (lit "2025-01-01T00:00:01.000Z")) knownHex
                  (VNumber (nearest false 725 100))
                  (VNumber (nearest false 999 10))
                  (VNumber (nearest false 10259465 10000)).

(** The same, without a timestamp. *)
Definition hexAndActualUndated : SourceRecord.t :=
  SourceRecord.mk device42 VUndefined knownHex
                  (VNumber (nearest false 725 100))
                  (VNumber (nearest false 999 10))
                  (VNumber (nearest false 10259465 10000)).

(** A record whose payload is not hexadecimal. *)
Definition badHex : SourceRecord.t :=
  SourceRecord.mk device42 (VString (lit "2025-01-01T00:00:00.000Z"))
                  (VString (lit "xyz")) VUndefined VUndefined VUndefined.

(** Payloads whose temperature decodes to 0.01 and to 0.0101. *)
Definition hexTemperature0_01 : SourceRecord.t :=
  SourceRecord.mk device42 (VString (lit "2025-01-01T00:00:00.000Z"))
                  (VString (lit "0ad7233ccdccc7424a3e8044"))
                  VUndefined VUndefined VUndefined.

Definition hexTemperature0_0101 : SourceRecord.t :=
  SourceRecord.mk device42 (VString (lit "2025-01-01T00:00:00.000Z"))
                  (VString (lit "787a253ccdccc7424a3e8044"))
                  VUndefined VUndefined VUndefined.

(** Ground truth with the given temperature text, and the humidity and
    pressure of the known vector. *)
Definition actualTemperature (temperature : string) : SourceRecord.t :=
  SourceRecord.mk device42 (VString (lit "2025-01-01T00:00:00.000Z")) VUndefined
                  (VString (lit temperature))
                  (VString (lit "99.9"))
                  (VString (lit "1025.9465")).

(** Ground truth with the given humidity text, and the temperature and
    pressure of the known vector. *)
Definition actualHumidity (humidity : string) : SourceRecord.t :=
  SourceRecord.mk device42 (VString (lit "2025-01-01T00:00:00.000Z")) VUndefined
                  (VString (lit "7.25"))
                  (VString (lit humidity))
                  (VString (lit "1025.9465")).

(** The error of an Axios request that timed out, and a request. *)
Definition axiosTimeout : ErrorMiddleware.thrown :=
  ErrorMiddleware.mkThrown
    (VString (lit "AxiosError")) (VString (lit "ECONNABORTED")) None (VBoolean true)
    VUndefined VUndefined VUndefined (VString (lit "timeout of 10000ms exceeded")).

Definition someRequest : ErrorMiddleware.request :=
  ErrorMiddleware.mkRequest (VString (lit "/api/decoder/hex-data")) (VString (lit "GET"))
                            VUndefined.

End Fixtures.

(* ================================================================== *)
(** ** Properties *)
(* ================================================================== *)

Import DecoderService.

(** *** The runtime model on known values *)

(** [nearest] agrees with the division of the Standard Library's binary64
    model on the decimals [n / 10000], and decimal literals get their
    well-known bit patterns. *)
Example nearest_agrees_with_division :
  forallb (fun n => SFeqb (nearest false n 10000) (div (ofZ n) (ofZ 10000)))
          (map Z.of_nat (seq 1 2000)) = true
  /\ nearest false 1 10 = S754_finite false 0x1999999999999a (-56)
  /\ nearest false 5 (10 ^ 324) = S754_finite false 1 (-1074)
  /\ nearest false (10 ^ 309) 1 = S754_infinity false.
Proof. repeat split; vm_compute; reflexivity. Qed.

(** Powers of two, where the neighbour below is closer than the one above:
    the shortest digits are those of the decimal nearest above when the
    one nearest below does not convert back. *)
Example toString_powers_of_two :
  toString (Buffer.float32OfBits 0x33800000) = lit "5.960464477539063e-8" /\
  toString (Buffer.float32OfBits 0x00800000) = lit "1.1754943508222875e-38" /\
  toString (Buffer.float32OfBits 0x00000001) = lit "1.401298464324817e-45" /\
  toString (Buffer.float32OfBits 0x7f000000) = lit "1.7014118346046923e+38" /\
  toString (Buffer.float32OfBits 0x7f7fffff) = lit "3.4028234663852886e+38" /\
  toString (S754_finite false (2 ^ 52) (-1074)) = lit "2.2250738585072014e-308" /\
  toString (sub (nearest false 999 10) (nearest false 9989 100))
    = lit "0.010000000000005116".
Proof. vm_compute. repeat split. Qed.

Example toString_examples :
  toString (nearest false 999 10) = lit "99.9" /\
  toString (Buffer.float32OfBits 0x42c7cccd) = lit "99.9000015258789" /\
  toString (ofZ 200) = lit "200" /\
  toString (nearest true 5 1000000) = lit "-0.000005" /\
  toString (nearest false 15 100000000) = lit "1.5e-7" /\
  toString (ofZ (10 ^ 21)) = lit "1e+21" /\
  toString (div (ofZ 1) (ofZ 3)) = lit "0.3333333333333333".
Proof. repeat split; vm_compute; reflexivity. Qed.

Example toFixed_examples :
  toFixed (nearest false 1005 1000) 2 = lit "1.00" /\
  toFixed (nearest false 25 10) 0 = lit "3" /\
  toFixed (nearest true 1 300000) 4 = lit "-0.0000" /\
  toFixed (mul (div (ofZ 1) (ofZ 3)) (ofZ 100)) 2 = lit "33.33" /\
  toFixed NaN 2 = lit "NaN".
Proof. repeat split; vm_compute; reflexivity. Qed.

Example parseFloat_examples :
  parseFloat (VString (lit "  7.25abc")) = nearest false 725 100 /\
  parseFloat (VString (lit "-.5e1")) = nearest true 5 1 /\
  parseFloat (VString (lit "1e")) = ofZ 1 /\
  parseFloat (VString (lit "-0.0000")) = S754_zero true /\
  parseFloat (VString (lit "abc")) = NaN /\
  parseFloat VNull = NaN /\
  parseFloat (VNumber (nearest false 999 10)) = nearest false 999 10.
Proof. repeat split; vm_compute; reflexivity. Qed.

(** The comparison of two time values on integers gives what the binary64
    computation [Math.abs(a - b) < 5000] gives, also at the ends of the
    range of time values. *)
Example withinWindow_agrees_with_binary64 :
  forallb (fun '(a, b) =>
             Bool.eqb (withinWindow (Some a) (Some b))
                      (ltb (abs (sub (ofZ a) (ofZ b))) (ofZ 5000)))
          [ (0, 4999); (0, 5000); (0, 5001); (4999, 0); (5001, 0);
            (1735689600000, 1735689604999); (1735689600000, 1735689605000);
            (1735689604999, 1735689600000); (1735689605001, 1735689600000);
            (8640000000000000, 8639999999995001);
            (8640000000000000, 8639999999995000);
            (8640000000000000, -8640000000000000);
            (-8640000000000000, -8639999999995001);
            (-8640000000000000, 8640000000000000);
            (-2500, 2499); (-2500, 2500); (7, 7) ] = true.
Proof. vm_compute. reflexivity. Qed.

(** *** The known vector *)

(** C1: the fixture [0000e840cdccc7424a3e8044] is a 12-byte payload whose
    binary32 little-endian readings at offsets 0, 4 and 8 print, with four
    decimals, as 7.2500, 99.9000 and 1025.9465; [decodeHexString] succeeds
    on it and returns exactly the Numbers 7.25, 99.9 and 1025.9465 (the
    binary64 values nearest to these decimals, which print as such). *)
Theorem decodeHexString_known_vector :
  let hex := lit "0000e840cdccc7424a3e8044" in
  let buffer := Buffer.fromHex hex in
  let t := Buffer.float32OfBits 0x40e80000 in
  let h := Buffer.float32OfBits 0x42c7cccd in
  let p := Buffer.float32OfBits 0x44803e4a in
  List.length buffer = 12%nat /\
  Buffer.readFloatLE buffer 0 = Return t /\
  Buffer.readFloatLE buffer 4 = Return h /\
  Buffer.readFloatLE buffer 8 = Return p /\
  toFixed t 4 = lit "7.2500" /\
  toFixed h 4 = lit "99.9000" /\
  toFixed p 4 = lit "1025.9465" /\
  decodeHexString (VString hex) =
    Return (Reading.mk (nearest false 725 100)
                       (nearest false 999 10)
                       (nearest false 10259465 10000)) /\
  toString (nearest false 725 100) = lit "7.25" /\
  toString (nearest false 999 10) = lit "99.9" /\
  toString (nearest false 10259465 10000) = lit "1025.9465".
Proof.
  repeat split; vm_compute; reflexivity.
Qed.

(** *** The summary of the controller *)

(** C3 (the code's behaviour on the empty sequence): with no validation
    result the rate is [0 / 0 * 100], which is [NaN], and the summary
    reports the text [NaN%]. *)
Theorem validateDecoding_empty :
  DecoderController.validateDecoding [] =
    DecoderController.mkSummary 0 0 (lit "NaN%").
Proof. vm_compute. reflexivity. Qed.

(** For a non-empty sequence the rate is [accurate / total * 100] in
    binary64 arithmetic, printed with two decimals. *)
Lemma validateDecoding_rate (results : list ValidationResult.t) :
  let accurate := Z.of_nat (List.length (filter ValidationResult.isAccurate results)) in
  let total := Z.of_nat (List.length results) in
  DecoderController.validateDecoding results =
    DecoderController.mkSummary total accurate
      (toFixed (mul (div (ofZ accurate) (ofZ total)) (ofZ 100)) 2 ++ lit "%").
Proof. reflexivity. Qed.

(** *** Batch decoding *)

(** C9 (the code's behaviour on a payload with embedded whitespace): the
    25-character payload ["0000e840 cdccc7424a3e8044"] decodes
    successfully, and the item reports [hexBytes = 25 / 2 = 12.5], not 12. *)
Theorem decodeRecord_hexBytes_whitespace :
  let record :=
    SourceRecord.mk (VString (lit "42A6DA")) (VString (lit "2025-01-01T00:00:00Z"))
                    (VString (lit "0000e840 cdccc7424a3e8044"))
                    VUndefined VUndefined VUndefined in
  let item := decodeRecord record in
  DecodedItem.decodingSuccess item = true /\
  DecodedItem.hexBytes item = Some (nearest false 25 2) /\
  DecodedItem.hexBytes item <> Some (ofZ 12).
Proof.
  repeat split; try (vm_compute; reflexivity).
  vm_compute. discriminate.
Qed.

(** Helper facts on lists and values. *)

Lemma find_first {A} (p : A -> bool) (l : list A) (a : A) :
  find p l = Some a <->
  exists before after,
    l = before ++ a :: after /\
    (forall r, In r before -> p r = false) /\ p a = true.
Proof.
  induction l as [|x l IH]; simpl.
  - split; [discriminate|]. intros (b & c & H & _). destruct b; discriminate.
  - destruct (p x) eqn:Hx.
    + split.
      * intros [= <-]. exists [], l. repeat split; auto. intros r [].
      * intros (b & c & H & Hb & Ha). destruct b as [|y b]; simpl in H.
        -- now inversion H.
        -- inversion H; subst y. rewrite (Hb x) in Hx; [discriminate|now left].
    + rewrite IH. split.
      * intros (b & c & -> & Hb & Ha). exists (x :: b), c. repeat split; auto.
        intros r [<-|Hr]; auto.
      * intros (b & c & H & Hb & Ha). destruct b as [|y b]; simpl in H.
        -- inversion H; subst x. congruence.
        -- inversion H; subst y l. exists b, c. repeat split; auto.
           intros r Hr. apply Hb. now right.
Qed.

Lemma find_nothing {A} (p : A -> bool) (l : list A) :
  find p l = None <-> forall r, In r l -> p r = false.
Proof.
  split.
  - intros H r Hr. now apply (find_none p l H).
  - induction l as [|x l IH]; simpl; intros H; [reflexivity|].
    rewrite (H x) by now left. apply IH. intros r Hr. apply H. now right.
Qed.

Lemma SFcompare_refl (x : number) :
  x <> NaN -> SFcompare x x = Some Eq.
Proof.
  unfold NaN.
  destruct x as [[]|[]| |[] m e]; intros H; try congruence;
    simpl; try reflexivity;
    now rewrite Z.compare_refl, Pos.compare_cont_refl.
Qed.

Lemma JsString_eqb_refl (s : jsstring) : JsString.eqb s s = true.
Proof. unfold JsString.eqb. destruct (list_eq_dec Z.eq_dec s s); congruence. Qed.

Lemma strictEq_refl (v : value) : v <> VNumber NaN -> strictEq v v = true.
Proof.
  destruct v as [| |b|x|s]; simpl; intros H; auto.
  - now destruct b.
  - unfold JsNumber.eqb, SFeqb. rewrite SFcompare_refl; [reflexivity|].
    intros ->. now apply H.
  - apply JsString_eqb_refl.
Qed.

(** *** Pairing hex records with ground-truth records *)

(** The pairs one record contributes. *)
Lemma pairLoop_flat_map dateParse (allData records : list SourceRecord.t) :
  pairLoop dateParse allData records =
  flat_map (fun record =>
              if truthy (SourceRecord.hexData record) then
                match find (isActualFor dateParse record) allData with
                | Some actualRecord => [ValidationPair.mk record actualRecord]
                | None => []
                end
              else []) records.
Proof.
  induction records as [|record rest IH]; simpl; [reflexivity|].
  destruct (truthy (SourceRecord.hexData record)); [|exact IH].
  destruct (find (isActualFor dateParse record) allData); simpl; now rewrite IH.
Qed.

Lemma isActualFor_spec dateParse (record r : SourceRecord.t) :
  isActualFor dateParse record r = true <->
  strictEq (SourceRecord.device r) (SourceRecord.device record) = true /\
  SourceRecord.temperature r <> VUndefined /\
  SourceRecord.humidity r <> VUndefined /\
  SourceRecord.pressure r <> VUndefined /\
  exists tr trecord,
    getTime dateParse (SourceRecord.timestamp r) = Some tr /\
    getTime dateParse (SourceRecord.timestamp record) = Some trecord /\
    Z.abs (tr - trecord) < 5000.
Proof.
  unfold isActualFor, withinWindow.
  rewrite !andb_true_iff.
  assert (D : forall v, defined v = true <-> v <> VUndefined).
  { intros v. destruct v; simpl; split; congruence. }
  rewrite !D. split.
  - intros ((((H1 & H2) & H3) & H4) & H5). repeat split; auto.
    destruct (getTime dateParse (SourceRecord.timestamp r)) as [a|]; [|discriminate].
    destruct (getTime dateParse (SourceRecord.timestamp record)) as [b|]; [|discriminate].
    exists a, b. repeat split. now apply Z.ltb_lt.
  - intros (H1 & H2 & H3 & H4 & a & b & -> & -> & H5). repeat split; auto.
    now apply Z.ltb_lt.
Qed.

(** C6: every record with a (truthy) hex payload contributes, in order, the
    pair made of itself and the first record of the full set that has the
    same device, the three ground-truth properties defined and a timestamp
    strictly less than 5000 ms away (4999 ms pairs, 5000 and 5001 do not);
    a hex record without such a record contributes nothing, and the
    pairing is a total function: it raises no error. *)
Theorem validationPairs_first_match dateParse (allData : list SourceRecord.t) :
  validationPairs dateParse allData =
    flat_map (fun record =>
                if truthy (SourceRecord.hexData record) then
                  match find (isActualFor dateParse record) allData with
                  | Some actualRecord => [ValidationPair.mk record actualRecord]
                  | None => []
                  end
                else []) allData
  /\ (forall record actualRecord,
        find (isActualFor dateParse record) allData = Some actualRecord <->
        exists before after,
          allData = before ++ actualRecord :: after /\
          (forall r, In r before -> isActualFor dateParse record r = false) /\
          isActualFor dateParse record actualRecord = true)
  /\ (forall record,
        find (isActualFor dateParse record) allData = None <->
        forall r, In r allData -> isActualFor dateParse record r = false)
  /\ (forall record r,
        isActualFor dateParse record r = true <->
        strictEq (SourceRecord.device r) (SourceRecord.device record) = true /\
        SourceRecord.temperature r <> VUndefined /\
        SourceRecord.humidity r <> VUndefined /\
        SourceRecord.pressure r <> VUndefined /\
        exists tr trecord,
          getTime dateParse (SourceRecord.timestamp r) = Some tr /\
          getTime dateParse (SourceRecord.timestamp record) = Some trecord /\
          Z.abs (tr - trecord) < 5000)
  /\ (forall t,
        withinWindow (Some t) (Some (t + 4999)) = true /\
        withinWindow (Some (t + 4999)) (Some t) = true /\
        withinWindow (Some t) (Some (t + 5000)) = false /\
        withinWindow (Some t) (Some (t + 5001)) = false /\
        withinWindow (Some (t + 5001)) (Some t) = false).
Proof.
  split; [apply pairLoop_flat_map|].
  split; [intros; apply find_first|].
  split; [intros; apply find_nothing|].
  split; [intros; apply isActualFor_spec|].
  intros t. unfold withinWindow.
  repeat split; first [apply Z.ltb_lt | apply Z.ltb_ge]; lia.
Qed.

Lemma validationPairs_first_match_witness :
  validationPairs Fixtures.dateParse
    [Fixtures.hexOnly; Fixtures.actual5001; Fixtures.actual4999] =
  [ValidationPair.mk Fixtures.hexOnly Fixtures.actual4999].
Proof.
  rewrite (proj1 (validationPairs_first_match Fixtures.dateParse _)).
  vm_compute. reflexivity.
Defined.

Lemma find_app {A} (p : A -> bool) (l1 l2 : list A) :
  find p (l1 ++ l2) =
  match find p l1 with Some a => Some a | None => find p l2 end.
Proof.
  induction l1 as [|x l1 IH]; simpl; [reflexivity|].
  now destruct (p x).
Qed.

(** C10, as the claim states it, fails: a record with a hex payload and
    ground truth is paired with an earlier matching record of the set, not
    with itself. *)
Lemma self_pairing_counterexample :
  ~ (forall dateParse (allData : list SourceRecord.t) (record : SourceRecord.t),
       In record allData ->
       truthy (SourceRecord.hexData record) = true ->
       SourceRecord.temperature record <> VUndefined ->
       SourceRecord.humidity record <> VUndefined ->
       SourceRecord.pressure record <> VUndefined ->
       In (ValidationPair.mk record record) (validationPairs dateParse allData)).
Proof.
  intros H.
  specialize (H Fixtures.dateParse [Fixtures.actual4999; Fixtures.hexAndActual]
                Fixtures.hexAndActual).
  assert (P : validationPairs Fixtures.dateParse
                [Fixtures.actual4999; Fixtures.hexAndActual] =
              [ValidationPair.mk Fixtures.hexAndActual Fixtures.actual4999])
    by (vm_compute; reflexivity).
  rewrite P in H.
  destruct H as [H|[]]; try (right; left; reflexivity);
    try reflexivity; try discriminate.
Qed.

(** A record without a valid timestamp never satisfies its own pairing
    predicate, whatever its other properties. *)
Lemma undated_record_never_pairs :
  validationPairs Fixtures.dateParse [Fixtures.hexAndActualUndated] = [].
Proof. vm_compute. reflexivity. Qed.

(** C10 (amended): a record with a hex payload, the three ground-truth
    properties, a valid timestamp and a device that is not NaN satisfies
    its own pairing predicate, so the search always finds a candidate for
    it and the record always yields a pair; the ground-truth side of that
    pair is the first record of the set that satisfies the predicate: the
    first matching record among those before it when there is one, and
    the record itself otherwise. *)
Theorem hex_record_is_own_candidate
    dateParse (before after : list SourceRecord.t) (record : SourceRecord.t) (t : Z) :
  truthy (SourceRecord.hexData record) = true ->
  SourceRecord.temperature record <> VUndefined ->
  SourceRecord.humidity record <> VUndefined ->
  SourceRecord.pressure record <> VUndefined ->
  SourceRecord.device record <> VNumber NaN ->
  getTime dateParse (SourceRecord.timestamp record) = Some t ->
  isActualFor dateParse record record = true /\
  exists actualRecord,
    find (isActualFor dateParse record) (before ++ record :: after) = Some actualRecord /\
    isActualFor dateParse record actualRecord = true /\
    In (ValidationPair.mk record actualRecord)
       (validationPairs dateParse (before ++ record :: after)) /\
    actualRecord =
      match find (isActualFor dateParse record) before with
      | Some earlier => earlier
      | None => record
      end /\
    ((forall r, In r before -> isActualFor dateParse record r = false) ->
     actualRecord = record) /\
    (forall r, In r before -> isActualFor dateParse record r = true ->
       exists earlier, In earlier before /\ actualRecord = earlier).
Proof.
  intros Hhex Ht Hh Hp Hdev Htime.
  assert (Self : isActualFor dateParse record record = true).
  { apply isActualFor_spec. repeat split; auto using strictEq_refl.
    exists t, t. repeat split; auto. rewrite Z.sub_diag. simpl. lia. }
  split; [exact Self|].
  set (actualRecord := match find (isActualFor dateParse record) before with
                       | Some earlier => earlier
                       | None => record
                       end).
  assert (F : find (isActualFor dateParse record) (before ++ record :: after)
              = Some actualRecord).
  { rewrite find_app. unfold actualRecord.
    destruct (find (isActualFor dateParse record) before); [reflexivity|].
    simpl. now rewrite Self. }
  exists actualRecord. split; [exact F|].
  pose proof (find_some _ _ F) as [_ Ha].
  split; [exact Ha|]. split; [|split; [reflexivity|split]].
  - unfold validationPairs. rewrite pairLoop_flat_map.
    apply in_flat_map. exists record. split.
    + apply in_or_app. right. now left.
    + rewrite Hhex, F. now left.
  - intros Hb. unfold actualRecord.
    now rewrite (proj2 (find_nothing _ before) Hb).
  - intros r Hr Hm. unfold actualRecord.
    destruct (find (isActualFor dateParse record) before) as [earlier|] eqn:E.
    + exists earlier. split; [|reflexivity]. now apply (find_some _ _ E).
    + rewrite find_nothing in E. rewrite (E r Hr) in Hm. discriminate.
Qed.

Lemma hex_record_is_own_candidate_witness :
  isActualFor Fixtures.dateParse Fixtures.hexAndActual Fixtures.hexAndActual = true /\
  exists actualRecord,
    find (isActualFor Fixtures.dateParse Fixtures.hexAndActual)
         ([Fixtures.actual5001] ++ Fixtures.hexAndActual :: [Fixtures.actual4999])
      = Some actualRecord /\
    isActualFor Fixtures.dateParse Fixtures.hexAndActual actualRecord = true /\
    In (ValidationPair.mk Fixtures.hexAndActual actualRecord)
       (validationPairs Fixtures.dateParse
          ([Fixtures.actual5001] ++ Fixtures.hexAndActual :: [Fixtures.actual4999])) /\
    actualRecord =
      match find (isActualFor Fixtures.dateParse Fixtures.hexAndActual)
                 [Fixtures.actual5001] with
      | Some earlier => earlier
      | None => Fixtures.hexAndActual
      end /\
    ((forall r, In r [Fixtures.actual5001] ->
                isActualFor Fixtures.dateParse Fixtures.hexAndActual r = false) ->
     actualRecord = Fixtures.hexAndActual) /\
    (forall r, In r [Fixtures.actual5001] ->
       isActualFor Fixtures.dateParse Fixtures.hexAndActual r = true ->
       exists earlier, In earlier [Fixtures.actual5001] /\ actualRecord = earlier).
Proof.
  apply (hex_record_is_own_candidate Fixtures.dateParse
           [Fixtures.actual5001] [Fixtures.actual4999] Fixtures.hexAndActual
           1735689601000).
  - vm_compute; reflexivity.
  - simpl; discriminate.
  - simpl; discriminate.
  - simpl; discriminate.
  - simpl; discriminate.
  - vm_compute; reflexivity.
Defined.

(** *** Failures stay with their record *)

Lemma fetchAndDecodeData_map (data : list SourceRecord.t) :
  fetchAndDecodeData data =
  map decodeRecord (filter (fun record => truthy (SourceRecord.hexData record)) data).
Proof.
  unfold fetchAndDecodeData.
  now destruct (filter (fun record => truthy (SourceRecord.hexData record)) data).
Qed.


(** A successfully decoded record yields the success shape. *)
Lemma decodeRecord_success (record : SourceRecord.t) (reading : Reading.t) :
  decodeHexString (SourceRecord.hexData record) = Return reading ->
  decodeRecord record =
    DecodedItem.mk (SourceRecord.device record) (SourceRecord.timestamp record)
                   (SourceRecord.hexData record) (Some reading)
                   (Some (div (lengthOf (SourceRecord.hexData record)) (ofZ 2)))
                   true None.
Proof. unfold decodeRecord. intros ->. now destruct reading. Qed.



(** *** The format and length checks of [decodeHexString] *)

Lemma testHex_nonempty (s : jsstring) :
  testHex (stripWhiteSpace s) = true -> exists c r, s = c :: r.
Proof. destruct s as [|c r]; [discriminate|]. now exists c, r. Qed.

Lemma testHex_forallb (s : jsstring) : testHex s = true -> forallb isHex s = true.
Proof. now destruct s. Qed.

Lemma fromHex_length (n : nat) : forall s : jsstring,
  List.length s = (2 * n)%nat -> forallb isHex s = true ->
  List.length (Buffer.fromHex s) = n.
Proof.
  induction n as [|n IH]; intros s Hl Hh.
  - now destruct s.
  - destruct s as [|a [|b r]]; simpl in Hl; try lia.
    simpl in Hh. apply andb_true_iff in Hh as [Ha Hh].
    apply andb_true_iff in Hh as [Hb Hh].
    unfold isHex in Ha, Hb. simpl.
    destruct (hexVal a); [|discriminate]. destruct (hexVal b); [|discriminate].
    simpl. f_equal. apply IH; [lia|assumption].
Qed.

Lemma readFloatLE_inside (buf : Buffer.buffer) (offset : nat) :
  (offset + 4 <= List.length buf)%nat ->
  exists x, Buffer.readFloatLE buf offset = Return x.
Proof.
  intros H. unfold Buffer.readFloatLE.
  assert (L : (4 <= List.length (skipn offset buf))%nat) by (rewrite length_skipn; lia).
  destruct (skipn offset buf) as [|b0 [|b1 [|b2 [|b3 r]]]]; simpl in L; try lia.
  eexists. reflexivity.
Qed.

(** A payload of 24 hexadecimal digits gives a 12-byte buffer, on which the
    three reads succeed. *)
Lemma decodeClean_reads (cleanHex : jsstring) :
  testHex cleanHex = true -> len cleanHex = 24 ->
  exists temperature humidity pressure,
    Buffer.readFloatLE (Buffer.fromHex cleanHex) 0 = Return temperature /\
    Buffer.readFloatLE (Buffer.fromHex cleanHex) 4 = Return humidity /\
    Buffer.readFloatLE (Buffer.fromHex cleanHex) 8 = Return pressure /\
    decodeClean cleanHex =
      (let* _ := validateSensorValues temperature humidity pressure in
       Return (Reading.mk (parseFloat (VString (toFixed temperature 4)))
                          (parseFloat (VString (toFixed humidity 4)))
                          (parseFloat (VString (toFixed pressure 4))))).
Proof.
  intros Hh Hl.
  assert (L : List.length (Buffer.fromHex cleanHex) = 12%nat).
  { apply fromHex_length; [unfold len in Hl; lia|now apply testHex_forallb]. }
  destruct (readFloatLE_inside (Buffer.fromHex cleanHex) 0) as [t Ht]; [lia|].
  destruct (readFloatLE_inside (Buffer.fromHex cleanHex) 4) as [h Hhu]; [lia|].
  destruct (readFloatLE_inside (Buffer.fromHex cleanHex) 8) as [p Hp]; [lia|].
  exists t, h, p. repeat split; auto.
  unfold decodeClean. rewrite Ht, Hhu, Hp. reflexivity.
Qed.

Lemma startsWith_app (p rest : jsstring) : startsWith p (p ++ rest) = true.
Proof.
  induction p as [|a p IH]; [reflexivity|].
  simpl. now rewrite Z.eqb_refl.
Qed.

Lemma includes_prefix (p rest : jsstring) : includes (p ++ rest) p = true.
Proof.
  destruct (p ++ rest) eqn:E; simpl; rewrite <- E, startsWith_app; reflexivity.
Qed.

Lemma outOfRange_message_rethrown (errors : list jsstring) :
  includes (message (outOfRangeError errors)) (lit "Invalid sensor values") = true.
Proof.
  change (message (outOfRangeError errors))
    with (lit "Invalid sensor values"
          ++ (lit " detected: " ++ join (lit ", ") errors)).
  apply includes_prefix.
Qed.

Lemma validateSensorValues_cases (temperature humidity pressure : number) :
  match validationErrors temperature humidity pressure with
  | [] => validateSensorValues temperature humidity pressure = Return tt
  | errors => validateSensorValues temperature humidity pressure =
                Throw (outOfRangeError errors)
  end.
Proof.
  unfold validateSensorValues.
  now destruct (validationErrors temperature humidity pressure).
Qed.

(** What [decodeHexString] does with a payload that passed both checks. *)
Lemma decodeHexString_clean (s : jsstring) :
  testHex (stripWhiteSpace s) = true -> len (stripWhiteSpace s) = 24 ->
  exists temperature humidity pressure,
    Buffer.readFloatLE (Buffer.fromHex (stripWhiteSpace s)) 0 = Return temperature /\
    Buffer.readFloatLE (Buffer.fromHex (stripWhiteSpace s)) 4 = Return humidity /\
    Buffer.readFloatLE (Buffer.fromHex (stripWhiteSpace s)) 8 = Return pressure /\
    decodeHexString (VString s) =
      match validationErrors temperature humidity pressure with
      | [] => Return (Reading.mk (parseFloat (VString (toFixed temperature 4)))
                                 (parseFloat (VString (toFixed humidity 4)))
                                 (parseFloat (VString (toFixed pressure 4))))
      | errors => Throw (outOfRangeError errors)
      end.
Proof.
  intros Hh Hl.
  destruct (decodeClean_reads _ Hh Hl) as (t & h & p & Ht & Hhu & Hp & D).
  exists t, h, p. repeat split; auto.
  destruct (testHex_nonempty s Hh) as (c & r & ->).
  unfold decodeHexString. rewrite Hh, Hl, D. simpl negb. cbv iota.
  pose proof (validateSensorValues_cases t h p) as V.
  destruct (validationErrors t h p) as [|e errors]; rewrite V;
    cbv beta iota delta [bind].
  - reflexivity.
  - now rewrite outOfRange_message_rethrown.
Qed.

(** The format check comes first: a payload with a character that is not a
    hexadecimal digit, or with nothing but whitespace, fails on its format
    whatever its length. *)
Lemma decodeHexString_format_first (s : jsstring) :
  s <> [] -> testHex (stripWhiteSpace s) = false ->
  decodeHexString (VString s) = Throw invalidFormatError.
Proof.
  intros Hs Hh. destruct s as [|c r]; [congruence|].
  unfold decodeHexString. now rewrite Hh.
Qed.

(** C2, as the claim states it, fails: ["xyz"] has stripped length 3, yet
    the failure is the format error, not the length error. *)
Lemma length_error_counterexample :
  ~ (forall s : jsstring,
       len (stripWhiteSpace s) <> 24 ->
       decodeHexString (VString s) =
         Throw (invalidLengthError (len (stripWhiteSpace s)))).
Proof.
  intros H. specialize (H (lit "xyz")).
  assert (E : decodeHexString (VString (lit "xyz")) = Throw invalidFormatError)
    by (vm_compute; reflexivity).
  rewrite E in H.
  assert (L : len (stripWhiteSpace (lit "xyz")) = 3) by (vm_compute; reflexivity).
  rewrite L in H. specialize (H ltac:(lia)).
  vm_compute in H. discriminate H.
Qed.

(** C2 (amended): the empty string fails the first guard; a non-empty
    string whose stripped form is empty or holds a character that is not a
    hexadecimal digit fails with the format error, whatever its length;
    when the stripped form is non-empty and made of hexadecimal digits
    only, a length other than 24 fails with the length error, whose
    message gives the expected 24 and the actual stripped length; a length
    of exactly 24 never fails on length or format: the call returns a
    reading or throws the range error. *)
Theorem decodeHexString_length_check (s : jsstring) :
  let cleanHex := stripWhiteSpace s in
  (testHex cleanHex = false <->
   cleanHex = [] \/ exists c, In c cleanHex /\ isHex c = false)
  /\ (s = [] ->
      decodeHexString (VString s) =
        Throw (createApiError (lit "Invalid hex string provided") 400))
  /\ (s <> [] -> testHex cleanHex = false ->
      decodeHexString (VString s) =
        Throw (createApiError (lit "Invalid hexadecimal format") 400))
  /\ (testHex cleanHex = true -> len cleanHex <> 24 ->
      decodeHexString (VString s) =
        Throw (createApiError
                 (lit "Invalid hex data length. Expected 24 characters (12 bytes), got "
                  ++ digitsOf (len cleanHex)) 400))
  /\ (testHex cleanHex = true -> len cleanHex = 24 ->
      (exists reading, decodeHexString (VString s) = Return reading) \/
      (exists e errors, decodeHexString (VString s) =
                          Throw (outOfRangeError (e :: errors)))).
Proof.
  intros cleanHex. split; [|split; [|split; [|split]]].
  - unfold testHex. destruct cleanHex as [|c r] eqn:E.
    + split; [now left|reflexivity].
    + split.
      * intros F. right.
        destruct (forallb isHex (c :: r)) eqn:A; [discriminate|].
        assert (X : existsb (fun x => negb (isHex x)) (c :: r) = true).
        { clear - A. induction (c :: r) as [|x l IH]; [discriminate|].
          simpl in *. destruct (isHex x); simpl in *; auto. }
        apply existsb_exists in X as (x & Hx & Nx).
        exists x. split; [exact Hx|]. now destruct (isHex x).
      * intros [F|(x & Hx & Nx)]; [discriminate|].
        destruct (forallb isHex (c :: r)) eqn:A; [|reflexivity].
        rewrite forallb_forall in A. rewrite (A x Hx) in Nx. discriminate.
  - intros ->. reflexivity.
  - intros Hs Hh. now apply decodeHexString_format_first.
  - intros Hh Hl. destruct (testHex_nonempty s Hh) as (c & r & ->).
    apply Z.eqb_neq in Hl.
    unfold decodeHexString. fold cleanHex. rewrite Hh, Hl. reflexivity.
  - intros Hh Hl.
    destruct (decodeHexString_clean s Hh Hl) as (t & h & p & _ & _ & _ & D).
    rewrite D. destruct (validationErrors t h p) as [|e errors].
    + left. eexists. reflexivity.
    + right. now exists e, errors.
Qed.

Lemma decodeHexString_length_check_witness :
  decodeHexString (VString (lit "0000 e840")) =
    Throw (createApiError
             (lit "Invalid hex data length. Expected 24 characters (12 bytes), got 8") 400)
  /\ (exists reading,
      decodeHexString (VString (lit "0000e840 cdccc742 4a3e8044")) = Return reading)
  /\ decodeHexString (VString (lit "  ")) =
       Throw (createApiError (lit "Invalid hexadecimal format") 400)
  /\ decodeHexString (VString (lit "0000e840 cdccc742 4a3e804g")) =
       Throw (createApiError (lit "Invalid hexadecimal format") 400).
Proof.
  split; [|split; [|split]].
  - pose proof (decodeHexString_length_check (lit "0000 e840")) as H.
    cbv zeta in H. destruct H as (_ & _ & _ & L & _).
    apply L; [reflexivity|vm_compute; discriminate].
  - pose proof (decodeHexString_length_check (lit "0000e840 cdccc742 4a3e8044")) as H.
    cbv zeta in H. destruct H as (_ & _ & _ & _ & L).
    destruct (L eq_refl eq_refl) as [R|R].
    + exact R.
    + exfalso. destruct R as (e & errors & R). vm_compute in R. discriminate R.
  - pose proof (decodeHexString_length_check (lit "  ")) as H.
    cbv zeta in H. destruct H as (_ & _ & F & _ & _).
    apply F; [discriminate|reflexivity].
  - pose proof (decodeHexString_length_check (lit "0000e840 cdccc742 4a3e804g")) as H.
    cbv zeta in H. destruct H as (_ & _ & F & _ & _).
    apply F; [discriminate|reflexivity].
Defined.

(** *** Range validation *)

Lemma SFcompare_antisym (x y : number) :
  SFcompare y x = option_map CompOpp (SFcompare x y).
Proof.
  destruct x as [[]|[]| |[] mx ex], y as [[]|[]| |[] my ey];
    simpl; try reflexivity;
    rewrite (Z.compare_antisym ex ey);
    destruct (ex ?= ey); simpl; try reflexivity;
    pose proof (Pos.compare_cont_antisym mx my Eq) as A; simpl in A;
    rewrite <- A; now destruct (Pos.compare_cont Eq mx my).
Qed.

Lemma ltb_negb_leb (x y : number) :
  x <> NaN -> y <> NaN -> ltb x y = negb (leb y x).
Proof.
  unfold ltb, leb, SFltb, SFleb, NaN. intros Hx Hy.
  rewrite (SFcompare_antisym x y).
  destruct x as [[]|[]| |[] mx ex], y as [[]|[]| |[] my ey];
    try congruence; simpl; try reflexivity;
    destruct (ex ?= ey); simpl; try reflexivity;
    now destruct (Pos.compare_cont Eq mx my).
Qed.

Lemma invalid_iff_outside (low high x : number) :
  low <> NaN -> high <> NaN ->
  isNaN x || ltb x low || ltb high x = negb (inRange low high x).
Proof.
  intros Hl Hh. unfold inRange.
  destruct x as [s|s| |s m e] eqn:E.
  1,2,4: rewrite <- E; rewrite !ltb_negb_leb by (subst; unfold NaN in *; congruence);
         subst; simpl isNaN; now rewrite negb_andb.
  simpl. unfold leb, SFleb.
  now destruct low.
Qed.

Lemma temperatureInvalid_outside (x : number) :
  temperatureInvalid x = negb (inRange (ofZ (-50)) (ofZ 85) x).
Proof. apply invalid_iff_outside; vm_compute; discriminate. Qed.

Lemma humidityInvalid_outside (x : number) :
  humidityInvalid x = negb (inRange (ofZ 0) (ofZ 100) x).
Proof. apply invalid_iff_outside; vm_compute; discriminate. Qed.

Lemma pressureInvalid_outside (x : number) :
  pressureInvalid x = negb (inRange (ofZ 300) (ofZ 1200) x).
Proof. apply invalid_iff_outside; vm_compute; discriminate. Qed.

Lemma nonfinite_outside (low high x : number) :
  isFinite x = false -> isFinite low = true -> isFinite high = true ->
  inRange low high x = false.
Proof.
  unfold inRange, leb, SFleb.
  destruct x as [s|[]| |s m e]; try discriminate; intros _ Hl Hh.
  - destruct low as [[]|[]| |[] ml el]; try discriminate; reflexivity.
  - destruct high as [[]|[]| |[] mh eh]; try discriminate; simpl;
      apply andb_false_r.
  - destruct low; reflexivity.
Qed.

(** The range error for 200 degrees, -5 percent and 50 hPa names the three
    fields, with the offending values. *)
Example validateSensorValues_all_three :
  validateSensorValues (ofZ 200) (ofZ (-5)) (ofZ 50) =
    Throw (createApiError
             (lit "Invalid sensor values detected: Invalid temperature: 200"
              ++ [176] ++ lit "C, Invalid humidity: -5%, Invalid pressure: 50 hPa")
             400).
Proof. vm_compute. reflexivity. Qed.

(** C4: a field violates its range exactly when it is not inside
    [-50, 85], [0, 100] or [300, 1200] respectively, which includes NaN and
    the infinities; validation fails exactly when at least one field
    violates, and then with one error of status 400 whose message is
    [Invalid sensor values detected: ] followed by one entry for every
    violating field, separated by commas, in the order temperature,
    humidity, pressure; an entry names its field and gives the offending
    value as [String(value)] prints it. *)
Theorem validateSensorValues_collects (temperature humidity pressure : number) :
  let violations :=
    (if negb (inRange (ofZ (-50)) (ofZ 85) temperature)
     then [lit "Invalid temperature: " ++ toString temperature ++ [176] ++ lit "C"]
     else [])
    ++ (if negb (inRange (ofZ 0) (ofZ 100) humidity)
        then [lit "Invalid humidity: " ++ toString humidity ++ lit "%"]
        else [])
    ++ (if negb (inRange (ofZ 300) (ofZ 1200) pressure)
        then [lit "Invalid pressure: " ++ toString pressure ++ lit " hPa"]
        else []) in
  validateSensorValues temperature humidity pressure =
    match violations with
    | [] => Return tt
    | _ => Throw (createApiError
                    (lit "Invalid sensor values detected: "
                     ++ join (lit ", ") violations) 400)
    end
  /\ ((exists e, validateSensorValues temperature humidity pressure = Throw e) <->
      inRange (ofZ (-50)) (ofZ 85) temperature = false \/
      inRange (ofZ 0) (ofZ 100) humidity = false \/
      inRange (ofZ 300) (ofZ 1200) pressure = false)
  /\ (isFinite temperature = false -> inRange (ofZ (-50)) (ofZ 85) temperature = false)
  /\ (isFinite humidity = false -> inRange (ofZ 0) (ofZ 100) humidity = false)
  /\ (isFinite pressure = false -> inRange (ofZ 300) (ofZ 1200) pressure = false).
Proof.
  intros violations.
  assert (V : validationErrors temperature humidity pressure = violations).
  { unfold validationErrors, violations.
    rewrite temperatureInvalid_outside, humidityInvalid_outside,
            pressureInvalid_outside.
    reflexivity. }
  assert (E : validateSensorValues temperature humidity pressure =
              match violations with
              | [] => Return tt
              | _ => Throw (createApiError
                              (lit "Invalid sensor values detected: "
                               ++ join (lit ", ") violations) 400)
              end).
  { pose proof (validateSensorValues_cases temperature humidity pressure) as C.
    rewrite V in C. now destruct violations. }
  split; [exact E|]. split.
  - rewrite E. unfold violations.
    destruct (inRange (ofZ (-50)) (ofZ 85) temperature),
             (inRange (ofZ 0) (ofZ 100) humidity),
             (inRange (ofZ 300) (ofZ 1200) pressure); cbn [negb app];
      (split; [intros [e H]; try discriminate; auto
              | intros [H|[H|H]]; try discriminate; eexists; reflexivity]).
  - repeat split; intros H; apply nonfinite_outside; auto.
Qed.

Lemma validateSensorValues_collects_witness :
  validateSensorValues (ofZ 200) (nearest false 505 10) (S754_infinity true) =
    Throw (createApiError
             (lit "Invalid sensor values detected: Invalid temperature: 200"
              ++ [176] ++ lit "C, Invalid pressure: -Infinity hPa") 400)
  /\ (exists e, validateSensorValues NaN (ofZ 50) (ofZ 1000) = Throw e)
  /\ inRange (ofZ (-50)) (ofZ 85) NaN = false
  /\ inRange (ofZ 0) (ofZ 100) (S754_infinity false) = false
  /\ inRange (ofZ 300) (ofZ 1200) (S754_infinity true) = false.
Proof.
  split; [|split].
  - pose proof (proj1 (validateSensorValues_collects
                         (ofZ 200) (nearest false 505 10) (S754_infinity true))) as H.
    vm_compute in H. vm_compute. exact H.
  - apply (proj1 (proj2 (validateSensorValues_collects NaN (ofZ 50) (ofZ 1000)))).
    left. reflexivity.
  - destruct (validateSensorValues_collects NaN (S754_infinity false) (S754_infinity true))
      as (_ & _ & Ht & Hh & Hp).
    exact (conj (Ht eq_refl) (conj (Hh eq_refl) (Hp eq_refl))).
Defined.

(** *** Comparison with the ground truth *)

(** The flag of one field, from the computed difference. *)
Lemma field_match_boundary :
  leb (abs tolerance) tolerance = true /\
  leb (abs (SFopp tolerance)) tolerance = true /\
  leb (abs (nearest false 101 10000)) tolerance = false /\
  leb (abs (nearest true 101 10000)) tolerance = false /\
  leb (abs NaN) tolerance = false.
Proof. repeat split; vm_compute; reflexivity. Qed.

(** The flag is decided on the difference as computed, not on its text
    with four decimals: 7.25 against 7.23996 prints as 0.0100 and is no
    match. *)
Example match_uses_unrounded_difference :
  let result :=
    validatePair (ValidationPair.mk Fixtures.hexOnly
                                    (Fixtures.actualTemperature "7.23996")) in
  option_map Differences.temperature (ValidationResult.differences result)
    = Some (lit "0.0100") /\
  option_map Matches.temperature (ValidationResult.matches result) = Some false.
Proof. split; vm_compute; reflexivity. Qed.

(** The subtraction is the binary64 one: 0.07 - 0.06 is computed as
    0.010000000000000009, which is above the tolerance. *)
Example subtraction_is_binary64 :
  toString (sub (nearest false 7 100) (nearest false 6 100))
    = lit "0.010000000000000009" /\
  leb (abs (sub (nearest false 7 100) (nearest false 6 100))) tolerance = false.
Proof. split; vm_compute; reflexivity. Qed.

(** What [validatePair] computes when the hex side of a pair decodes: per
    field, the difference [decoded - actual] printed with four decimals and
    the flag [|decoded - actual| <= 0.01], taken on the difference as
    computed in binary64, not on its printed form; [isAccurate] is the
    conjunction of the three flags and the tolerance is the Number 0.01. *)
Lemma validatePair_fields (pair : ValidationPair.t) (decoded : Reading.t) :
  decodeHexString (SourceRecord.hexData (ValidationPair.hexRecord pair)) = Return decoded ->
  let hexRecord := ValidationPair.hexRecord pair in
  let actualRecord := ValidationPair.actualRecord pair in
  let actual :=
    Reading.mk (parseFloat (SourceRecord.temperature actualRecord))
               (parseFloat (SourceRecord.humidity actualRecord))
               (parseFloat (SourceRecord.pressure actualRecord)) in
  let dT := sub (Reading.temperature decoded) (Reading.temperature actual) in
  let dH := sub (Reading.humidity decoded) (Reading.humidity actual) in
  let dP := sub (Reading.pressure decoded) (Reading.pressure actual) in
  let result := validatePair pair in
  ValidationResult.decoded result = Some decoded /\
  ValidationResult.actual result = Some actual /\
  ValidationResult.differences result =
    Some (Differences.mk (toFixed dT 4) (toFixed dH 4) (toFixed dP 4)) /\
  ValidationResult.matches result =
    Some (Matches.mk (leb (abs dT) (nearest false 1 100))
                     (leb (abs dH) (nearest false 1 100))
                     (leb (abs dP) (nearest false 1 100))) /\
  ValidationResult.isAccurate result =
    leb (abs dT) (nearest false 1 100)
    && leb (abs dH) (nearest false 1 100)
    && leb (abs dP) (nearest false 1 100) /\
  ValidationResult.tolerance result = Some (nearest false 1 100) /\
  ValidationResult.error result = None.
Proof.
  intros Hdec hexRecord actualRecord actual dT dH dP result.
  assert (R : result =
    ValidationResult.mk (SourceRecord.device hexRecord) (SourceRecord.timestamp hexRecord)
      (SourceRecord.hexData hexRecord) (Some decoded) (Some actual)
      (Some (Differences.mk (toFixed dT 4) (toFixed dH 4) (toFixed dP 4)))
      (Some (Matches.mk (leb (abs dT) tolerance) (leb (abs dH) tolerance)
                        (leb (abs dP) tolerance)))
      (leb (abs dT) tolerance && leb (abs dH) tolerance && leb (abs dP) tolerance)
      (Some tolerance) None).
  { unfold result, validatePair. rewrite Hdec. reflexivity. }
  rewrite R.
  cbn [ValidationResult.decoded ValidationResult.actual ValidationResult.differences
       ValidationResult.matches ValidationResult.isAccurate ValidationResult.tolerance
       ValidationResult.error].
  change tolerance with (nearest false 1 100).
  repeat split.
Qed.

(** C7 (the code's behaviour at the tolerance boundary): the payload of the
    known vector decodes to a humidity of 99.9; against a ground truth of
    99.89, with the other two fields equal, the result reports the
    humidity difference [0.0100] and the tolerance 0.01, yet the humidity
    flag is [false] and the result is not accurate: the flag is taken on
    the binary64 difference as computed, 0.010000000000005116, not on the
    difference with four decimals.  The same reported difference [0.0100]
    on the temperature, 7.25 against 7.24, is a match. *)
Theorem validatePair_exact_tolerance_no_match :
  let humid :=
    validatePair (ValidationPair.mk Fixtures.hexOnly (Fixtures.actualHumidity "99.89")) in
  let warm :=
    validatePair (ValidationPair.mk Fixtures.hexOnly (Fixtures.actualTemperature "7.24")) in
  ValidationResult.decoded humid =
    Some (Reading.mk (nearest false 725 100) (nearest false 999 10)
                     (nearest false 10259465 10000)) /\
  ValidationResult.actual humid =
    Some (Reading.mk (nearest false 725 100) (nearest false 9989 100)
                     (nearest false 10259465 10000)) /\
  ValidationResult.differences humid =
    Some (Differences.mk (lit "0.0000") (lit "0.0100") (lit "0.0000")) /\
  ValidationResult.tolerance humid = Some (nearest false 1 100) /\
  ValidationResult.matches humid = Some (Matches.mk true false true) /\
  ValidationResult.isAccurate humid = false /\
  ValidationResult.error humid = None /\
  ValidationResult.differences warm =
    Some (Differences.mk (lit "0.0100") (lit "0.0000") (lit "0.0000")) /\
  ValidationResult.matches warm = Some (Matches.mk true true true) /\
  ValidationResult.isAccurate warm = true.
Proof. repeat split; vm_compute; reflexivity. Qed.

(** *** Rounding to the nearest Number *)

Lemma bounded_quotient (L H m a b : Z) :
  0 < b -> 2 * a - b <= 2 * (m * b) <= 2 * a + b ->
  (L * b <= a -> L <= m) /\ (a <= H * b -> m <= H).
Proof. intros Hb Hm. split; intros Hx; nia. Qed.

Lemma roundHalfEven_near (a b : Z) :
  0 < b -> 2 * a - b <= 2 * (roundHalfEven a b * b) <= 2 * a + b.
Proof.
  intros Hb. unfold roundHalfEven.
  pose proof (Z.div_mod a b ltac:(lia)) as D.
  pose proof (Z.mod_pos_bound a b Hb) as R.
  destruct (Z.compare_spec (2 * (a mod b)) b) as [E|E|E];
    [destruct (Z.even (a / b))| |]; nia.
Qed.

Lemma roundHalfUp_near (a b : Z) :
  0 < b -> 2 * a - b < 2 * (roundHalfUp a b * b) <= 2 * a + b.
Proof.
  intros Hb. unfold roundHalfUp.
  pose proof (Z.div_mod (2 * a + b) (2 * b) ltac:(lia)) as D.
  pose proof (Z.mod_pos_bound (2 * a + b) (2 * b) ltac:(lia)) as R.
  nia.
Qed.

Lemma pow2_pos (k : Z) : 0 <= k -> 0 < 2 ^ k.
Proof. intros. apply Z.pow_pos_nonneg; lia. Qed.

Lemma pow2_split (j k : Z) : 0 <= j -> 0 <= k -> 2 ^ (j + k) = 2 ^ j * 2 ^ k.
Proof. intros. apply Z.pow_add_r; lia. Qed.

(** [ilog2Ratio a b] is the position of the leading bit of [a / b]. *)
Lemma ilog2Ratio_spec (a b K : Z) :
  0 < a -> 0 < b ->
  let l := ilog2Ratio a b in
  0 <= K -> 0 <= K + l ->
  b * 2 ^ (K + l) <= a * 2 ^ K < b * 2 ^ (K + l + 1).
Proof.
  intros Ha Hb l HK HKl.
  pose proof (Z.log2_spec a Ha) as [A1 A2].
  pose proof (Z.log2_spec b Hb) as [B1 B2].
  pose proof (Z.log2_nonneg a) as La. pose proof (Z.log2_nonneg b) as Lb.
  set (la := Z.log2 a) in *. set (lb := Z.log2 b) in *.
  assert (Up : a * 2 ^ K < b * 2 ^ (K + (la - lb) + 1)).
  { assert (E : K + (la - lb) + 1 + lb = K + Z.succ la) by lia.
    assert (0 <= K + (la - lb) + 1).
    { unfold l, ilog2Ratio in HKl. fold la lb in HKl.
      destruct (if 0 <=? la - lb then _ else _); lia. }
    apply Z.lt_le_trans with (2 ^ Z.succ la * 2 ^ K).
    - apply Z.mul_lt_mono_pos_r; [now apply pow2_pos|exact A2].
    - rewrite <- pow2_split by lia.
      replace (Z.succ la + K) with (K + (la - lb) + 1 + lb) by lia.
      rewrite pow2_split by lia.
      rewrite (Z.mul_comm b). apply Z.mul_le_mono_nonneg_l; [|exact B1].
      apply Z.lt_le_incl, pow2_pos; lia. }
  assert (Low : b * 2 ^ (K + (la - lb) - 1) <= a * 2 ^ K).
  { destruct (Z.lt_ge_cases (K + (la - lb) - 1) 0) as [N|N].
    - rewrite (Z.pow_neg_r 2 _ N). pose proof (pow2_pos K HK). nia.
    - apply Z.le_trans with (2 ^ la * 2 ^ K).
      + rewrite <- pow2_split by lia.
        replace (la + K) with (Z.succ lb + (K + (la - lb) - 1)) by lia.
        rewrite pow2_split by lia.
        apply Z.mul_le_mono_nonneg_r; [apply Z.lt_le_incl, pow2_pos; lia|lia].
      + apply Z.mul_le_mono_nonneg_r; [apply Z.lt_le_incl, pow2_pos; lia|exact A1]. }
  unfold l, ilog2Ratio in *. fold la lb in HKl |- *.
  destruct (Z.leb_spec 0 (la - lb)) as [P|P].
  - destruct (Z.leb_spec (b * 2 ^ (la - lb)) a) as [T|T].
    + split; [|exact Up].
      rewrite pow2_split by lia. pose proof (pow2_pos K HK). nia.
    + replace (K + (la - lb - 1) + 1) with (K + (la - lb)) by lia.
      replace (K + (la - lb - 1)) with (K + (la - lb) - 1) by lia.
      split; [exact Low|].
      rewrite pow2_split by lia. pose proof (pow2_pos K HK). nia.
  - destruct (Z.leb_spec b (a * 2 ^ (- (la - lb)))) as [T|T];
      (assert (E : 2 ^ K = 2 ^ (K + (la - lb)) * 2 ^ (- (la - lb)))
         by (rewrite <- pow2_split by lia; f_equal; lia)).
    + split; [|exact Up].
      rewrite E. pose proof (pow2_pos (K + (la - lb)) ltac:(lia)). nia.
    + replace (K + (la - lb - 1) + 1) with (K + (la - lb)) by lia.
      replace (K + (la - lb - 1)) with (K + (la - lb) - 1) by lia.
      split; [exact Low|].
      rewrite E. pose proof (pow2_pos (K + (la - lb)) ltac:(lia)). nia.
Qed.

(** For a ratio between two integer bounds (so neither subnormal nor
    beyond [2^52]) the result of [nearest] is a normal Number between the
    same bounds. *)
Lemma nearest_between (s : bool) (a b lo hi : Z) :
  0 < a -> 0 < b -> b <= a * 2 ^ 64 -> 0 <= lo -> hi < 2 ^ 52 ->
  lo * b <= a <= hi * b ->
  exists m e,
    nearest s a b = S754_finite s (Z.to_pos m) e /\
    2 ^ 52 <= m < 2 ^ 53 /\ -116 <= e <= 0 /\
    lo * 2 ^ (- e) <= m <= hi * 2 ^ (- e).
Proof.
  intros Ha Hb Hsmall Hlo Hhi [Hl Hh].
  pose proof (ilog2Ratio_spec a b) as S. specialize (S 0 Ha Hb). cbv zeta in S.
  pose proof (ilog2Ratio_spec a b) as S'. specialize (S' (- ilog2Ratio a b) Ha Hb).
  pose proof (ilog2Ratio_spec a b) as S''. specialize (S'' (52 - ilog2Ratio a b) Ha Hb).
  cbv zeta in S', S''.
  unfold nearest.
  set (l := ilog2Ratio a b) in *.
  assert (L51 : l <= 51).
  { destruct (Z.le_gt_cases l 51) as [|G]; [assumption|exfalso].
    destruct (S ltac:(lia) ltac:(lia)) as [S1 _].
    rewrite Z.add_0_l, Z.pow_0_r in S1.
    pose proof (Z.pow_le_mono_r 2 52 l ltac:(lia) ltac:(lia)). nia. }
  assert (L1000 : -64 <= l).
  { destruct (Z.le_gt_cases (-64) l) as [|G]; [assumption|exfalso].
    destruct (S' ltac:(lia) ltac:(lia)) as [_ S2].
    replace (- l + l + 1) with 1 in S2 by lia.
    pose proof (Z.pow_le_mono_r 2 (1 + 64) (- l) ltac:(lia) ltac:(lia)) as Q.
    rewrite pow2_split in Q by lia.
    rewrite Z.pow_1_r in S2, Q.
    remember (2 ^ 64) as T. remember (2 ^ (- l)) as U.
    nia. }
  destruct (S'' ltac:(lia) ltac:(lia)) as [N1 N2].
  replace (52 - l + l) with 52 in N1 by lia.
  replace (52 - l + l + 1) with 53 in N2 by lia.
  clear S S' S'' Hsmall.
  replace (Z.max (l - 52) (-1074)) with (l - 52) by lia.
  destruct (Z.leb_spec a 0) as [|_]; [lia|].
  destruct (Z.leb_spec 0 (l - 52)) as [|_]; [lia|].
  replace (- (l - 52)) with (52 - l) by lia.
  set (P := 2 ^ (52 - l)) in *.
  assert (HP : 0 < P) by (apply pow2_pos; lia).
  pose proof (roundHalfEven_near (a * P) b Hb) as R.
  set (m := roundHalfEven (a * P) b) in *.
  destruct (bounded_quotient (2 ^ 52) (2 ^ 53) m (a * P) b Hb R) as [M1 M2].
  destruct (bounded_quotient (lo * P) (hi * P) m (a * P) b Hb R) as [B1 B2].
  specialize (M1 ltac:(lia)). specialize (M2 ltac:(lia)).
  specialize (B1 ltac:(nia)). specialize (B2 ltac:(nia)).
  clearbody m. clear R N1 N2 Hl Hh.
  destruct (Z.eqb_spec m (2 ^ 53)) as [E|E].
  - exists (2 ^ 52), (l - 52 + 1).
    destruct (Z.eqb_spec (2 ^ 52) 0) as [Z0|_]; [discriminate Z0|].
    destruct (Z.ltb_spec 971 (l - 52 + 1)) as [|_]; [lia|].
    split; [reflexivity|].
    split; [lia|]. split; [lia|].
    assert (P = 2 * 2 ^ (- (l - 52 + 1))) as EP.
    { unfold P. replace (52 - l) with (1 + - (l - 52 + 1)) by lia.
      rewrite pow2_split by lia. reflexivity. }
    lia.
  - exists m, (l - 52).
    destruct (Z.eqb_spec m 0) as [|_]; [lia|].
    destruct (Z.ltb_spec 971 (l - 52)) as [|_]; [lia|].
    split; [reflexivity|]. split; [lia|]. split; [lia|].
    replace (- (l - 52)) with (52 - l) by lia. fold P. lia.
Qed.

(** *** Comparing a normal Number with an integer constant *)


Lemma SFleb_finite (m1 m2 : positive) (e1 e2 : Z) :
  SFleb (S754_finite false m1 e1) (S754_finite false m2 e2) = true <->
  e1 < e2 \/ (e1 = e2 /\ Zpos m1 <= Zpos m2).
Proof.
  unfold SFleb, SFcompare.
  destruct (Z.compare_spec e1 e2) as [E|E|E].
  - change (Pos.compare_cont Eq m1 m2) with (m1 ?= m2)%positive.
    destruct (Pos.compare_spec m1 m2) as [H|H|H];
      split; intros G; try reflexivity; try discriminate; lia.
  - split; [now left|reflexivity].
  - split; [discriminate|lia].
Qed.

Lemma leb_upper (m : positive) (e c : Z) (mc : positive) (ec : Z) :
  2 ^ 52 <= Zpos m < 2 ^ 53 -> denotes c mc ec ->
  leb (S754_finite false m e) (S754_finite false mc ec) = true <->
  e <= 0 /\ Zpos m <= c * 2 ^ (- e).
Proof.
  intros Hm (Hmc & Hec & Hc). unfold leb. rewrite SFleb_finite.
  destruct (Z.lt_trichotomy e ec) as [L|[L|L]].
  - assert (E : 2 ^ (- e) = 2 ^ (- ec) * 2 ^ (ec - e)).
    { rewrite <- pow2_split by lia. f_equal. lia. }
    pose proof (Z.pow_le_mono_r 2 1 (ec - e) ltac:(lia) ltac:(lia)) as Q.
    rewrite Z.pow_1_r in Q.
    split; [intros _|now left]. split; [lia|]. rewrite E. nia.
  - subst e. split; [intros [|[_ H]]; [lia|lia]|intros [_ H]; right; lia].
  - split; [lia|]. intros [H0 H]. exfalso.
    assert (E : 2 ^ (- ec) = 2 ^ (- e) * 2 ^ (e - ec)).
    { rewrite <- pow2_split by lia. f_equal. lia. }
    pose proof (Z.pow_le_mono_r 2 1 (e - ec) ltac:(lia) ltac:(lia)) as Q.
    rewrite Z.pow_1_r in Q.
    pose proof (pow2_pos (- e) ltac:(lia)).
    rewrite E in Hc. nia.
Qed.

Lemma leb_lower (m : positive) (e c : Z) (mc : positive) (ec : Z) :
  2 ^ 52 <= Zpos m < 2 ^ 53 -> denotes c mc ec ->
  leb (S754_finite false mc ec) (S754_finite false m e) = true <->
  c * 2 ^ (- e) <= Zpos m.
Proof.
  intros Hm (Hmc & Hec & Hc). unfold leb. rewrite SFleb_finite.
  destruct (Z.lt_trichotomy e ec) as [L|[L|L]].
  - assert (E : 2 ^ (- e) = 2 ^ (- ec) * 2 ^ (ec - e)).
    { rewrite <- pow2_split by lia. f_equal. lia. }
    pose proof (Z.pow_le_mono_r 2 1 (ec - e) ltac:(lia) ltac:(lia)) as Q.
    rewrite Z.pow_1_r in Q.
    split; [lia|]. intros H. exfalso. rewrite E in H. nia.
  - subst e. split; [intros [|[_ H]]; lia|intros H; right; lia].
  - split; [intros _|now left].
    destruct (Z.lt_ge_cases 0 e) as [P|P].
    + rewrite Z.pow_neg_r by lia. lia.
    + assert (E : 2 ^ (- ec) = 2 ^ (- e) * 2 ^ (e - ec)).
      { rewrite <- pow2_split by lia. f_equal. lia. }
      pose proof (Z.pow_le_mono_r 2 1 (e - ec) ltac:(lia) ltac:(lia)) as Q.
      rewrite Z.pow_1_r in Q.
      pose proof (pow2_pos (- e) ltac:(lia)).
      rewrite E in Hc. nia.
Qed.

(** Two negative Numbers compare as their magnitudes do, the other way
    round. *)
Lemma leb_negative (m1 m2 : positive) (e1 e2 : Z) :
  leb (S754_finite true m1 e1) (S754_finite true m2 e2) =
  leb (S754_finite false m2 e2) (S754_finite false m1 e1).
Proof.
  unfold leb, SFleb. simpl.
  rewrite (Z.compare_antisym e1 e2).
  destruct (e1 ?= e2); simpl; try reflexivity.
  pose proof (Pos.compare_cont_antisym m1 m2 Eq) as A. simpl in A.
  rewrite <- A. now destruct (Pos.compare_cont Eq m1 m2).
Qed.

(** The constants of the range checks. *)
Lemma denotes_50 : ofZ (-50) = S754_finite true 7036874417766400 (-47)
  /\ denotes 50 7036874417766400 (-47).
Proof. split; [reflexivity|]. repeat split; vm_compute; congruence. Qed.

Lemma denotes_85 : ofZ 85 = S754_finite false 5981343255101440 (-46)
  /\ denotes 85 5981343255101440 (-46).
Proof. split; [reflexivity|]. repeat split; vm_compute; congruence. Qed.

Lemma denotes_100 : ofZ 100 = S754_finite false 7036874417766400 (-46)
  /\ denotes 100 7036874417766400 (-46).
Proof. split; [reflexivity|]. repeat split; vm_compute; congruence. Qed.

Lemma denotes_300 : ofZ 300 = S754_finite false 5277655813324800 (-44)
  /\ denotes 300 5277655813324800 (-44).
Proof. split; [reflexivity|]. repeat split; vm_compute; congruence. Qed.

Lemma denotes_1200 : ofZ 1200 = S754_finite false 5277655813324800 (-42)
  /\ denotes 1200 5277655813324800 (-42).
Proof. split; [reflexivity|]. repeat split; vm_compute; congruence. Qed.

(** *** The Numbers a binary32 pattern denotes are normal binary64 values *)

Lemma float32OfBits_normal (w : Z) (s : bool) (m : positive) (e : Z) :
  Buffer.float32OfBits w = S754_finite s m e -> 2 ^ 52 <= Zpos m < 2 ^ 53.
Proof.
  unfold Buffer.float32OfBits.
  pose proof (Z.mod_pos_bound w (2 ^ 23) ltac:(lia)) as HF.
  set (F := w mod 2 ^ 23) in *. set (E := (w / 2 ^ 23) mod 256).
  destruct (E =? 255); [destruct (F =? 0); discriminate|].
  set (M := if E =? 0 then F else 2 ^ 23 + F).
  assert (HM : 0 <= M < 2 ^ 24) by (unfold M; destruct (E =? 0); lia).
  destruct (Z.eqb_spec M 0) as [|NZ]; [discriminate|].
  intros H.
  assert (Hm : Z.to_pos (M * 2 ^ (52 - Z.log2 M)) = m) by congruence.
  rewrite <- Hm. clear H Hm.
  pose proof (Z.log2_spec M ltac:(lia)) as [L1 L2].
  pose proof (Z.log2_nonneg M) as L0.
  assert (L24 : Z.log2 M < 24) by (apply Z.log2_lt_pow2; lia).
  set (k := Z.log2 M) in *.
  assert (P : 0 < 2 ^ (52 - k)) by (apply pow2_pos; lia).
  rewrite Z2Pos.id by (apply Z.mul_pos_pos; lia).
  assert (E52 : 2 ^ 52 = 2 ^ k * 2 ^ (52 - k)).
  { rewrite <- pow2_split by lia. f_equal. lia. }
  assert (E53 : 2 ^ 53 = 2 ^ Z.succ k * 2 ^ (52 - k)).
  { rewrite <- pow2_split by lia. f_equal. lia. }
  rewrite E52 at 1. rewrite E53. split.
  - apply Z.mul_le_mono_nonneg_r; lia.
  - apply Z.mul_lt_mono_pos_r; lia.
Qed.

(** *** Printing with [toFixed] and reading back with [parseFloat] *)


Lemma digitsValue_app (d1 d2 : jsstring) :
  digitsValue (d1 ++ d2) =
  fold_left (fun acc c => acc * 10 + (c - 48)) d2 (digitsValue d1).
Proof. unfold digitsValue. apply fold_left_app. Qed.

Lemma isDigit_offset (r : Z) : 0 <= r < 10 -> isDigit (48 + r) = true.
Proof.
  intros H. unfold isDigit. apply andb_true_iff. split; apply Z.leb_le; lia.
Qed.

Lemma digitsLoop_S (fuel : nat) (n : Z) (acc : jsstring) :
  digitsLoop (S fuel) n acc =
  if n <? 10 then (48 + n mod 10) :: acc
  else digitsLoop fuel (n / 10) ((48 + n mod 10) :: acc).
Proof. reflexivity. Qed.

Lemma digitsLoop_spec (fuel : nat) : forall (n : Z) (acc : jsstring),
  0 <= n < 10 ^ Z.of_nat (S fuel) ->
  exists d,
    digitsLoop fuel n acc = d ++ acc /\ allDigits d /\ d <> [] /\
    forall v, fold_left (fun a c => a * 10 + (c - 48)) d v = v * 10 ^ len d + n.
Proof.
  assert (One : forall n acc, 0 <= n < 10 ->
            exists d, (48 + n mod 10) :: acc = d ++ acc /\ allDigits d /\ d <> [] /\
              forall v, fold_left (fun a c => a * 10 + (c - 48)) d v = v * 10 ^ len d + n).
  { intros n acc Hn. exists [48 + n mod 10]. rewrite Z.mod_small by lia.
    repeat split; try discriminate.
    - unfold allDigits. cbn [forallb]. now rewrite isDigit_offset.
    - intros v. cbn [fold_left]. change (len [48 + n]) with 1. lia. }
  induction fuel as [|fuel IH]; intros n acc Hn.
  - change (digitsLoop 0 n acc) with ((48 + n mod 10) :: acc).
    apply One. change (10 ^ Z.of_nat 1) with 10 in Hn. lia.
  - rewrite digitsLoop_S. destruct (Z.ltb_spec n 10) as [S|L]; [apply One; lia|].
    assert (Q : 0 <= n / 10 < 10 ^ Z.of_nat (S fuel)).
    { rewrite (Nat2Z.inj_succ (S fuel)), Z.pow_succ_r in Hn by lia.
      split; [apply Z.div_pos; lia|apply Z.div_lt_upper_bound; lia]. }
    destruct (IH (n / 10) ((48 + n mod 10) :: acc) Q) as (d & E & D & _ & V).
    exists (d ++ [48 + n mod 10]).
    pose proof (Z.mod_pos_bound n 10 ltac:(lia)) as R.
    repeat split.
    + rewrite E, <- app_assoc. reflexivity.
    + unfold allDigits in *. rewrite forallb_app, D. cbn [forallb].
      now rewrite isDigit_offset.
    + destruct d; discriminate.
    + intros v. rewrite fold_left_app, V. cbn [fold_left].
      unfold len. rewrite length_app. cbn [List.length].
      rewrite Nat2Z.inj_add, Z.pow_add_r by lia.
      change (10 ^ Z.of_nat 1) with 10.
      pose proof (Z.div_mod n 10 ltac:(lia)). lia.
Qed.

Lemma digitsOf_spec (n : Z) :
  0 <= n ->
  allDigits (digitsOf n) /\ digitsOf n <> [] /\ digitsValue (digitsOf n) = n.
Proof.
  intros Hn. unfold digitsOf.
  assert (B : 0 <= n < 10 ^ Z.of_nat (S (Z.to_nat (Z.log2 n)))).
  { split; [assumption|].
    rewrite Nat2Z.inj_succ, Z2Nat.id by apply Z.log2_nonneg.
    destruct (Z.eq_dec n 0) as [->|NZ]; [reflexivity|].
    pose proof (Z.log2_spec n ltac:(lia)) as [_ L].
    apply Z.lt_le_trans with (1 := L).
    apply Z.pow_le_mono_l. lia. }
  destruct (digitsLoop_spec _ n [] B) as (d & E & D & NE & V).
  rewrite app_nil_r in E. rewrite E. repeat split; auto.
  unfold digitsValue. rewrite V. lia.
Qed.

Lemma zeros_spec (k : Z) :
  allDigits (zeros k) /\ forall d, digitsValue (zeros k ++ d) = digitsValue d.
Proof.
  unfold zeros. induction (Z.to_nat k) as [|j [IH1 IH2]]; [now split|].
  split.
  - unfold allDigits in *. simpl. exact IH1.
  - intros d. specialize (IH2 d). unfold digitsValue in *. simpl. exact IH2.
Qed.

Lemma spanDigits_app (d rest : jsstring) :
  allDigits d ->
  match rest with [] => True | c :: _ => isDigit c = false end ->
  spanDigits (d ++ rest) = (d, rest).
Proof.
  unfold allDigits. induction d as [|c d IH]; simpl; intros D R.
  - destruct rest as [|c r]; [reflexivity|]. simpl. now rewrite R.
  - apply andb_true_iff in D as [Dc D]. rewrite Dc, IH by assumption. reflexivity.
Qed.

Lemma isDigit_facts (c : Z) :
  isDigit c = true ->
  isWhiteSpace c = false /\ (c =? 43) = false /\ (c =? 45) = false /\
  (c =? 73) = false /\ c <> 46.
Proof.
  unfold isDigit, isWhiteSpace. intros H.
  apply andb_true_iff in H as [H1 H2].
  apply Z.leb_le in H1, H2.
  repeat split; try lia;
    repeat match goal with
           | |- context [?a <=? ?b] => destruct (Z.leb_spec a b); try lia
           | |- context [?a =? ?b] => destruct (Z.eqb_spec a b); try lia
           end; reflexivity.
Qed.

(** The text [fixedDigits n 4] is an integer part, a point and four
    decimals, which together spell [n]. *)
Lemma fixedDigits_shape (n : Z) :
  0 <= n ->
  exists ip fp,
    fixedDigits n 4 = ip ++ 46 :: fp /\
    allDigits ip /\ ip <> [] /\ allDigits fp /\ len fp = 4 /\
    digitsValue (ip ++ fp) = n.
Proof.
  intros Hn. destruct (digitsOf_spec n Hn) as (D & NE & V).
  unfold fixedDigits. change (4 =? 0) with false. cbv iota.
  set (m := digitsOf n) in *.
  set (m' := if len m <=? 4 then zeros (4 + 1 - len m) ++ m else m).
  assert (D' : allDigits m').
  { unfold m'. destruct (len m <=? 4); [|assumption].
    unfold allDigits. rewrite forallb_app. rewrite (proj1 (zeros_spec _)). exact D. }
  assert (V' : digitsValue m' = n).
  { unfold m'. destruct (len m <=? 4); [|assumption].
    now rewrite (proj2 (zeros_spec _)). }
  assert (L' : 5 <= len m').
  { unfold m'. destruct (Z.leb_spec (len m) 4) as [S|S]; [|lia].
    unfold len, zeros in *. rewrite length_app, repeat_length. lia. }
  set (k := Z.to_nat (len m' - 4)).
  exists (firstn k m'), (skipn k m').
  assert (Lk : (k + 4 = List.length m')%nat) by (unfold k, len in *; lia).
  repeat split.
  - unfold allDigits in *. rewrite <- (firstn_skipn k m') in D'.
    rewrite forallb_app in D'. now apply andb_true_iff in D' as [? _].
  - intros E. apply (f_equal (@List.length Z)) in E.
    rewrite length_firstn in E. simpl in E. lia.
  - unfold allDigits in *. rewrite <- (firstn_skipn k m') in D'.
    rewrite forallb_app in D'. now apply andb_true_iff in D' as [_ ?].
  - unfold len. rewrite length_skipn. lia.
  - now rewrite firstn_skipn.
Qed.

Lemma parseUnsigned_fixed (neg : bool) (ip fp : jsstring) :
  allDigits ip -> ip <> [] -> allDigits fp -> len fp = 4 ->
  parseUnsigned neg (ip ++ 46 :: fp) = nearest neg (digitsValue (ip ++ fp)) 10000.
Proof.
  intros Di Ni Df Lf. unfold parseUnsigned.
  destruct ip as [|c ip]; [congruence|].
  assert (Dc : isDigit c = true).
  { unfold allDigits in Di. simpl in Di. now apply andb_true_iff in Di as [? _]. }
  destruct (isDigit_facts c Dc) as (_ & _ & _ & N73 & _).
  assert (SW : startsWith (lit "Infinity") ((c :: ip) ++ 46 :: fp) = false).
  { change (lit "Infinity") with (73 :: lit "nfinity").
    cbn [startsWith app]. rewrite Z.eqb_sym, N73. reflexivity. }
  rewrite SW.
  rewrite (spanDigits_app (c :: ip) (46 :: fp) Di) by reflexivity.
  pose proof (spanDigits_app fp [] Df Logic.I) as Sf. rewrite app_nil_r in Sf.
  rewrite Sf. unfold decimalValue, parseExponent. rewrite Lf.
  reflexivity.
Qed.

Lemma parseFloat_fixed (neg : bool) (n : Z) :
  0 <= n ->
  parseFloat (VString ((if neg then lit "-" else []) ++ fixedDigits n 4)) =
  nearest neg n 10000.
Proof.
  intros Hn.
  destruct (fixedDigits_shape n Hn) as (ip & fp & E & Di & Ni & Df & Lf & V).
  rewrite E. unfold parseFloat, ToString, parseFloatString.
  destruct neg.
  - change (lit "-" ++ ip ++ 46 :: fp) with (45 :: ip ++ 46 :: fp).
    change (dropWhiteSpace (45 :: ip ++ 46 :: fp)) with (45 :: ip ++ 46 :: fp).
    cbv iota beta. rewrite parseUnsigned_fixed by assumption. now rewrite V.
  - rewrite app_nil_l.
    destruct ip as [|c ip]; [congruence|].
    assert (Dc : isDigit c = true).
    { unfold allDigits in Di. simpl in Di. now apply andb_true_iff in Di as [? _]. }
    destruct (isDigit_facts c Dc) as (W & P & M & _ & _).
    simpl app. simpl dropWhiteSpace. rewrite W.
    assert (U : parseUnsigned false (c :: ip ++ 46 :: fp) =
                nearest false n 10000).
    { change (c :: ip ++ 46 :: fp) with ((c :: ip) ++ 46 :: fp).
      rewrite parseUnsigned_fixed by assumption. now rewrite V. }
    destruct c as [|p|p]; try discriminate Dc.
    assert (P43 : Z.pos p <> 43) by (intros Q; rewrite Q in P; discriminate).
    assert (P45 : Z.pos p <> 45) by (intros Q; rewrite Q in M; discriminate).
    repeat (destruct p as [p|p|]; try congruence; try exact U).
Qed.

(** *** Rounding to four decimals stays inside an integer range *)

(** A normal Number of magnitude between the integers [lo] and [c], printed
    with four decimals and read back, is zero (only when [lo = 0]) or a
    normal Number of the same sign and of magnitude between [lo] and [c]. *)
Lemma rounded_magnitude (s : bool) (m : positive) (e lo c : Z) :
  2 ^ 52 <= Zpos m < 2 ^ 53 -> 0 <= lo -> c < 2 ^ 52 ->
  e <= 0 -> lo * 2 ^ (- e) <= Zpos m <= c * 2 ^ (- e) ->
  let y := parseFloat (VString (toFixed (S754_finite s m e) 4)) in
  (y = S754_zero s /\ lo = 0) \/
  exists m' e',
    y = S754_finite s m' e' /\ 2 ^ 52 <= Zpos m' < 2 ^ 53 /\
    e' <= 0 /\ lo * 2 ^ (- e') <= Zpos m' <= c * 2 ^ (- e').
Proof.
  intros Hm Hlo Hc He [B1 B2] y.
  assert (E0 : e < 0).
  { destruct (Z.eq_dec e 0) as [->|]; [|lia]. simpl in B2. lia. }
  assert (HP : 0 < 2 ^ (- e)) by (apply pow2_pos; lia).
  assert (T : toFixed (S754_finite s m e) 4 =
              (if s then lit "-" else [])
              ++ fixedDigits (roundHalfUp (Zpos m * 10 ^ 4) (2 ^ (- e))) 4).
  { unfold toFixed, fraction.
    destruct (Z.leb_spec 0 e) as [|_]; [lia|].
    destruct (Z.leb_spec (2 ^ (- e) * 10 ^ 21) (Zpos m)) as [G|_]; [|reflexivity].
    exfalso. change (10 ^ 21) with 1000000000000000000000 in G. nia. }
  pose proof (roundHalfUp_near (Zpos m * 10 ^ 4) (2 ^ (- e)) HP) as R.
  set (n := roundHalfUp (Zpos m * 10 ^ 4) (2 ^ (- e))) in *.
  set (P := 2 ^ (- e)) in *. change (10 ^ 4) with 10000 in R.
  assert (N : lo * 10000 <= n <= c * 10000) by nia.
  assert (Y : y = nearest s n 10000).
  { unfold y. rewrite T. apply parseFloat_fixed. nia. }
  destruct (Z.eq_dec n 0) as [Z0|NZ].
  - left. split; [|lia]. rewrite Y, Z0. reflexivity.
  - right.
    destruct (nearest_between s n 10000 lo c) as (m' & e' & Q & M' & E' & B');
      try lia.
    exists (Z.to_pos m'), e'. rewrite Z2Pos.id by lia.
    repeat split; try lia. now rewrite Y.
Qed.

(** Zero prints as [0.0000], which reads back as [+0]. *)
Lemma rounded_zero (s : bool) :
  parseFloat (VString (toFixed (S754_zero s) 4)) = S754_zero false.
Proof. destruct s; vm_compute; reflexivity. Qed.

Lemma temperature_rounded (w : Z) :
  let x := Buffer.float32OfBits w in
  let y := parseFloat (VString (toFixed x 4)) in
  inRange (ofZ (-50)) (ofZ 85) x = true ->
  isFinite y = true /\ inRange (ofZ (-50)) (ofZ 85) y = true.
Proof.
  intros x y. pose proof (float32OfBits_normal w) as N. fold x in N.
  unfold y. clearbody x. clear y w.
  destruct denotes_50 as [C50 D50]. destruct denotes_85 as [C85 D85].
  rewrite C50, C85. unfold inRange.
  destruct x as [s|[]| |[] m e]; try discriminate.
  - intros _. rewrite rounded_zero. split; reflexivity.
  - rewrite leb_negative. intros H. apply andb_true_iff in H as [H _].
    apply (leb_upper m e 50 _ _ (N _ _ _ eq_refl) D50) in H as [He Hb].
    assert (B0 : 0 * 2 ^ (- e) <= Zpos m) by (rewrite Z.mul_0_l; lia).
    assert (C0 : 50 < 2 ^ 52) by reflexivity.
    pose proof (rounded_magnitude true m e 0 50 (N _ _ _ eq_refl)
                  (Z.le_refl 0) C0 He (conj B0 Hb)) as R.
    cbv zeta in R.
    destruct R as [[-> _]|(m' & e' & -> & M' & E' & B1 & B2)];
      [split; reflexivity|].
    split; [reflexivity|]. rewrite leb_negative.
    apply andb_true_iff. split; [|reflexivity].
    apply (leb_upper m' e' 50 _ _ M' D50). split; assumption.
  - intros H. apply andb_true_iff in H as [_ H].
    apply (leb_upper m e 85 _ _ (N _ _ _ eq_refl) D85) in H as [He Hb].
    assert (B0 : 0 * 2 ^ (- e) <= Zpos m) by (rewrite Z.mul_0_l; lia).
    assert (C0 : 85 < 2 ^ 52) by reflexivity.
    pose proof (rounded_magnitude false m e 0 85 (N _ _ _ eq_refl)
                  (Z.le_refl 0) C0 He (conj B0 Hb)) as R.
    cbv zeta in R.
    destruct R as [[-> _]|(m' & e' & -> & M' & E' & B1 & B2)];
      [split; reflexivity|].
    split; [reflexivity|].
    apply andb_true_iff. split; [reflexivity|].
    apply (leb_upper m' e' 85 _ _ M' D85). split; assumption.
Qed.

Lemma humidity_rounded (w : Z) :
  let x := Buffer.float32OfBits w in
  let y := parseFloat (VString (toFixed x 4)) in
  inRange (ofZ 0) (ofZ 100) x = true ->
  isFinite y = true /\ inRange (ofZ 0) (ofZ 100) y = true.
Proof.
  intros x y. pose proof (float32OfBits_normal w) as N. fold x in N.
  unfold y. clearbody x. clear y w.
  destruct denotes_100 as [C100 D100].
  rewrite C100. change (ofZ 0) with (S754_zero false). unfold inRange.
  destruct x as [s|[]| |[] m e]; try discriminate.
  - intros _. rewrite rounded_zero. split; reflexivity.
  - intros H. apply andb_true_iff in H as [_ H].
    apply (leb_upper m e 100 _ _ (N _ _ _ eq_refl) D100) in H as [He Hb].
    assert (B0 : 0 * 2 ^ (- e) <= Zpos m) by (rewrite Z.mul_0_l; lia).
    assert (C0 : 100 < 2 ^ 52) by reflexivity.
    pose proof (rounded_magnitude false m e 0 100 (N _ _ _ eq_refl)
                  (Z.le_refl 0) C0 He (conj B0 Hb)) as R.
    cbv zeta in R.
    destruct R as [[-> _]|(m' & e' & -> & M' & E' & B1 & B2)];
      [split; reflexivity|].
    split; [reflexivity|].
    apply andb_true_iff. split; [reflexivity|].
    apply (leb_upper m' e' 100 _ _ M' D100). split; assumption.
Qed.

Lemma pressure_rounded (w : Z) :
  let x := Buffer.float32OfBits w in
  let y := parseFloat (VString (toFixed x 4)) in
  inRange (ofZ 300) (ofZ 1200) x = true ->
  isFinite y = true /\ inRange (ofZ 300) (ofZ 1200) y = true.
Proof.
  intros x y. pose proof (float32OfBits_normal w) as N. fold x in N.
  unfold y. clearbody x. clear y w.
  destruct denotes_300 as [C300 D300]. destruct denotes_1200 as [C1200 D1200].
  rewrite C300, C1200. unfold inRange.
  destruct x as [s|[]| |[] m e]; try discriminate.
  intros H. apply andb_true_iff in H as [L H].
  apply (leb_lower m e 300 _ _ (N _ _ _ eq_refl) D300) in L.
  apply (leb_upper m e 1200 _ _ (N _ _ _ eq_refl) D1200) in H as [He Hb].
  assert (L0 : 0 <= 300) by discriminate.
  assert (C0 : 1200 < 2 ^ 52) by reflexivity.
  pose proof (rounded_magnitude false m e 300 1200 (N _ _ _ eq_refl)
                L0 C0 He (conj L Hb)) as R.
  cbv zeta in R.
  destruct R as [[_ Q]|(m' & e' & -> & M' & E' & B1 & B2)]; [lia|].
  split; [reflexivity|].
  apply andb_true_iff. split.
  - now apply (leb_lower m' e' 300 _ _ M' D300).
  - apply (leb_upper m' e' 1200 _ _ M' D1200). split; assumption.
Qed.

(** *** Every returned reading is inside the ranges *)

Lemma readFloatLE_float32 (buf : Buffer.buffer) (offset : nat) (x : number) :
  Buffer.readFloatLE buf offset = Return x -> exists w, x = Buffer.float32OfBits w.
Proof.
  unfold Buffer.readFloatLE.
  destruct (skipn offset buf) as [|b0 [|b1 [|b2 [|b3 r]]]]; try discriminate.
  intros [= <-]. eexists. reflexivity.
Qed.

Lemma decodeHexString_Return (hexString : value) (reading : Reading.t) :
  decodeHexString hexString = Return reading ->
  exists s, hexString = VString s /\
            testHex (stripWhiteSpace s) = true /\ len (stripWhiteSpace s) = 24.
Proof.
  destruct hexString as [| | | |[|c r]]; try discriminate.
  unfold decodeHexString. intros H.
  destruct (testHex (stripWhiteSpace (c :: r))) eqn:T;
    cbn [negb] in H; [|discriminate H].
  destruct (Z.eqb_spec (len (stripWhiteSpace (c :: r))) 24) as [E|E];
    cbn [negb] in H; [|discriminate H].
  now exists (c :: r).
Qed.

Lemma validationErrors_nil (temperature humidity pressure : number) :
  validationErrors temperature humidity pressure = [] ->
  inRange (ofZ (-50)) (ofZ 85) temperature = true /\
  inRange (ofZ 0) (ofZ 100) humidity = true /\
  inRange (ofZ 300) (ofZ 1200) pressure = true.
Proof.
  unfold validationErrors.
  rewrite temperatureInvalid_outside, humidityInvalid_outside, pressureInvalid_outside.
  destruct (inRange (ofZ (-50)) (ofZ 85) temperature),
           (inRange (ofZ 0) (ofZ 100) humidity),
           (inRange (ofZ 300) (ofZ 1200) pressure); simpl; try discriminate.
  now repeat split.
Qed.

(** C5: whenever [decodeHexString] returns, its argument is a string whose
    three binary32 readings are inside [-50, 85], [0, 100] and [300, 1200]
    (so out-of-range, NaN and infinite readings never lead to a returned
    value), the returned values are these readings printed with four
    decimals and read back, not clamped ones, and each returned value is a
    finite Number inside the range of its field. *)
Theorem decodeHexString_in_range (hexString : value) (reading : Reading.t) :
  decodeHexString hexString = Return reading ->
  exists s temperature humidity pressure,
    hexString = VString s /\
    Buffer.readFloatLE (Buffer.fromHex (stripWhiteSpace s)) 0 = Return temperature /\
    Buffer.readFloatLE (Buffer.fromHex (stripWhiteSpace s)) 4 = Return humidity /\
    Buffer.readFloatLE (Buffer.fromHex (stripWhiteSpace s)) 8 = Return pressure /\
    inRange (ofZ (-50)) (ofZ 85) temperature = true /\
    inRange (ofZ 0) (ofZ 100) humidity = true /\
    inRange (ofZ 300) (ofZ 1200) pressure = true /\
    reading = Reading.mk (parseFloat (VString (toFixed temperature 4)))
                         (parseFloat (VString (toFixed humidity 4)))
                         (parseFloat (VString (toFixed pressure 4))) /\
    isFinite (Reading.temperature reading) = true /\
    inRange (ofZ (-50)) (ofZ 85) (Reading.temperature reading) = true /\
    isFinite (Reading.humidity reading) = true /\
    inRange (ofZ 0) (ofZ 100) (Reading.humidity reading) = true /\
    isFinite (Reading.pressure reading) = true /\
    inRange (ofZ 300) (ofZ 1200) (Reading.pressure reading) = true.
Proof.
  intros H.
  destruct (decodeHexString_Return _ _ H) as (s & -> & Hh & Hl).
  destruct (decodeHexString_clean s Hh Hl) as (t & h & p & Rt & Rh & Rp & D).
  rewrite D in H.
  destruct (validationErrors t h p) as [|e errors] eqn:V; [|discriminate].
  injection H as <-.
  destruct (validationErrors_nil _ _ _ V) as (It & Ih & Ip).
  destruct (readFloatLE_float32 _ _ _ Rt) as [wt ->].
  destruct (readFloatLE_float32 _ _ _ Rh) as [wh ->].
  destruct (readFloatLE_float32 _ _ _ Rp) as [wp ->].
  destruct (temperature_rounded wt It) as [Ft Jt].
  destruct (humidity_rounded wh Ih) as [Fh Jh].
  destruct (pressure_rounded wp Ip) as [Fp Jp].
  exists s, (Buffer.float32OfBits wt), (Buffer.float32OfBits wh),
         (Buffer.float32OfBits wp).
  cbn [Reading.temperature Reading.humidity Reading.pressure].
  repeat split; assumption.
Qed.

Lemma decodeHexString_in_range_witness :
  isFinite (nearest false 999 10) = true /\
  inRange (ofZ 0) (ofZ 100) (nearest false 999 10) = true /\
  inRange (ofZ 300) (ofZ 1200) (nearest false 10259465 10000) = true.
Proof.
  assert (D : decodeHexString Fixtures.knownHex =
              Return (Reading.mk (nearest false 725 100) (nearest false 999 10)
                                 (nearest false 10259465 10000)))
    by (vm_compute; reflexivity).
  destruct (decodeHexString_in_range _ _ D)
    as (s & t & h & p & _ & _ & _ & _ & _ & _ & _ & _ & _ & _ & Fh & Jh & _ & Jp).
  exact (conj Fh (conj Jh Jp)).
Defined.

(** *** [hexBytes] of a payload without whitespace *)

(** When the payload holds no whitespace its raw length is 24 and the item
    reports 12 bytes; in general it reports half the raw length. *)
Lemma decodeRecord_hexBytes (record : SourceRecord.t) (s : jsstring) (reading : Reading.t) :
  SourceRecord.hexData record = VString s ->
  decodeHexString (VString s) = Return reading ->
  DecodedItem.hexBytes (decodeRecord record) = Some (div (ofZ (len s)) (ofZ 2)) /\
  (stripWhiteSpace s = s ->
   DecodedItem.hexBytes (decodeRecord record) = Some (ofZ 12)).
Proof.
  intros E D.
  assert (H : DecodedItem.hexBytes (decodeRecord record) =
              Some (div (ofZ (len s)) (ofZ 2))).
  { rewrite (decodeRecord_success record reading) by now rewrite E.
    cbn [DecodedItem.hexBytes]. now rewrite E. }
  split; [exact H|]. intros W.
  destruct (decodeHexString_Return _ _ D) as (s' & [= <-] & _ & L).
  rewrite W in L. rewrite H, L. reflexivity.
Qed.

(** *** What [decodeHexString] throws *)

Lemma decodeHexString_not_string (v : value) :
  (forall c r, v <> VString (c :: r)) ->
  decodeHexString v = Throw invalidHexStringError.
Proof.
  intros H. destruct v as [| | | |[|c r]]; try reflexivity.
  now destruct (H c r).
Qed.

Lemma decodeHexString_wrong_length (s : jsstring) :
  testHex (stripWhiteSpace s) = true -> len (stripWhiteSpace s) <> 24 ->
  decodeHexString (VString s) = Throw (invalidLengthError (len (stripWhiteSpace s))).
Proof.
  intros T L. destruct (testHex_nonempty s T) as (c & r & ->).
  apply Z.eqb_neq in L. unfold decodeHexString. rewrite T, L. reflexivity.
Qed.

Lemma decodeHexString_throw_cases (hexString : value) (e : error) :
  decodeHexString hexString = Throw e ->
  ((e = invalidHexStringError /\ forall c r, hexString <> VString (c :: r))
   \/ (exists s, hexString = VString s /\ s <> [] /\
                 testHex (stripWhiteSpace s) = false /\ e = invalidFormatError)
   \/ (exists s, hexString = VString s /\
                 testHex (stripWhiteSpace s) = true /\
                 len (stripWhiteSpace s) <> 24 /\
                 e = invalidLengthError (len (stripWhiteSpace s)))
   \/ (exists s temperature humidity pressure,
         hexString = VString s /\
         testHex (stripWhiteSpace s) = true /\ len (stripWhiteSpace s) = 24 /\
         Buffer.readFloatLE (Buffer.fromHex (stripWhiteSpace s)) 0 = Return temperature /\
         Buffer.readFloatLE (Buffer.fromHex (stripWhiteSpace s)) 4 = Return humidity /\
         Buffer.readFloatLE (Buffer.fromHex (stripWhiteSpace s)) 8 = Return pressure /\
         validationErrors temperature humidity pressure <> [] /\
         e = outOfRangeError (validationErrors temperature humidity pressure))).
Proof.
  intros H.
  destruct hexString as [| | | |[|c r]];
    try (left; split; [now injection H as <-|intros; discriminate]).
  set (s := c :: r) in *.
  destruct (testHex (stripWhiteSpace s)) eqn:T.
  - destruct (Z.eq_dec (len (stripWhiteSpace s)) 24) as [L|L].
    + right; right; right.
      destruct (decodeHexString_clean s T L) as (t & h & p & Rt & Rh & Rp & D).
      rewrite D in H.
      destruct (validationErrors t h p) as [|x errors] eqn:V; [discriminate|].
      injection H as <-.
      exists s, t, h, p. rewrite V. repeat split; auto. discriminate.
    + right; right; left. exists s.
      rewrite (decodeHexString_wrong_length s T L) in H. injection H as <-. repeat split; auto.
  - right; left. exists s.
    rewrite (decodeHexString_format_first s) in H by (auto; discriminate).
    injection H as <-. repeat split; auto. discriminate.
Qed.

(** X1: whatever [decodeHexString] throws is one of four errors, each with
    status 400: the invalid-string error for an input that is not a
    non-empty string; the format error for a string whose stripped form is
    empty or holds a character outside [0-9A-Fa-f]; the length error,
    which names the stripped length, for a hexadecimal string of another
    length than 24; the range error, which lists the violations, for a
    24-digit payload whose readings are out of range.  The wrapper
    [Failed to decode hex data: ...] of the [catch] block is never thrown. *)
Theorem decodeHexString_errors (hexString : value) (e : error) :
  decodeHexString hexString = Throw e ->
  statusCode e = Some 400 /\
  (forall text, e <> decodeFailedError text) /\
  ((e = invalidHexStringError /\ forall c r, hexString <> VString (c :: r))
   \/ (exists s, hexString = VString s /\ s <> [] /\
                 testHex (stripWhiteSpace s) = false /\ e = invalidFormatError)
   \/ (exists s, hexString = VString s /\
                 testHex (stripWhiteSpace s) = true /\
                 len (stripWhiteSpace s) <> 24 /\
                 e = invalidLengthError (len (stripWhiteSpace s)))
   \/ (exists s temperature humidity pressure,
         hexString = VString s /\
         testHex (stripWhiteSpace s) = true /\ len (stripWhiteSpace s) = 24 /\
         Buffer.readFloatLE (Buffer.fromHex (stripWhiteSpace s)) 0 = Return temperature /\
         Buffer.readFloatLE (Buffer.fromHex (stripWhiteSpace s)) 4 = Return humidity /\
         Buffer.readFloatLE (Buffer.fromHex (stripWhiteSpace s)) 8 = Return pressure /\
         validationErrors temperature humidity pressure <> [] /\
         e = outOfRangeError (validationErrors temperature humidity pressure))).
Proof.
  intros H.
  assert (First : forall text, hd 0 (message (decodeFailedError text)) = 70)
    by reflexivity.
  pose proof (decodeHexString_throw_cases _ _ H) as Cases.
  split; [|split; [|exact Cases]].
  - destruct Cases as [[-> _]|[(s & _ & _ & _ & ->)|[(s & _ & _ & _ & ->)
                      |(s & t & h & p & _ & _ & _ & _ & _ & _ & _ & ->)]]];
      reflexivity.
  - intros text E. specialize (First text). rewrite <- E in First.
    destruct Cases as [[-> _]|[(s & _ & _ & _ & ->)|[(s & _ & _ & _ & ->)
                      |(s & t & h & p & _ & _ & _ & _ & _ & _ & _ & ->)]]];
      discriminate First.
Qed.

Lemma decodeHexString_errors_witness :
  decodeHexString (VString (lit "0000e840")) = Throw (invalidLengthError 8)
  /\ forall text, invalidLengthError 8 <> decodeFailedError text.
Proof.
  assert (H : decodeHexString (VString (lit "0000e840")) = Throw (invalidLengthError 8))
    by (vm_compute; reflexivity).
  exact (conj H (proj1 (proj2 (decodeHexString_errors _ _ H)))).
Defined.

(** *** Whitespace and letter case do not matter *)

Lemma list_pairs_ind {A} (P : list A -> Prop) :
  P [] -> (forall a, P [a]) -> (forall a b r, P r -> P (a :: b :: r)) ->
  forall l, P l.
Proof.
  intros H0 H1 H2.
  assert (B : forall l, P l /\ forall a, P (a :: l)).
  { induction l as [|x l [IH1 IH2]]; split; auto. }
  intros l. apply B.
Qed.

Lemma isWhiteSpace_letters (c : Z) : 33 <= c <= 159 -> isWhiteSpace c = false.
Proof.
  intros H. unfold isWhiteSpace.
  repeat apply orb_false_intro;
    first [ apply Z.eqb_neq; lia
          | apply andb_false_iff; right; apply Z.leb_gt; lia
          | apply andb_false_iff; left; apply Z.leb_gt; lia ].
Qed.

Lemma hexVal_cases (c : Z) :
  (48 <= c <= 57 /\ hexVal c = Some (c - 48)) \/
  (65 <= c <= 70 /\ hexVal c = Some (c - 55)) \/
  (97 <= c <= 102 /\ hexVal c = Some (c - 87)) \/
  ((c < 48 \/ 57 < c < 65 \/ 70 < c < 97 \/ 102 < c) /\ hexVal c = None).
Proof.
  unfold hexVal.
  destruct (Z.leb_spec 48 c), (Z.leb_spec c 57); cbn [andb];
    try (left; split; [lia|reflexivity]);
    destruct (Z.leb_spec 65 c), (Z.leb_spec c 70); cbn [andb];
    try (right; left; split; [lia|reflexivity]);
    destruct (Z.leb_spec 97 c), (Z.leb_spec c 102); cbn [andb];
    try (right; right; left; split; [lia|reflexivity]);
    right; right; right; (split; [lia|reflexivity]).
Qed.





Section CaseMap.

(** A map on code units that keeps whitespace apart from the rest and the
    value of every hexadecimal digit. *)
Variable f : Z -> Z.
Hypothesis f_whitespace : forall c, isWhiteSpace (f c) = isWhiteSpace c.
Hypothesis f_hexVal : forall c, hexVal (f c) = hexVal c.







End CaseMap.




(** *** The range checks are exact *)

Lemma fraction_upper (m : positive) (e c : Z) :
  2 ^ 52 <= Zpos m < 2 ^ 53 -> 0 <= c < 2 ^ 52 ->
  (e <= 0 /\ Zpos m <= c * 2 ^ (- e)) <->
  fst (fraction m e) <= c * snd (fraction m e).
Proof.
  intros Hm Hc. unfold fraction.
  destruct (Z.leb_spec 0 e) as [P|N]; cbn [fst snd].
  - destruct (Z.eq_dec e 0) as [->|NZ].
    + simpl. lia.
    + pose proof (Z.pow_le_mono_r 2 1 e ltac:(lia) ltac:(lia)) as Q.
      rewrite Z.pow_1_r in Q. split; [lia|nia].
  - split; [tauto|]. intros H. split; [lia|exact H].
Qed.

Lemma fraction_lower (m : positive) (e c : Z) :
  2 ^ 52 <= Zpos m < 2 ^ 53 -> 0 <= c < 2 ^ 52 ->
  c * 2 ^ (- e) <= Zpos m <->
  c * snd (fraction m e) <= fst (fraction m e).
Proof.
  intros Hm Hc. unfold fraction.
  destruct (Z.leb_spec 0 e) as [P|N]; cbn [fst snd]; [|tauto].
  destruct (Z.eq_dec e 0) as [->|NZ].
  - simpl. lia.
  - rewrite Z.pow_neg_r by lia.
    pose proof (Z.pow_le_mono_r 2 1 e ltac:(lia) ltac:(lia)) as Q.
    rewrite Z.pow_1_r in Q. split; intros _; nia.
Qed.

(** X3: on a finite binary32 reading, which is the rational [a / b] in
    magnitude, the three range tests are exact comparisons of rationals,
    with inclusive bounds: the temperature passes iff it is at least -50
    and at most 85, the humidity iff it is non-negative and at most 100,
    the pressure iff it is between 300 and 1200. *)
Theorem range_checks_are_exact (w : Z) (s : bool) (m : positive) (e : Z) :
  Buffer.float32OfBits w = S754_finite s m e ->
  let x := S754_finite s m e in
  let a := fst (fraction m e) in
  let b := snd (fraction m e) in
  0 < b /\
  (temperatureInvalid x = false <-> if s then a <= 50 * b else a <= 85 * b) /\
  (humidityInvalid x = false <-> s = false /\ a <= 100 * b) /\
  (pressureInvalid x = false <-> s = false /\ 300 * b <= a <= 1200 * b).
Proof.
  intros W x a b. pose proof (float32OfBits_normal w s m e W) as N.
  destruct denotes_50 as [C50 D50]. destruct denotes_85 as [C85 D85].
  destruct denotes_100 as [C100 D100].
  destruct denotes_300 as [C300 D300]. destruct denotes_1200 as [C1200 D1200].
  assert (T : forall f, negb f = false <-> f = true) by (intros []; simpl; intuition congruence).
  split; [|split; [|split]].
  - unfold b, fraction. destruct (Z.leb_spec 0 e); cbn [snd]; [lia|].
    apply pow2_pos; lia.
  - rewrite temperatureInvalid_outside, T. unfold inRange, x. rewrite C50, C85.
    destruct s.
    + rewrite leb_negative, andb_true_iff.
      rewrite (leb_upper m e 50 _ _ N D50).
      rewrite (fraction_upper m e 50 N ltac:(lia)).
      split; [tauto|]. intros H. split; [exact H|reflexivity].
    + rewrite andb_true_iff, (leb_upper m e 85 _ _ N D85).
      rewrite (fraction_upper m e 85 N ltac:(lia)).
      split; [tauto|]. intros H. split; [reflexivity|exact H].
  - rewrite humidityInvalid_outside, T. unfold inRange, x. rewrite C100.
    change (ofZ 0) with (S754_zero false).
    destruct s.
    + split; [discriminate|]. intros [? _]. discriminate.
    + rewrite andb_true_iff, (leb_upper m e 100 _ _ N D100).
      rewrite (fraction_upper m e 100 N ltac:(lia)).
      split; [intros [_ H]; now split|]. intros [_ H]. split; [reflexivity|exact H].
  - rewrite pressureInvalid_outside, T. unfold inRange, x. rewrite C300, C1200.
    destruct s.
    + split; [discriminate|]. intros [? _]. discriminate.
    + rewrite andb_true_iff, (leb_lower m e 300 _ _ N D300),
              (leb_upper m e 1200 _ _ N D1200).
      rewrite (fraction_lower m e 300 N ltac:(lia)).
      rewrite (fraction_upper m e 1200 N ltac:(lia)).
      split; [intros [L U]; repeat split; assumption|].
      intros [_ [L U]]. split; assumption.
Qed.

Lemma range_checks_are_exact_witness :
  temperatureInvalid (Buffer.float32OfBits 0x42aa0000) = false <->
  fst (fraction 5981343255101440 (-46)) <= 85 * snd (fraction 5981343255101440 (-46)).
Proof.
  exact (proj1 (proj2 (range_checks_are_exact 0x42aa0000 false
                         5981343255101440 (-46) eq_refl))).
Defined.

(** *** Rounding twice is rounding once *)

(** [nearest] is within half a unit in the last place of the ratio. *)
Lemma nearest_error (s : bool) (a b hi : Z) :
  0 < a -> 0 < b -> b <= a * 2 ^ 64 -> hi < 2 ^ 52 -> a <= hi * b ->
  exists m e,
    nearest s a b = S754_finite s (Z.to_pos m) e /\
    2 ^ 52 <= m < 2 ^ 53 /\ -116 <= e <= 0 /\ m <= hi * 2 ^ (- e) /\
    2 * (a * 2 ^ (- e)) - b <= 2 * (m * b) <= 2 * (a * 2 ^ (- e)) + b.
Proof.
  intros Ha Hb Hsmall Hhi Hh.
  pose proof (ilog2Ratio_spec a b) as S. specialize (S 0 Ha Hb). cbv zeta in S.
  pose proof (ilog2Ratio_spec a b) as S'. specialize (S' (- ilog2Ratio a b) Ha Hb).
  pose proof (ilog2Ratio_spec a b) as S''. specialize (S'' (52 - ilog2Ratio a b) Ha Hb).
  cbv zeta in S', S''.
  unfold nearest.
  set (l := ilog2Ratio a b) in *.
  assert (L51 : l <= 51).
  { destruct (Z.le_gt_cases l 51) as [|G]; [assumption|exfalso].
    destruct (S ltac:(lia) ltac:(lia)) as [S1 _].
    rewrite Z.add_0_l, Z.pow_0_r in S1.
    pose proof (Z.pow_le_mono_r 2 52 l ltac:(lia) ltac:(lia)). nia. }
  assert (L64 : -64 <= l).
  { destruct (Z.le_gt_cases (-64) l) as [|G]; [assumption|exfalso].
    destruct (S' ltac:(lia) ltac:(lia)) as [_ S2].
    replace (- l + l + 1) with 1 in S2 by lia.
    pose proof (Z.pow_le_mono_r 2 (1 + 64) (- l) ltac:(lia) ltac:(lia)) as Q.
    rewrite pow2_split in Q by lia.
    rewrite Z.pow_1_r in S2, Q.
    remember (2 ^ 64) as T. remember (2 ^ (- l)) as U.
    nia. }
  destruct (S'' ltac:(lia) ltac:(lia)) as [N1 N2].
  replace (52 - l + l) with 52 in N1 by lia.
  replace (52 - l + l + 1) with 53 in N2 by lia.
  clear S S' S'' Hsmall.
  replace (Z.max (l - 52) (-1074)) with (l - 52) by lia.
  destruct (Z.leb_spec a 0) as [|_]; [lia|].
  destruct (Z.leb_spec 0 (l - 52)) as [|_]; [lia|].
  replace (- (l - 52)) with (52 - l) by lia.
  set (P := 2 ^ (52 - l)) in *.
  assert (HP : 0 < P) by (apply pow2_pos; lia).
  pose proof (roundHalfEven_near (a * P) b Hb) as R.
  set (m := roundHalfEven (a * P) b) in *.
  destruct (bounded_quotient (2 ^ 52) (2 ^ 53) m (a * P) b Hb R) as [M1 M2].
  destruct (bounded_quotient 0 (hi * P) m (a * P) b Hb R) as [_ B2].
  specialize (M1 ltac:(lia)). specialize (M2 ltac:(lia)).
  specialize (B2 ltac:(nia)).
  clearbody m. clear N1 N2 Hh.
  destruct (Z.eqb_spec m (2 ^ 53)) as [E|E].
  - exists (2 ^ 52), (l - 52 + 1).
    destruct (Z.eqb_spec (2 ^ 52) 0) as [Z0|_]; [discriminate Z0|].
    destruct (Z.ltb_spec 971 (l - 52 + 1)) as [|_]; [lia|].
    split; [reflexivity|].
    split; [lia|]. split; [lia|].
    assert (P = 2 * 2 ^ (- (l - 52 + 1))) as EP.
    { unfold P. replace (52 - l) with (1 + - (l - 52 + 1)) by lia.
      rewrite pow2_split by lia. reflexivity. }
    set (P' := 2 ^ (- (l - 52 + 1))) in *. clearbody P'. subst P m. nia.
  - exists m, (l - 52).
    destruct (Z.eqb_spec m 0) as [|_]; [lia|].
    destruct (Z.ltb_spec 971 (l - 52)) as [|_]; [lia|].
    split; [reflexivity|]. split; [lia|]. split; [lia|].
    replace (- (l - 52)) with (52 - l) by lia. fold P. lia.
Qed.

Lemma roundHalfUp_unique (A P n : Z) :
  0 < P -> 2 * (n * P) - P <= 2 * A < 2 * (n * P) + P -> roundHalfUp A P = n.
Proof.
  intros HP H. unfold roundHalfUp. symmetry.
  apply (Z.div_unique_pos (2 * A + P) (2 * P) n (2 * A + P - 2 * P * n)); lia.
Qed.

(** A Number that is the nearest one to a decimal [n / 10000] of at most
    1200 prints with four decimals as that decimal. *)
Lemma reround (s : bool) (n : Z) :
  0 <= n <= 12000000 ->
  JsNumber.eqb (parseFloat (VString (toFixed (nearest s n 10000) 4)))
               (nearest s n 10000) = true.
Proof.
  intros Hn. destruct (Z.eq_dec n 0) as [->|NZ].
  - destruct s; vm_compute; reflexivity.
  - destruct (nearest_error s n 10000 1200) as (m & e & Q & M & E & B & R);
      try lia.
    rewrite Q.
    assert (E0 : e < 0).
    { destruct (Z.eq_dec e 0) as [->|]; [|lia]. simpl in B. lia. }
    assert (HP : 0 < 2 ^ (- e)) by (apply pow2_pos; lia).
    set (P := 2 ^ (- e)) in *.
    assert (Big : 2 ^ 40 < P) by nia.
    assert (T : toFixed (S754_finite s (Z.to_pos m) e) 4 =
                (if s then lit "-" else []) ++ fixedDigits n 4).
    { unfold toFixed, fraction. rewrite Z2Pos.id by lia.
      destruct (Z.leb_spec 0 e) as [|_]; [lia|]. fold P.
      destruct (Z.leb_spec (P * 10 ^ 21) m) as [G|_].
      - exfalso. change (10 ^ 21) with 1000000000000000000000 in G. nia.
      - f_equal. f_equal. apply roundHalfUp_unique; [exact HP|].
        change (10 ^ 4) with 10000. nia. }
    rewrite T, parseFloat_fixed by lia. rewrite Q.
    unfold JsNumber.eqb, SFeqb. rewrite SFcompare_refl; [reflexivity|discriminate].
Qed.

(** The reading of a field that passed a range check inside [0, 1200] in
    magnitude is the Number nearest to some decimal [n / 10000]. *)
Lemma rounded_is_decimal (x : number) (c : Z) :
  (forall s m e, x = S754_finite s m e ->
                 2 ^ 52 <= Zpos m < 2 ^ 53 /\ e <= 0 /\ Zpos m <= c * 2 ^ (- e)) ->
  isFinite x = true -> 0 <= c <= 1200 ->
  exists s n, 0 <= n <= 12000000 /\
              parseFloat (VString (toFixed x 4)) = nearest s n 10000.
Proof.
  intros H F Hc. destruct x as [s|s| |s m e]; try discriminate.
  - exists false, 0. split; [lia|]. now rewrite rounded_zero.
  - destruct (H s m e eq_refl) as (Hm & He & B).
    assert (E0 : e < 0).
    { destruct (Z.eq_dec e 0) as [->|]; [|lia]. simpl in B. lia. }
    assert (HP : 0 < 2 ^ (- e)) by (apply pow2_pos; lia).
    pose proof (roundHalfUp_near (Zpos m * 10 ^ 4) (2 ^ (- e)) HP) as R.
    exists s, (roundHalfUp (Zpos m * 10 ^ 4) (2 ^ (- e))).
    set (n := roundHalfUp (Zpos m * 10 ^ 4) (2 ^ (- e))) in *.
    set (P := 2 ^ (- e)) in *. change (10 ^ 4) with 10000 in *.
    assert (N : 0 <= n <= 12000000) by nia.
    split; [exact N|].
    assert (T : toFixed (S754_finite s m e) 4 =
                (if s then lit "-" else []) ++ fixedDigits n 4).
    { unfold toFixed, fraction.
      destruct (Z.leb_spec 0 e) as [|_]; [lia|]. fold P.
      destruct (Z.leb_spec (P * 10 ^ 21) (Zpos m)) as [G|_]; [|reflexivity].
      exfalso. change (10 ^ 21) with 1000000000000000000000 in G. nia. }
    rewrite T. apply parseFloat_fixed. lia.
Qed.

(** What a successful call went through. *)
Lemma decodeHexString_success (hexString : value) (reading : Reading.t) :
  decodeHexString hexString = Return reading ->
  exists s wt wh wp,
    hexString = VString s /\
    testHex (stripWhiteSpace s) = true /\ len (stripWhiteSpace s) = 24 /\
    Buffer.readFloatLE (Buffer.fromHex (stripWhiteSpace s)) 0
      = Return (Buffer.float32OfBits wt) /\
    Buffer.readFloatLE (Buffer.fromHex (stripWhiteSpace s)) 4
      = Return (Buffer.float32OfBits wh) /\
    Buffer.readFloatLE (Buffer.fromHex (stripWhiteSpace s)) 8
      = Return (Buffer.float32OfBits wp) /\
    inRange (ofZ (-50)) (ofZ 85) (Buffer.float32OfBits wt) = true /\
    inRange (ofZ 0) (ofZ 100) (Buffer.float32OfBits wh) = true /\
    inRange (ofZ 300) (ofZ 1200) (Buffer.float32OfBits wp) = true /\
    reading = Reading.mk (parseFloat (VString (toFixed (Buffer.float32OfBits wt) 4)))
                         (parseFloat (VString (toFixed (Buffer.float32OfBits wh) 4)))
                         (parseFloat (VString (toFixed (Buffer.float32OfBits wp) 4))).
Proof.
  intros H.
  destruct (decodeHexString_Return _ _ H) as (s & -> & Hh & Hl).
  destruct (decodeHexString_clean s Hh Hl) as (t & h & p & Rt & Rh & Rp & D).
  rewrite D in H.
  destruct (validationErrors t h p) as [|e errors] eqn:V; [|discriminate].
  injection H as <-.
  destruct (validationErrors_nil _ _ _ V) as (It & Ih & Ip).
  destruct (readFloatLE_float32 _ _ _ Rt) as [wt ->].
  destruct (readFloatLE_float32 _ _ _ Rh) as [wh ->].
  destruct (readFloatLE_float32 _ _ _ Rp) as [wp ->].
  exists s, wt, wh, wp. repeat split; assumption.
Qed.

(** A binary32 reading that passed one of the three range checks is finite
    and of magnitude at most 1200. *)
Lemma in_range_bounded (w : Z) :
  let x := Buffer.float32OfBits w in
  inRange (ofZ (-50)) (ofZ 85) x = true \/
  inRange (ofZ 0) (ofZ 100) x = true \/
  inRange (ofZ 300) (ofZ 1200) x = true ->
  isFinite x = true /\
  forall s m e, x = S754_finite s m e ->
    2 ^ 52 <= Zpos m < 2 ^ 53 /\ e <= 0 /\ Zpos m <= 1200 * 2 ^ (- e).
Proof.
  intros x. pose proof (float32OfBits_normal w) as N. fold x in N. clearbody x.
  destruct denotes_50 as [C50 D50]. destruct denotes_85 as [C85 D85].
  destruct denotes_100 as [C100 D100]. destruct denotes_1200 as [C1200 D1200].
  rewrite C50, C85, C100, C1200. change (ofZ 0) with (S754_zero false).
  unfold inRange. intros H. split.
  - destruct x as [s|[]| |s m e]; try reflexivity;
      destruct H as [H|[H|H]]; discriminate.
  - intros s m e ->. specialize (N s m e eq_refl). split; [exact N|].
    assert (B : exists c, 0 <= c <= 1200 /\ e <= 0 /\ Zpos m <= c * 2 ^ (- e)).
    { destruct H as [H|[H|H]]; apply andb_true_iff in H as [L U]; destruct s;
        try discriminate.
      - rewrite leb_negative in L.
        apply (leb_upper m e 50 _ _ N D50) in L. exists 50. split; [lia|exact L].
      - apply (leb_upper m e 85 _ _ N D85) in U. exists 85. split; [lia|exact U].
      - apply (leb_upper m e 100 _ _ N D100) in U. exists 100. split; [lia|exact U].
      - apply (leb_upper m e 1200 _ _ N D1200) in U. exists 1200. split; [lia|exact U]. }
    destruct B as (c & Hc & He & B). split; [exact He|].
    pose proof (pow2_pos (- e) ltac:(lia)). nia.
Qed.

Lemma field_rounded_once (w : Z) :
  let x := Buffer.float32OfBits w in
  let y := parseFloat (VString (toFixed x 4)) in
  inRange (ofZ (-50)) (ofZ 85) x = true \/
  inRange (ofZ 0) (ofZ 100) x = true \/
  inRange (ofZ 300) (ofZ 1200) x = true ->
  JsNumber.eqb (parseFloat (VString (toFixed y 4))) y = true.
Proof.
  intros x y H. destruct (in_range_bounded w H) as [F B].
  destruct (rounded_is_decimal x 1200 B F ltac:(lia)) as (s & n & Hn & E).
  unfold y. fold x. rewrite E. now apply reround.
Qed.

(** X4: every value [decodeHexString] returns is a fixed point of the
    rounding [parseFloat(x.toFixed(4))]: it is the Number of a decimal with
    at most four fractional digits, and rounding it again changes nothing. *)
Theorem decoded_values_have_four_decimals (hexString : value) (reading : Reading.t) :
  decodeHexString hexString = Return reading ->
  JsNumber.eqb (parseFloat (VString (toFixed (Reading.temperature reading) 4)))
               (Reading.temperature reading) = true /\
  JsNumber.eqb (parseFloat (VString (toFixed (Reading.humidity reading) 4)))
               (Reading.humidity reading) = true /\
  JsNumber.eqb (parseFloat (VString (toFixed (Reading.pressure reading) 4)))
               (Reading.pressure reading) = true.
Proof.
  intros H.
  destruct (decodeHexString_success _ _ H)
    as (s & wt & wh & wp & _ & _ & _ & _ & _ & _ & It & Ih & Ip & ->).
  cbn [Reading.temperature Reading.humidity Reading.pressure].
  repeat split; apply field_rounded_once; auto.
Qed.

Lemma decoded_values_have_four_decimals_witness :
  JsNumber.eqb (parseFloat (VString (toFixed (nearest false 999 10) 4)))
               (nearest false 999 10) = true.
Proof.
  assert (D : decodeHexString Fixtures.knownHex =
              Return (Reading.mk (nearest false 725 100) (nearest false 999 10)
                                 (nearest false 10259465 10000)))
    by (vm_compute; reflexivity).
  exact (proj1 (proj2 (decoded_values_have_four_decimals _ _ D))).
Defined.

(** *** The items of a batch *)

(** A returned reading is finite and inside the three ranges. *)
Lemma decoded_in_range (hexString : value) (reading : Reading.t) :
  decodeHexString hexString = Return reading ->
  (isFinite (Reading.temperature reading) = true /\
   inRange (ofZ (-50)) (ofZ 85) (Reading.temperature reading) = true) /\
  (isFinite (Reading.humidity reading) = true /\
   inRange (ofZ 0) (ofZ 100) (Reading.humidity reading) = true) /\
  (isFinite (Reading.pressure reading) = true /\
   inRange (ofZ 300) (ofZ 1200) (Reading.pressure reading) = true).
Proof.
  intros H.
  destruct (decodeHexString_success _ _ H)
    as (s & wt & wh & wp & _ & _ & _ & _ & _ & _ & It & Ih & Ip & ->).
  cbn [Reading.temperature Reading.humidity Reading.pressure].
  split; [|split].
  - exact (temperature_rounded wt It).
  - exact (humidity_rounded wh Ih).
  - exact (pressure_rounded wp Ip).
Qed.

(** X5: [fetchAndDecodeData] returns one item for each record with a
    truthy [hexData], in the order of the records, and none for the others.
    Each item copies [device], [timestamp] and [hexData] of its record; it
    either reports success with the reading [decodeHexString] returns,
    which lies within the three ranges, and half the raw length as
    [hexBytes], or reports failure with the message of the error
    [decodeHexString] throws, [decoded: null] and no [hexBytes]. *)
Theorem fetchAndDecodeData_items (data : list SourceRecord.t) :
  map DecodedItem.originalHex (fetchAndDecodeData data) =
    filter truthy (map SourceRecord.hexData data)
  /\ forall item, In item (fetchAndDecodeData data) ->
     exists record,
       In record data /\
       truthy (SourceRecord.hexData record) = true /\
       DecodedItem.device item = SourceRecord.device record /\
       DecodedItem.timestamp item = SourceRecord.timestamp record /\
       DecodedItem.originalHex item = SourceRecord.hexData record /\
       ((exists reading,
            decodeHexString (SourceRecord.hexData record) = Return reading /\
            DecodedItem.decodingSuccess item = true /\
            DecodedItem.decoded item = Some reading /\
            DecodedItem.hexBytes item
              = Some (div (lengthOf (SourceRecord.hexData record)) (ofZ 2)) /\
            DecodedItem.error item = None /\
            inRange (ofZ (-50)) (ofZ 85) (Reading.temperature reading) = true /\
            inRange (ofZ 0) (ofZ 100) (Reading.humidity reading) = true /\
            inRange (ofZ 300) (ofZ 1200) (Reading.pressure reading) = true)
        \/ (exists e,
            decodeHexString (SourceRecord.hexData record) = Throw e /\
            DecodedItem.decodingSuccess item = false /\
            DecodedItem.decoded item = None /\
            DecodedItem.hexBytes item = None /\
            DecodedItem.error item = Some (message e))).
Proof.
  rewrite fetchAndDecodeData_map. split.
  - induction data as [|r data IH]; [reflexivity|].
    cbn [filter map]. destruct (truthy (SourceRecord.hexData r)) eqn:T.
    + cbn [map]. rewrite IH. f_equal.
      unfold decodeRecord. now destruct (decodeHexString (SourceRecord.hexData r)).
    + exact IH.
  - intros item Hin. apply in_map_iff in Hin as (record & <- & Hr).
    apply filter_In in Hr as [Hr T].
    exists record.
    destruct (decodeHexString (SourceRecord.hexData record)) as [reading|e] eqn:D.
    + rewrite (decodeRecord_success record reading D).
      cbn. repeat split; auto.
      left. exists reading.
      destruct (decoded_in_range _ _ D) as ((_ & It) & (_ & Ih) & (_ & Ip)).
      repeat split; auto.
    + unfold decodeRecord. rewrite D. cbn. repeat split; auto.
      right. exists e. repeat split; auto.
Qed.

Lemma fetchAndDecodeData_items_witness :
  exists record,
    In record [Fixtures.actual4999; Fixtures.badHex; Fixtures.hexOnly] /\
    DecodedItem.originalHex (decodeRecord Fixtures.badHex) = SourceRecord.hexData record /\
    DecodedItem.device (decodeRecord Fixtures.badHex) = SourceRecord.device record.
Proof.
  assert (Hin : In (decodeRecord Fixtures.badHex)
                   (fetchAndDecodeData [Fixtures.actual4999; Fixtures.badHex; Fixtures.hexOnly]))
    by (left; reflexivity).
  destruct (proj2 (fetchAndDecodeData_items _) _ Hin) as (record & Hr & _ & Hd & _ & Ho & _).
  exists record. repeat split; assumption.
Defined.

(** *** The pairs and the results of a validation *)

Lemma find_existsb {A} (p : A -> bool) (l : list A) :
  existsb p l = match find p l with Some _ => true | None => false end.
Proof.
  induction l as [|x l IH]; [reflexivity|]. simpl. now destruct (p x).
Qed.

Lemma filter_and_length {A} (p q : A -> bool) (l : list A) :
  (List.length (filter (fun x => p x && q x) l) <= List.length (filter p l))%nat.
Proof.
  induction l as [|x l IH]; [apply le_n|].
  cbn [filter]. destruct (p x); cbn [andb]; [|exact IH].
  destruct (q x); cbn [List.length]; lia.
Qed.

(** X6: the hex records of the validation pairs are, in order, exactly
    the records with a truthy [hexData] for which some record of the set
    satisfies the pairing predicate; both sides of every pair are records
    of the fetched set and the ground-truth side satisfies the predicate
    for the hex side; and validation never yields more results than batch
    decoding yields items. *)
Theorem validationPairs_sound dateParse (allData : list SourceRecord.t) :
  map ValidationPair.hexRecord (validationPairs dateParse allData) =
    filter (fun record => truthy (SourceRecord.hexData record)
                          && existsb (isActualFor dateParse record) allData) allData
  /\ (forall pair, In pair (validationPairs dateParse allData) ->
        In (ValidationPair.hexRecord pair) allData /\
        In (ValidationPair.actualRecord pair) allData /\
        truthy (SourceRecord.hexData (ValidationPair.hexRecord pair)) = true /\
        isActualFor dateParse (ValidationPair.hexRecord pair)
                    (ValidationPair.actualRecord pair) = true)
  /\ (List.length (validateDecodingAccuracy dateParse allData)
      <= List.length (fetchAndDecodeData allData))%nat.
Proof.
  unfold validationPairs, validateDecodingAccuracy, validationPairs.
  rewrite pairLoop_flat_map.
  set (one := fun record : SourceRecord.t =>
                if truthy (SourceRecord.hexData record) then
                  match find (isActualFor dateParse record) allData with
                  | Some actualRecord => [ValidationPair.mk record actualRecord]
                  | None => []
                  end
                else []).
  assert (G : forall records,
            map ValidationPair.hexRecord (flat_map one records) =
            filter (fun record => truthy (SourceRecord.hexData record)
                                  && existsb (isActualFor dateParse record) allData)
                   records).
  { induction records as [|r records IH]; [reflexivity|].
    cbn [flat_map filter]. rewrite map_app, IH. unfold one at 1.
    rewrite find_existsb.
    destruct (truthy (SourceRecord.hexData r)); [|reflexivity].
    now destruct (find (isActualFor dateParse r) allData). }
  split; [apply G|]. split.
  - intros pair Hin. apply in_flat_map in Hin as (record & Hr & Hp).
    unfold one in Hp.
    destruct (truthy (SourceRecord.hexData record)) eqn:T; [|destruct Hp].
    destruct (find (isActualFor dateParse record) allData) as [a|] eqn:F;
      [|destruct Hp].
    destruct Hp as [<-|[]]. cbn.
    destruct (find_some _ _ F) as [Ha Pa]. now repeat split.
  - rewrite length_map, fetchAndDecodeData_map, length_map.
    rewrite <- (length_map ValidationPair.hexRecord), G.
    apply (filter_and_length (fun record => truthy (SourceRecord.hexData record))).
Qed.

Lemma validationPairs_sound_witness :
  isActualFor Fixtures.dateParse Fixtures.hexOnly Fixtures.actual4999 = true.
Proof.
  assert (P : In (ValidationPair.mk Fixtures.hexOnly Fixtures.actual4999)
                 (validationPairs Fixtures.dateParse
                    [Fixtures.hexOnly; Fixtures.actual5001; Fixtures.actual4999]))
    by (vm_compute; left; reflexivity).
  exact (proj2 (proj2 (proj2
    (proj1 (proj2 (validationPairs_sound Fixtures.dateParse _)) _ P)))).
Defined.

(** *** When a result can be accurate *)

Lemma sub_self (d : number) : isFinite d = true -> sub d d = S754_zero false.
Proof.
  destruct d as [[]|[]| |s m e]; try discriminate; try reflexivity.
  intros _. unfold sub, SFsub.
  generalize (cond_Zopp s (Zpos (fst (shl_align m e (IntDef.Z.min e e))))).
  intros z. change (IntDef.Z.sub z z) with (z - z). now rewrite Z.sub_diag.
Qed.

Lemma match_needs_finite (d a : number) :
  isFinite d = true -> leb (abs (sub d a)) tolerance = true -> isFinite a = true.
Proof.
  destruct a as [sa|sa| |sa ma ea]; try reflexivity;
    destruct d as [sd|sd| |sd md ed]; try discriminate; intros _;
    destruct sa; try destruct sd; discriminate.
Qed.

(** X7: a validation result is accurate only if the payload decoded, no
    error is recorded, the three match flags are set and the three
    ground-truth fields parse to finite Numbers: a missing or non-numeric
    ground-truth field, which parses to [NaN], never counts as a match. *)
Theorem accurate_needs_numeric_ground_truth (pair : ValidationPair.t) :
  ValidationResult.isAccurate (validatePair pair) = true ->
  exists decoded,
    decodeHexString (SourceRecord.hexData (ValidationPair.hexRecord pair))
      = Return decoded /\
    ValidationResult.error (validatePair pair) = None /\
    ValidationResult.matches (validatePair pair) = Some (Matches.mk true true true) /\
    isFinite (parseFloat (SourceRecord.temperature (ValidationPair.actualRecord pair)))
      = true /\
    isFinite (parseFloat (SourceRecord.humidity (ValidationPair.actualRecord pair)))
      = true /\
    isFinite (parseFloat (SourceRecord.pressure (ValidationPair.actualRecord pair)))
      = true.
Proof.
  unfold validatePair.
  destruct (decodeHexString (SourceRecord.hexData (ValidationPair.hexRecord pair)))
    as [decoded|e] eqn:D; [|discriminate].
  cbn [ValidationResult.isAccurate ValidationResult.error ValidationResult.matches
       Reading.temperature Reading.humidity Reading.pressure].
  intros H. apply andb_true_iff in H as [H Hp]. apply andb_true_iff in H as [Ht Hh].
  destruct (decoded_in_range _ _ D) as ((Ft & _) & (Fh & _) & (Fp & _)).
  exists decoded. rewrite Ht, Hh, Hp. repeat split.
  - exact (match_needs_finite _ _ Ft Ht).
  - exact (match_needs_finite _ _ Fh Hh).
  - exact (match_needs_finite _ _ Fp Hp).
Qed.

Lemma accurate_needs_numeric_ground_truth_witness :
  isFinite (parseFloat (SourceRecord.humidity Fixtures.actual4999)) = true.
Proof.
  assert (A : ValidationResult.isAccurate
                (validatePair (ValidationPair.mk Fixtures.hexOnly Fixtures.actual4999))
              = true) by (vm_compute; reflexivity).
  destruct (accurate_needs_numeric_ground_truth _ A) as (d & _ & _ & _ & _ & H & _).
  exact H.
Defined.

(** X8: when the three ground-truth fields parse to exactly the decoded
    values, the result is accurate and the three differences print as
    [0.0000]. *)
Theorem exact_ground_truth_is_accurate (pair : ValidationPair.t) (decoded : Reading.t) :
  decodeHexString (SourceRecord.hexData (ValidationPair.hexRecord pair)) = Return decoded ->
  parseFloat (SourceRecord.temperature (ValidationPair.actualRecord pair))
    = Reading.temperature decoded ->
  parseFloat (SourceRecord.humidity (ValidationPair.actualRecord pair))
    = Reading.humidity decoded ->
  parseFloat (SourceRecord.pressure (ValidationPair.actualRecord pair))
    = Reading.pressure decoded ->
  ValidationResult.isAccurate (validatePair pair) = true /\
  ValidationResult.differences (validatePair pair)
    = Some (Differences.mk (lit "0.0000") (lit "0.0000") (lit "0.0000")).
Proof.
  intros D Et Eh Ep. unfold validatePair. rewrite D.
  cbn [ValidationResult.isAccurate ValidationResult.differences
       Reading.temperature Reading.humidity Reading.pressure].
  rewrite Et, Eh, Ep.
  destruct (decoded_in_range _ _ D) as ((Ft & _) & (Fh & _) & (Fp & _)).
  rewrite !sub_self by assumption.
  split; reflexivity.
Qed.

Lemma exact_ground_truth_is_accurate_witness :
  ValidationResult.isAccurate
    (validatePair (ValidationPair.mk Fixtures.hexAndActual Fixtures.hexAndActual)) = true.
Proof.
  assert (D : decodeHexString Fixtures.knownHex =
              Return (Reading.mk (nearest false 725 100) (nearest false 999 10)
                                 (nearest false 10259465 10000)))
    by (vm_compute; reflexivity).
  refine (proj1 (exact_ground_truth_is_accurate
            (ValidationPair.mk Fixtures.hexAndActual Fixtures.hexAndActual) _ D _ _ _));
    vm_compute; reflexivity.
Defined.

(** *** The demo decoder and the service *)

Lemma demo_clean (s : jsstring) :
  testHex (stripWhiteSpace s) = true -> len (stripWhiteSpace s) = 24 ->
  exists temperature humidity pressure,
    Buffer.readFloatLE (Buffer.fromHex (stripWhiteSpace s)) 0 = Return temperature /\
    Buffer.readFloatLE (Buffer.fromHex (stripWhiteSpace s)) 4 = Return humidity /\
    Buffer.readFloatLE (Buffer.fromHex (stripWhiteSpace s)) 8 = Return pressure /\
    Demo.decodeHexString s =
      Return (Reading.mk (parseFloat (VString (toFixed temperature 4)))
                         (parseFloat (VString (toFixed humidity 4)))
                         (parseFloat (VString (toFixed pressure 4)))).
Proof.
  intros T L.
  destruct (decodeClean_reads _ T L) as (t & h & p & Rt & Rh & Rp & _).
  exists t, h, p. repeat split; auto.
  unfold Demo.decodeHexString. rewrite T, L, Rt, Rh, Rp. reflexivity.
Qed.

(** X9: the decoder of [decoder_demo.js] and the service's decoder: whenever
    the service returns a reading the demo returns the same reading; the
    demo returns a reading exactly for the strings whose stripped form is
    24 hexadecimal digits; and where the demo returns a reading the service
    either returns the same reading or throws the range error, which the
    demo does not check. *)
Theorem demo_agrees_with_service (s : jsstring) :
  (forall reading,
     DecoderService.decodeHexString (VString s) = Return reading ->
     Demo.decodeHexString s = Return reading)
  /\ ((exists reading, Demo.decodeHexString s = Return reading) <->
      testHex (stripWhiteSpace s) = true /\ len (stripWhiteSpace s) = 24)
  /\ (forall reading,
        Demo.decodeHexString s = Return reading ->
        DecoderService.decodeHexString (VString s) = Return reading \/
        exists e errors,
          DecoderService.decodeHexString (VString s) = Throw (outOfRangeError (e :: errors))).
Proof.
  split; [|split].
  - intros reading H.
    destruct (decodeHexString_Return _ _ H) as (s' & [= <-] & T & L).
    destruct (decodeHexString_clean s T L) as (t & h & p & Rt & Rh & Rp & D).
    destruct (demo_clean s T L) as (t' & h' & p' & Rt' & Rh' & Rp' & D').
    rewrite Rt in Rt'. rewrite Rh in Rh'. rewrite Rp in Rp'.
    injection Rt' as <-. injection Rh' as <-. injection Rp' as <-.
    rewrite D in H. rewrite D'.
    destruct (validationErrors t h p); [exact H|discriminate].
  - split.
    + intros [reading H]. unfold Demo.decodeHexString in H.
      destruct (testHex (stripWhiteSpace s)); [|discriminate].
      destruct (Z.eqb_spec (len (stripWhiteSpace s)) 24); [|discriminate].
      now split.
    + intros [T L]. destruct (demo_clean s T L) as (t & h & p & _ & _ & _ & D).
      eexists. exact D.
  - intros reading H.
    assert (TL : testHex (stripWhiteSpace s) = true /\ len (stripWhiteSpace s) = 24).
    { unfold Demo.decodeHexString in H.
      destruct (testHex (stripWhiteSpace s)); [|discriminate].
      destruct (Z.eqb_spec (len (stripWhiteSpace s)) 24); [|discriminate].
      now split. }
    destruct TL as [T L].
    destruct (decodeHexString_clean s T L) as (t & h & p & Rt & Rh & Rp & D).
    destruct (demo_clean s T L) as (t' & h' & p' & Rt' & Rh' & Rp' & D').
    rewrite Rt in Rt'. rewrite Rh in Rh'. rewrite Rp in Rp'.
    injection Rt' as <-. injection Rh' as <-. injection Rp' as <-.
    rewrite D. rewrite D' in H. injection H as <-.
    destruct (validationErrors t h p) as [|e errors]; [now left|].
    right. now exists e, errors.
Qed.

Lemma demo_agrees_with_service_witness :
  Demo.decodeHexString (lit "0000e840 cdccc742 4a3e8044") =
  Return (Reading.mk (nearest false 725 100) (nearest false 999 10)
                     (nearest false 10259465 10000)).
Proof.
  apply (proj1 (demo_agrees_with_service (lit "0000e840 cdccc742 4a3e8044"))).
  vm_compute. reflexivity.
Defined.

(** *** The printed bytes of a buffer *)

Example bufferBytes_examples :
  Demo.toString16 0 = lit "0" /\
  Demo.toString16 255 = lit "ff" /\
  Demo.toString16 4096 = lit "1000" /\
  Demo.padStart (lit "a") 2 48 = lit "0a" /\
  Demo.bufferBytes [0; 10; 232; 64] = lit "00 0a e8 40".
Proof. repeat split. Qed.

Lemma byte_text :
  forallb (fun b => JsString.eqb (Demo.padStart (Demo.toString16 b) 2 48)
                                 [Demo.hexDigit (b / 16); Demo.hexDigit (b mod 16)])
          (map Z.of_nat (seq 0 256)) = true.
Proof. vm_compute. reflexivity. Qed.

Lemma byte_text_pair (b : Z) :
  0 <= b < 256 ->
  Demo.padStart (Demo.toString16 b) 2 48 =
  [Demo.hexDigit (b / 16); Demo.hexDigit (b mod 16)].
Proof.
  intros H. pose proof byte_text as F. rewrite forallb_forall in F.
  specialize (F b). unfold JsString.eqb in F.
  destruct (list_eq_dec Z.eq_dec _ _) as [E|]; [exact E|].
  assert (I : In b (map Z.of_nat (seq 0 256))).
  { apply in_map_iff. exists (Z.to_nat b). split; [lia|]. apply in_seq. lia. }
  specialize (F I). discriminate.
Qed.

Lemma hexDigit_value (d : Z) :
  0 <= d < 16 ->
  hexVal (Demo.hexDigit d) = Some d /\ isWhiteSpace (Demo.hexDigit d) = false.
Proof.
  intros H. unfold Demo.hexDigit. destruct (Z.ltb_spec d 10).
  - destruct (hexVal_cases (48 + d)) as [[B E]|[[B E]|[[B E]|[B E]]]]; try lia.
    split; [rewrite E; f_equal; lia|apply isWhiteSpace_letters; lia].
  - destruct (hexVal_cases (87 + d)) as [[B E]|[[B E]|[[B E]|[B E]]]]; try lia.
    split; [rewrite E; f_equal; lia|apply isWhiteSpace_letters; lia].
Qed.

Lemma hexVal_range (c x : Z) : hexVal c = Some x -> 0 <= x < 16.
Proof.
  intros H.
  destruct (hexVal_cases c) as [[B E]|[[B E]|[[B E]|[B E]]]];
    rewrite E in H; [| | |discriminate]; injection H as <-; lia.
Qed.

Lemma fromHex_bytes (s : jsstring) : Forall Buffer.isByte (Buffer.fromHex s).
Proof.
  induction s as [| a | a b r IH] using list_pairs_ind; try constructor.
  cbn [Buffer.fromHex].
  destruct (hexVal a) as [x|] eqn:Ea; [|constructor].
  destruct (hexVal b) as [y|] eqn:Eb; [|constructor].
  constructor; [|exact IH].
  pose proof (hexVal_range _ _ Ea). pose proof (hexVal_range _ _ Eb).
  unfold Buffer.isByte. lia.
Qed.

Lemma byte_halves (b : Z) :
  Buffer.isByte b -> 0 <= b / 16 < 16 /\ 0 <= b mod 16 < 16 /\ 16 * (b / 16) + b mod 16 = b.
Proof.
  unfold Buffer.isByte. intros H. repeat split.
  - apply Z.div_pos; lia.
  - apply Z.div_lt_upper_bound; lia.
  - apply Z.mod_pos_bound; lia.
  - apply Z.mod_pos_bound; lia.
  - pose proof (Z.div_mod b 16). lia.
Qed.

Lemma bufferBytes_stripped (buffer : Buffer.buffer) :
  Forall Buffer.isByte buffer ->
  stripWhiteSpace (Demo.bufferBytes buffer) = flat_map Demo.hexPair buffer.
Proof.
  unfold Demo.bufferBytes.
  induction buffer as [|b l IH]; intros F; [reflexivity|].
  inversion F as [|? ? Hb Fl]; subst.
  destruct (byte_halves b Hb) as (Q & R & _).
  destruct (hexDigit_value _ Q) as [_ W1]. destruct (hexDigit_value _ R) as [_ W2].
  cbn [map flat_map]. rewrite (byte_text_pair b Hb).
  destruct l as [|b' l'].
  - cbn [map join flat_map]. unfold stripWhiteSpace, Demo.hexPair. cbn [filter app].
    now rewrite W1, W2.
  - specialize (IH Fl). cbn [map] in IH |- *.
    change (join (lit " ") (?x :: ?y :: ?z)) with (x ++ lit " " ++ join (lit " ") (y :: z)).
    unfold stripWhiteSpace in *. rewrite !filter_app, IH.
    unfold Demo.hexPair. cbn [filter app]. rewrite W1, W2. reflexivity.
Qed.

Lemma hexPairs_decode (buffer : Buffer.buffer) :
  Forall Buffer.isByte buffer ->
  Buffer.fromHex (flat_map Demo.hexPair buffer) = buffer /\
  forallb isHex (flat_map Demo.hexPair buffer) = true /\
  List.length (flat_map Demo.hexPair buffer) = (2 * List.length buffer)%nat.
Proof.
  induction 1 as [|b l Hb Fl (IH1 & IH2 & IH3)]; [repeat split|].
  destruct (byte_halves b Hb) as (Q & R & E).
  destruct (hexDigit_value _ Q) as [V1 _]. destruct (hexDigit_value _ R) as [V2 _].
  unfold Demo.hexPair in *. cbn [flat_map app Buffer.fromHex forallb List.length].
  unfold isHex at 1 2. rewrite V1, V2, IH1, IH2, IH3, E. repeat split. lia.
Qed.

(** X10: the bytes the demo prints, two lower-case digits per byte
    separated by spaces, parse back to the buffer they were printed from;
    for a payload of 24 hexadecimal digits, decoding the printed text gives
    the same outcome as decoding the payload, in the demo and in the
    service. *)
Theorem printed_bytes_decode_back (s : jsstring) :
  Buffer.fromHex (stripWhiteSpace (Demo.bufferBytes (Buffer.fromHex s)))
    = Buffer.fromHex s
  /\ (testHex (stripWhiteSpace s) = true -> len (stripWhiteSpace s) = 24 ->
      Demo.decodeHexString (Demo.bufferBytes (Buffer.fromHex (stripWhiteSpace s)))
        = Demo.decodeHexString s /\
      DecoderService.decodeHexString
        (VString (Demo.bufferBytes (Buffer.fromHex (stripWhiteSpace s))))
        = DecoderService.decodeHexString (VString s)).
Proof.
  split.
  - rewrite (bufferBytes_stripped _ (fromHex_bytes s)).
    apply (hexPairs_decode _ (fromHex_bytes s)).
  - intros T L.
    set (buffer := Buffer.fromHex (stripWhiteSpace s)).
    assert (N : List.length buffer = 12%nat).
    { apply fromHex_length; [unfold len in L; lia|now apply testHex_forallb]. }
    pose proof (bufferBytes_stripped _ (fromHex_bytes (stripWhiteSpace s))) as S.
    destruct (hexPairs_decode _ (fromHex_bytes (stripWhiteSpace s))) as (B & H & K).
    fold buffer in S, B, H, K.
    assert (T' : testHex (stripWhiteSpace (Demo.bufferBytes buffer)) = true).
    { rewrite S. destruct (flat_map Demo.hexPair buffer) eqn:E; [|exact H].
      rewrite N in K. discriminate. }
    assert (L' : len (stripWhiteSpace (Demo.bufferBytes buffer)) = 24).
    { rewrite S. unfold len. rewrite K, N. reflexivity. }
    assert (B' : Buffer.fromHex (stripWhiteSpace (Demo.bufferBytes buffer)) = buffer)
      by now rewrite S.
    destruct (demo_clean s T L) as (t & h & p & Rt & Rh & Rp & D).
    destruct (demo_clean _ T' L') as (t' & h' & p' & Rt' & Rh' & Rp' & D').
    destruct (decodeHexString_clean s T L) as (t1 & h1 & p1 & Rt1 & Rh1 & Rp1 & D1).
    destruct (decodeHexString_clean _ T' L') as (t2 & h2 & p2 & Rt2 & Rh2 & Rp2 & D2).
    rewrite B' in Rt', Rh', Rp', Rt2, Rh2, Rp2. fold buffer in Rt, Rh, Rp, Rt1, Rh1, Rp1.
    assert (t' = t) by congruence. assert (h' = h) by congruence.
    assert (p' = p) by congruence. assert (t2 = t1) by congruence.
    assert (h2 = h1) by congruence. assert (p2 = p1) by congruence. subst.
    split; congruence.
Qed.

Lemma printed_bytes_decode_back_witness :
  Demo.decodeHexString (lit "00 00 e8 40 cd cc c7 42 4a 3e 80 44")
    = Demo.decodeHexString (lit "0000E840CDCCC7424A3E8044").
Proof.
  exact (proj1 (proj2 (printed_bytes_decode_back (lit "0000E840CDCCC7424A3E8044"))
                 ltac:(vm_compute; reflexivity) ltac:(vm_compute; reflexivity))).
Defined.

(** *** The error handler *)

Example errorHandler_examples :
  let req := ErrorMiddleware.mkRequest (VString (lit "/api/x")) (VString (lit "GET"))
                                       (VString (lit "r1")) in
  let plain name code :=
    ErrorMiddleware.mkThrown name code None VUndefined VUndefined VUndefined VUndefined
                             (VString (lit "boom")) in
  ErrorMiddleware.errorHandler (plain (VString (lit "TypeError")) VUndefined) req
    = Some (ErrorMiddleware.mkResponse
              (VNumber (ofZ 500)) (VString (lit "boom"))
              (VString (lit "/api/x")) (VString (lit "GET")) (Some (VString (lit "r1"))))
  /\ ErrorMiddleware.errorHandler (plain (VString (lit "CastError")) VUndefined) req
    = Some (ErrorMiddleware.mkResponse
              (VNumber (ofZ 400)) (VString (lit "Invalid resource ID format"))
              (VString (lit "/api/x")) (VString (lit "GET")) (Some (VString (lit "r1"))))
  /\ ErrorMiddleware.errorHandler
       (ErrorMiddleware.mkThrown
          (VString (lit "ValidationError")) VUndefined
          (Some [VString (lit "a is required"); VUndefined; VString (lit "b is too long")])
          VUndefined VUndefined VUndefined VUndefined (VString (lit "boom"))) req
    = Some (ErrorMiddleware.mkResponse
              (VNumber (ofZ 400)) (VString (lit "a is required, , b is too long"))
              (VString (lit "/api/x")) (VString (lit "GET")) (Some (VString (lit "r1"))))
  /\ ErrorMiddleware.errorHandler (plain (VString (lit "ValidationError")) VUndefined) req
    = None.
Proof. repeat split. Qed.

Lemma orElse_truthy (a b : value) : truthy b = true -> truthy (ErrorMiddleware.orElse a b) = true.
Proof. intros H. unfold ErrorMiddleware.orElse. now destruct (truthy a) eqn:E. Qed.

Lemma errorHandler_apiError (message : jsstring) (statusCode : Z) (req : ErrorMiddleware.request) :
  message <> [] -> truthy (VNumber (ofZ statusCode)) = true ->
  ErrorMiddleware.errorHandler (ErrorMiddleware.ofError (createApiError message statusCode)) req
  = Some (ErrorMiddleware.mkResponse
            (VNumber (ofZ statusCode)) (VString message)
            (ErrorMiddleware.originalUrl req) (ErrorMiddleware.method req)
            (if truthy (ErrorMiddleware.id req) then Some (ErrorMiddleware.id req) else None)).
Proof.
  intros M S. unfold ErrorMiddleware.errorHandler, createApiError, ErrorMiddleware.ofError.
  cbn [ErrorMiddleware.name ErrorMiddleware.code ErrorMiddleware.isAxiosError
       ErrorMiddleware.statusCode ErrorMiddleware.message ErrorMiddleware.errors].
  change (strictEq (VString (lit "Error")) (VString (lit "CastError"))) with false.
  change (strictEq (VString (lit "Error")) (VString (lit "ValidationError"))) with false.
  change (strictEq (VString (lit "Error")) (VString (lit "JsonWebTokenError"))) with false.
  change (strictEq (VString (lit "Error")) (VString (lit "TokenExpiredError"))) with false.
  change (ErrorMiddleware.isTimeoutCode VUndefined) with false.
  cbn [strictEq truthy orb fst snd]. unfold ErrorMiddleware.orElse. rewrite S.
  destruct message; [congruence|]. reflexivity.
Qed.

(** X12: [errorHandler] throws only for an error named [ValidationError]
    whose [errors] cannot be read; otherwise it answers, with a truthy
    status and a truthy error text (500 and [Internal Server Error] being
    the defaults), and echoes the URL and the method of the request. *)
Theorem errorHandler_answer (err : ErrorMiddleware.thrown) (req : ErrorMiddleware.request) :
  (ErrorMiddleware.errorHandler err req = None <->
   strictEq (ErrorMiddleware.name err) (VString (lit "ValidationError")) = true /\
   ErrorMiddleware.errors err = None)
  /\ forall response,
       ErrorMiddleware.errorHandler err req = Some response ->
       truthy (ErrorMiddleware.status response) = true /\
       truthy (ErrorMiddleware.error response) = true /\
       ErrorMiddleware.path response = ErrorMiddleware.originalUrl req /\
       ErrorMiddleware.responseMethod response = ErrorMiddleware.method req.
Proof.
  unfold ErrorMiddleware.errorHandler. split.
  - destruct (strictEq (ErrorMiddleware.name err) (VString (lit "ValidationError"))).
    + destruct (ErrorMiddleware.errors err); cbn [option_map]; split;
        try discriminate; auto. intros [_ ?]; discriminate.
    + split; [discriminate|]. intros [? _]; discriminate.
  - intros response H.
    destruct (if strictEq (ErrorMiddleware.name err) (VString (lit "ValidationError"))
              then _ else _) as [error|]; [|discriminate].
    injection H as <-.
    cbn [ErrorMiddleware.status ErrorMiddleware.error ErrorMiddleware.path
         ErrorMiddleware.responseMethod].
    repeat split; apply orElse_truthy; reflexivity.
Qed.




Lemma errorHandler_answer_witness :
  exists response,
    ErrorMiddleware.errorHandler Fixtures.axiosTimeout Fixtures.someRequest = Some response /\
    truthy (ErrorMiddleware.status response) = true /\
    truthy (ErrorMiddleware.error response) = true.
Proof.
  destruct (ErrorMiddleware.errorHandler Fixtures.axiosTimeout Fixtures.someRequest) as [response|] eqn:E;
    [|discriminate E].
  exists response. split; [reflexivity|].
  destruct (proj2 (errorHandler_answer Fixtures.axiosTimeout Fixtures.someRequest) response E) as (S & M & _).
  now split.
Defined.

(** *** The routes *)

Lemma decodeHexString_throw_message (hexString : value) (e : error) :
  decodeHexString hexString = Throw e ->
  statusCode e = Some 400 /\ message e <> [] /\
  ((exists c r, hexString = VString (c :: r)) ->
   message e <> lit "Invalid hex string provided").
Proof.
  intros H.
  destruct (decodeHexString_throw_cases _ _ H)
    as [[-> N]|[(s & _ & _ & _ & ->)|[(s & _ & _ & _ & ->)
       |(s & t & h & p & _ & _ & _ & _ & _ & _ & _ & ->)]]].
  - repeat split; try discriminate. intros (c & r & E). now destruct (N c r).
  - repeat split; discriminate.
  - repeat split; discriminate.
  - repeat split; discriminate.
Qed.

(** X11: [POST /single] answers in one of three ways.  Without a body
    ([req.body] undefined) the destructuring throws inside the [try] block
    and the answer is status 500 with the message of that [TypeError].
    With a body, whatever it holds as [hexData], the answer is either
    status 200 with the string, its raw length as [hexLength], 12 as
    [expectedBytes] and the reading [decodeHexString] returns, or status
    400 with, as error text, the message of the error [decodeHexString]
    throws or, for a missing, empty or non-string [hexData], the
    controller's own message; the service's message
    [Invalid hex string provided] is never sent. *)
Theorem postSingle_replies
    (req : ErrorMiddleware.request) (typeErrorMessage : jsstring) (body : option value) :
  (body = None ->
   App.postSingle req typeErrorMessage body
     = App.Failure
         (App.failure req 500
            (match typeErrorMessage with
             | [] => lit "Internal Server Error"
             | _ => typeErrorMessage
             end)))
  /\ (forall hexData, body = Some hexData ->
      (exists s reading,
         hexData = VString s /\
         decodeHexString hexData = Return reading /\
         App.postSingle req typeErrorMessage body
           = App.Success 200 (DecoderController.mkSingleBody s (len s) 12 reading))
      \/ (exists text,
            App.postSingle req typeErrorMessage body = App.Failure (App.failure req 400 text) /\
            text <> lit "Invalid hex string provided" /\
            (((forall c r, hexData <> VString (c :: r)) /\
              text = lit "hexData field is required and must be a string")
             \/ (exists e, decodeHexString hexData = Throw e /\ text = message e)))).
Proof.
  split.
  - intros ->. unfold App.postSingle, App.route, DecoderController.decodeSingleHex.
    destruct typeErrorMessage; reflexivity.
  - intros hexData ->.
    unfold App.postSingle, App.route, DecoderController.decodeSingleHex.
    assert (Missing : forall v : value, (forall c r, v <> VString (c :: r)) ->
      exists text,
        match ErrorMiddleware.errorHandler
                (ErrorMiddleware.ofError
                   (createApiError (lit "hexData field is required and must be a string") 400))
                req with
        | Some response => App.Failure response
        | None => @App.Unhandled DecoderController.singleBody
        end = App.Failure (App.failure req 400 text) /\
        text <> lit "Invalid hex string provided" /\
        (((forall c r, v <> VString (c :: r)) /\
          text = lit "hexData field is required and must be a string")
         \/ (exists e, decodeHexString v = Throw e /\ text = message e))).
    { intros v N. exists (lit "hexData field is required and must be a string").
      rewrite errorHandler_apiError by (discriminate || reflexivity).
      split; [reflexivity|]. split; [discriminate|]. now left. }
    destruct hexData as [| | | |[|c r]];
      try (right; apply Missing; intros; discriminate).
    set (s := c :: r).
    destruct (decodeHexString (VString s)) as [reading|e] eqn:D; cbv beta iota delta [bind].
    + left. exists s, reading. repeat split.
    + right. destruct (decodeHexString_throw_message _ _ D) as (S & M & I).
      exists (message e). destruct e as [m st]. cbn [message statusCode] in *. subst st.
      change (mkError m (Some 400)) with (createApiError m 400).
      rewrite errorHandler_apiError by (assumption || reflexivity).
      split; [reflexivity|]. split.
      * apply I. now exists c, r.
      * right. exists (createApiError m 400). now split.
Qed.

Lemma postSingle_replies_witness :
  App.postSingle Fixtures.someRequest
    (lit "Cannot destructure property 'hexData' of 'req.body' as it is undefined.") None
  = App.Failure
      (App.failure Fixtures.someRequest 500
         (lit "Cannot destructure property 'hexData' of 'req.body' as it is undefined.")).
Proof.
  exact (proj1 (postSingle_replies Fixtures.someRequest
                  (lit "Cannot destructure property 'hexData' of 'req.body' as it is undefined.")
                  None) eq_refl).
Defined.

(** X14: [GET /hex-data] as a function of how the request to the external
    API settles: an array gives status 200 with the decoded items and their
    number, which does not exceed the number of records; any other response
    data gives 502; a rejection with code [ENOTFOUND] or [ECONNREFUSED]
    gives 503 and one with code [ECONNABORTED] gives 504, each with the
    service's own message; any other rejection is answered as
    [errorHandler] answers the original error. *)
Theorem getHexData_replies (req : ErrorMiddleware.request) (fetched : DecoderService.settled) :
  (forall data, fetched = DecoderService.Fulfilled (Some data) ->
     let total := Z.of_nat (List.length (fetchAndDecodeData data)) in
     App.getHexData req fetched
       = App.Success 200
           (DecoderController.mkHexDataBody
              (lit "Successfully decoded " ++ digitsOf total ++ lit " hex data records")
              (fetchAndDecodeData data) total) /\
     total <= Z.of_nat (List.length data))
  /\ (fetched = DecoderService.Fulfilled None ->
      App.getHexData req fetched
        = App.Failure (App.failure req 502 (lit "Invalid API response format")))
  /\ (forall err, fetched = DecoderService.Rejected err ->
        let code := ErrorMiddleware.code err in
        if strictEq code (VString (lit "ENOTFOUND"))
           || strictEq code (VString (lit "ECONNREFUSED"))
        then App.getHexData req fetched
             = App.Failure (App.failure req 503 (lit "Unable to connect to external IoT API"))
        else if strictEq code (VString (lit "ECONNABORTED"))
        then App.getHexData req fetched
             = App.Failure (App.failure req 504 (lit "External API request timeout"))
        else App.getHexData req fetched
             = App.route (DecoderController.Next err) req).
Proof.
  unfold App.getHexData, DecoderController.decodeHexData,
    DecoderService.fetchAndDecodeDataFrom.
  split; [|split].
  - intros data ->. cbv zeta. split; [reflexivity|].
    apply Nat2Z.inj_le.
    rewrite fetchAndDecodeData_map, length_map. apply filter_length_le.
  - intros ->.
    change (ErrorMiddleware.code (ErrorMiddleware.ofError
              (createApiError (lit "Invalid API response format") 502))) with VUndefined.
    cbn [strictEq orb]. unfold App.route.
    rewrite errorHandler_apiError by (discriminate || reflexivity). reflexivity.
  - intros err ->. cbv zeta.
    destruct (strictEq _ _ || strictEq _ _).
    + unfold App.route.
      rewrite errorHandler_apiError by (discriminate || reflexivity). reflexivity.
    + destruct (strictEq _ _); [|reflexivity].
      unfold App.route.
      rewrite errorHandler_apiError by (discriminate || reflexivity). reflexivity.
Qed.

Lemma getHexData_replies_witness :
  App.getHexData Fixtures.someRequest (DecoderService.Rejected Fixtures.axiosTimeout)
  = App.Failure (App.failure Fixtures.someRequest 504 (lit "External API request timeout")).
Proof.
  exact (proj2 (proj2 (getHexData_replies Fixtures.someRequest (DecoderService.Rejected Fixtures.axiosTimeout)))
           Fixtures.axiosTimeout eq_refl).
Defined.
